(** * Transport-Delay-Predictor: the data-cleaning and feature-engineering core

    A shallow embedding of [ml_pipeline/src/data_cleaning.py] (class
    [DataCleaner]) and [ml_pipeline/src/feature_engineering.py] (class
    [FeatureEngineer]), and the properties the specification states about
    them; then the model selection of [ml_pipeline/src/model_evaluation.py]
    and the request validation, business rules and model wrapper of the
    prediction API ([backend/app]), which consume what the pipeline
    produces.

    Modelling conventions.
    - A table is the ordered list of its rows; a row is a record with the
      seven columns [DataLoader.REQUIRED_COLUMNS] (the guards
      [if 'col' in self.df.columns] therefore take their true branch) and
      the columns the feature stage adds.
    - A missing cell (None, NaN, NaT, pd.NA) is [None].
    - Floating-point cells are exact rationals ([Q]); infinities are not
      represented.  Equalities between numeric cells are stated with [==].
    - Text is a [string] whose characters are the code points below
      256 (Latin-1), the character [c] being the code point
      [nat_of_ascii c]; text with other characters is not represented.
      [str.lower], [str.strip], [str.isdigit], the class [\d] and [in]
      are what Python computes on these characters.
    - The interpreter is CPython 3.11 on Linux: [int] and [str] refuse
      to convert between integers and text beyond 4300 digits, and
      [strftime] prints a year below 1000 without padding.
    - A call that can raise returns a [result]; [try: ... except: pass]
      is [try_].  A method that raises leaves the object and the heap
      as they are at the [raise]: the exception carries them.
    - Library calls whose behaviour is not fixed by the repository
      ([pd.to_datetime], [float], [datetime.strptime]) are Section
      variables, each standing for what the call returns during the
      run considered: every result holds for all their behaviours,
      unless it states what it assumes of them.  [pd.to_datetime]
      reads the system clock for relative text such as 'now'; the
      clock is explicit in the theorem on the timestamp normalizer,
      a second run has parsers of its own, and within one run of a
      stage the clock is held fixed.
    - Calls to [logger] are left out; the audit log [cleaning_log] is
      modelled.
    - DataFrames live in a heap.  Each method is a program on the heap
      (modules [DataCleaner] and [FeatureEngineer], under the names of
      the source); the function it computes on the table of [self.df]
      has the same name with the suffix [_df].
    - The feature dict of the prediction service is a record of
      optional entries, typed as the request types them; the trained
      model is a Section variable that returns a number or raises. *)

From Stdlib Require Import ZArith QArith Qround Qminmax Lqa List Bool Ascii String DecimalString DecimalPos Lia Sorted.
From stdpp Require Import gmap.
Import ListNotations.

Local Open Scope string_scope.
Local Open Scope Z_scope.

(** ** Exceptions *)

Inductive exn := ValueError | TypeError | OverflowError | OutOfBoundsDatetime.

(** How a call ends: with a value, or with what a [raise] carries. *)
Inductive outcome (E A : Type) :=
  | Ok (a : A)
  | Raise (e : E).
Arguments Ok {E A} a.
Arguments Raise {E A} e.

(** A call without effects ends with a value or with an exception. *)
Abbreviation result := (outcome exn).

Definition rbind {A B} (c : result A) (k : A -> result B) : result B :=
  match c with
  | Ok a => k a
  | Raise e => Raise e
  end.

(** [try: return body / except: pass], followed by [rest]: a bare
    [except] catches every exception. *)
Definition try_ {A} (body : result A) (rest : result A) : result A :=
  match body with
  | Ok a => Ok a
  | Raise _ => rest
  end.

Notation "'let*' x ':=' c 'in' k" := (rbind c (fun x => k))
  (at level 10, x name, c at level 100, k at level 200).

(** ** Python text primitives *)

Module Py.

(** [c.lower()] on one character: the capitals A-Z and, further up,
    U+00C0-U+00D6 and U+00D8-U+00DE have their small letter 32 code
    points later. *)
Definition lower_char (c : ascii) : ascii :=
  let n := nat_of_ascii c in
  if (((65 <=? n) && (n <=? 90)) || ((192 <=? n) && (n <=? 214))
      || ((216 <=? n) && (n <=? 222)))%nat
  then ascii_of_nat (n + 32) else c.

(** [s.lower()] *)
Fixpoint lower (s : string) : string :=
  match s with
  | EmptyString => EmptyString
  | String c s' => String (lower_char c) (lower s')
  end.

(** The characters [str.strip()] removes: TAB, LF, VT, FF, CR, FS,
    GS, RS, US, SPACE, NEL (U+0085) and NBSP (U+00A0). *)
Definition is_space (c : ascii) : bool :=
  let n := nat_of_ascii c in
  (((9 <=? n) && (n <=? 13)) || ((28 <=? n) && (n <=? 32))
   || (n =? 133) || (n =? 160))%nat.

(** [s.lstrip()] *)
Fixpoint lstrip (s : string) : string :=
  match s with
  | EmptyString => EmptyString
  | String c s' => if is_space c then lstrip s' else s
  end.

(** [s.rstrip()] *)
Fixpoint rstrip (s : string) : string :=
  match s with
  | EmptyString => EmptyString
  | String c s' =>
      match rstrip s' with
      | EmptyString => if is_space c then EmptyString else String c EmptyString
      | r => String c r
      end
  end.

(** [s.strip()] *)
Definition strip (s : string) : string := rstrip (lstrip s).

(** [sub in s] *)
Fixpoint contains (sub s : string) : bool :=
  String.prefix sub s ||
  match s with
  | EmptyString => false
  | String _ s' => contains sub s'
  end.

(** [x in xs] for a list of strings *)
Definition mem (x : string) (xs : list string) : bool :=
  existsb (String.eqb x) xs.

(** [s.replace(c, '')] for a one-character [c] *)
Fixpoint remove_char (c : ascii) (s : string) : string :=
  match s with
  | EmptyString => EmptyString
  | String a s' =>
      if Ascii.eqb a c then remove_char c s' else String a (remove_char c s')
  end.

(** [\d]: a decimal digit, 0-9. *)
Definition is_digit (c : ascii) : bool :=
  let n := nat_of_ascii c in ((48 <=? n) && (n <=? 57))%nat.

(** Every character is a decimal digit. *)
Fixpoint all_digits (s : string) : bool :=
  match s with
  | EmptyString => true
  | String c s' => is_digit c && all_digits s'
  end.

(** [c.isdigit()]: a decimal digit or one of the superscripts
    U+00B2, U+00B3 and U+00B9. *)
Definition isdigit_char (c : ascii) : bool :=
  let n := nat_of_ascii c in
  (((48 <=? n) && (n <=? 57)) || (n =? 178) || (n =? 179) || (n =? 185))%nat.

(** [s.isdigit()]: non-empty and [c.isdigit()] for every character. *)
Definition isdigit (s : string) : bool :=
  match s with
  | EmptyString => false
  | _ => forallb isdigit_char (list_ascii_of_string s)
  end.

(** The longest prefix of digits of [s], and what follows it. *)
Fixpoint span_digits (s : string) : string * string :=
  match s with
  | EmptyString => (EmptyString, EmptyString)
  | String c s' =>
      if is_digit c
      then let '(d, r) := span_digits s' in (String c d, r)
      else (EmptyString, s)
  end.

(** [re.findall(r'\d+', s)]: the maximal runs of digits, left to right.
    [fuel] bounds the number of characters still to scan. *)
Fixpoint findall_digits_aux (fuel : nat) (s : string) : list string :=
  match fuel with
  | O => []
  | S fuel' =>
      match s with
      | EmptyString => []
      | String c s' =>
          if is_digit c
          then let '(d, r) := span_digits s in d :: findall_digits_aux fuel' r
          else findall_digits_aux fuel' s'
      end
  end.

Definition findall_digits (s : string) : list string :=
  findall_digits_aux (String.length s) s.

Definition digit_val (c : ascii) : Z := Z.of_nat (nat_of_ascii c) - 48.

(** The number a string of decimal digits denotes. *)
Definition int_of_digits (s : string) : Z :=
  fold_left (fun acc c => 10 * acc + digit_val c) (list_ascii_of_string s) 0.

(** The decimal text of an integer. *)
Definition str_of_int (z : Z) : string := NilZero.string_of_int (Z.to_int z).

(** [sys.int_info.default_max_str_digits] *)
Definition int_max_str_digits : Z := 4300.

(** [int(s)] for a string of decimal digits: [ValueError] when it has
    more than [int_max_str_digits] characters. *)
Definition int (s : string) : result Z :=
  if int_max_str_digits <? Z.of_nat (String.length s) then Raise ValueError
  else Ok (int_of_digits s).

(** [str(z)] for an integer: [ValueError] when it has more than
    [int_max_str_digits] digits. *)
Definition str (z : Z) : result string :=
  if int_max_str_digits <? Z.of_nat (String.length (str_of_int (Z.abs z)))
  then Raise ValueError
  else Ok (str_of_int z).

End Py.

(** Substring containment, as a proposition. *)
Definition is_substring (sub s : string) : Prop :=
  exists pre post, s = pre ++ sub ++ post.

(** ** Category normalizer: [DataCleaner.normalize_weather] *)

Definition weather_mapping : list (string * list string) :=
  [ ("clear",  ["clear"; "sunny"; "sun"; "fair"]);
    ("cloudy", ["cloudy"; "clouds"; "overcast"; "cloud"]);
    ("rainy",  ["rainy"; "rain"; "raining"; "drizzle"; "drizzling"]);
    ("snowy",  ["snowy"; "snow"; "snowing"; "sleet"]) ].

(** The loop [for standard, variants in weather_mapping.items()]. *)
Fixpoint first_match (value_lower : string) (items : list (string * list string))
  : option string :=
  match items with
  | [] => None
  | (standard, variants) :: rest =>
      if Py.mem value_lower variants
         || existsb (fun v => Py.contains v value_lower) variants
      then Some standard
      else first_match value_lower rest
  end.

Definition normalize_weather_value (value : option string) : string :=
  match value with
  | None => "clear"
  | Some s =>
      let value_lower := Py.strip (Py.lower s) in
      match first_match value_lower weather_mapping with
      | Some standard => standard
      | None => "clear"
      end
  end.

(** ** Identifier unifier: [DataCleaner.unify_route_identifiers] *)

(** A raw route cell: an integer, or text (a float cell stands as its
    [str], such as ["3.0"]). *)
Inductive rval :=
  | RInt (z : Z)
  | RStr (s : string).

(** [str(value)] *)
Definition str_rval (v : rval) : result string :=
  match v with
  | RInt z => Py.str z
  | RStr s => Ok s
  end.

Definition extract_route_number (value : option rval) : result Z :=
  match value with
  | None => Ok 1
  | Some v =>
      let* value_str := str_rval v in
      (* Extract first number found *)
      match Py.findall_digits value_str with
      | n0 :: _ =>
          let* route_num := Py.int n0 in
          (* Constrain to reasonable range (1-10 as per frontend) *)
          Ok (Z.min (Z.max route_num 1) 10)
      | [] =>
          (* If no number found, try to map common patterns *)
          let value_lower := Py.lower value_str in
          if Py.contains "one" value_lower || Py.contains "1" value_lower then Ok 1
          else if Py.contains "two" value_lower || Py.contains "2" value_lower then Ok 2
          else Ok 1
      end
  end.

(** ** Calendar values *)

Definition is_leap (y : Z) : bool :=
  (y mod 4 =? 0) && (negb (y mod 100 =? 0) || (y mod 400 =? 0)).

Definition days_in_month (y m : Z) : Z :=
  if m =? 2 then (if is_leap y then 29 else 28)
  else if (m =? 4) || (m =? 6) || (m =? 9) || (m =? 11) then 30
  else 31.

(** The checks the [datetime] constructor makes. *)
Definition valid_fields (y m d H M S : Z) : bool :=
  (1 <=? y) && (y <=? 9999) && (1 <=? m) && (m <=? 12) &&
  (1 <=? d) && (d <=? days_in_month y m) &&
  (0 <=? H) && (H <? 24) && (0 <=? M) && (M <? 60) && (0 <=? S) && (S <? 60).

(** A [datetime] / [pd.Timestamp] object, at the resolution of the
    canonical format (whole seconds). *)
Record datetime := mkDT {
  year : Z; month : Z; day : Z; hour : Z; minute : Z; second : Z;
  dt_valid : valid_fields year month day hour minute second = true
}.

(** [datetime(y, m, d, H, M, S)], which raises [ValueError] on fields
    out of range. *)
Definition make_datetime (y m d H M S : Z) : result datetime :=
  match Bool.bool_dec (valid_fields y m d H M S) true with
  | left pf => Ok (mkDT y m d H M S pf)
  | right _ => Raise ValueError
  end.

Definition digit_char (n : Z) : ascii := ascii_of_nat (48 + Z.to_nat n).

Definition pad2 (n : Z) : string :=
  String (digit_char (n / 10 mod 10)) (String (digit_char (n mod 10)) "").

Definition pad4 (n : Z) : string :=
  String (digit_char (n / 1000 mod 10)) (String (digit_char (n / 100 mod 10)) (pad2 n)).

(** [%Y] as the C library prints it: the year in decimal, without
    padding. *)
Definition year_text (y : Z) : string :=
  if y <? 10 then String (digit_char (y mod 10)) ""
  else if y <? 100 then pad2 y
  else if y <? 1000 then String (digit_char (y / 100 mod 10)) (pad2 y)
  else pad4 y.

(** [dt.strftime('%Y-%m-%d %H:%M:%S')] *)
Definition strftime (dt : datetime) : string :=
  year_text (year dt) ++ "-" ++ pad2 (month dt) ++ "-" ++ pad2 (day dt) ++ " " ++
  pad2 (hour dt) ++ ":" ++ pad2 (minute dt) ++ ":" ++ pad2 (second dt).

(** [str(dt)]: the ISO text with a space, the year padded to four
    digits. *)
Definition isoformat (dt : datetime) : string :=
  pad4 (year dt) ++ "-" ++ pad2 (month dt) ++ "-" ++ pad2 (day dt) ++ " " ++
  pad2 (hour dt) ++ ":" ++ pad2 (minute dt) ++ ":" ++ pad2 (second dt).

(** [NaT.strftime] raises [ValueError]; [None] is [NaT]. *)
Definition ts_strftime (ts : option datetime) : result string :=
  match ts with
  | Some dt => Ok (strftime dt)
  | None => Raise ValueError
  end.

(** Days from 1970-01-01 to the civil date. *)
Definition days_from_civil (y m d : Z) : Z :=
  let y' := if m <=? 2 then y - 1 else y in
  let era := y' / 400 in
  let yoe := y' - era * 400 in
  let mp := if 2 <? m then m - 3 else m + 9 in
  let doy := (153 * mp + 2) / 5 + d - 1 in
  let doe := yoe * 365 + yoe / 4 - yoe / 100 + doy in
  era * 146097 + doe - 719468.

(** [ts.timestamp()]: seconds since the epoch. *)
Definition timestamp (dt : datetime) : Z :=
  days_from_civil (year dt) (month dt) (day dt) * 86400
  + hour dt * 3600 + minute dt * 60 + second dt.

(** [ts.dayofweek], Monday = 0. *)
Definition dayofweek (dt : datetime) : Z :=
  (days_from_civil (year dt) (month dt) (day dt) + 3) mod 7.

(** The canonical shape [YYYY-MM-DD HH:MM:SS]. *)
Definition is_canonical (s : string) : bool :=
  match list_ascii_of_string s with
  | [y1; y2; y3; y4; s1; m1; m2; s2; d1; d2; s3; h1; h2; s4; n1; n2; s5; c1; c2] =>
      forallb Py.is_digit [y1; y2; y3; y4; m1; m2; d1; d2; h1; h2; n1; n2; c1; c2]
      && Ascii.eqb s1 "-" && Ascii.eqb s2 "-" && Ascii.eqb s3 " "
      && Ascii.eqb s4 ":" && Ascii.eqb s5 ":"
  | _ => false
  end.

(** A time cell: missing, text (a numeric cell stands as its [str]),
    or a parsed timestamp. *)
Inductive tcell :=
  | TNa
  | TStr (s : string)
  | TStamp (dt : datetime).

(** [str(value)] *)
Definition str_tcell (value : tcell) : string :=
  match value with
  | TNa => "nan"
  | TStr s => s
  | TStamp dt => isoformat dt
  end.

(** ** Timestamp normalizer: [DataCleaner._parse_timestamp] *)

Definition is_sep (c : ascii) : bool := Ascii.eqb c "-" || Ascii.eqb c "/".

(** [\d{1,2}] at the end of the pattern: greedy, at least one digit. *)
Definition match_d12_end (s : string) : option string :=
  match s with
  | String a (String b _) =>
      if Py.is_digit a && Py.is_digit b then Some (String a (String b ""))
      else if Py.is_digit a then Some (String a "") else None
  | String a EmptyString => if Py.is_digit a then Some (String a "") else None
  | EmptyString => None
  end.

(** [\d{1,2}[-/]\d{1,2}]: two digits are tried before one. *)
Definition match_md (s : string) : option string :=
  let two :=
    match s with
    | String a (String b (String c rest)) =>
        if Py.is_digit a && Py.is_digit b && is_sep c
        then option_map (fun t => String a (String b (String c t))) (match_d12_end rest)
        else None
    | _ => None
    end in
  match two with
  | Some r => Some r
  | None =>
      match s with
      | String a (String c rest) =>
          if Py.is_digit a && is_sep c
          then option_map (fun t => String a (String c t)) (match_d12_end rest)
          else None
      | _ => None
      end
  end.

(** [(\d{4}[-/]\d{1,2}[-/]\d{1,2})] anchored at the start of [s]. *)
Definition match_date_at (s : string) : option string :=
  match s with
  | String a (String b (String c (String d (String e rest)))) =>
      if Py.is_digit a && Py.is_digit b && Py.is_digit c && Py.is_digit d && is_sep e
      then option_map (fun t => String a (String b (String c (String d (String e t)))))
                      (match_md rest)
      else None
  | _ => None
  end.

(** [re.search(date_pattern, s)], giving [match.group(1)]. *)
Fixpoint search_date (s : string) : option string :=
  match match_date_at s with
  | Some g => Some g
  | None =>
      match s with
      | EmptyString => None
      | String _ s' => search_date s'
      end
  end.

Definition formats : list string :=
  [ "%Y-%m-%d %H:%M:%S"; "%Y/%m/%d %H:%M:%S"; "%d-%m-%Y %H:%M:%S";
    "%d/%m/%Y %H:%M:%S"; "%Y-%m-%d"; "%Y/%m/%d" ].

Section ParseTimestamp.

(** [pd.to_datetime(s)] on one string, at the time of the call: a
    timestamp, [NaT] ([None]), or an exception. *)
Variable pd_to_datetime : string -> result (option datetime).
(** [float(s)] *)
Variable py_float : string -> result Q.
(** [pd.to_datetime(x, unit='s')] *)
Variable pd_to_datetime_unit_s : Q -> result (option datetime).
(** [datetime.strptime(s, fmt)] *)
Variable strptime : string -> string -> result datetime.

(** The loop [for fmt in formats: try: ... except: continue], then
    [rest]. *)
Fixpoint try_formats (value_str : string) (fmts : list string)
         (rest : result (option string)) : result (option string) :=
  match fmts with
  | [] => rest
  | fmt :: fmts' =>
      try_ (let* dt := strptime value_str fmt in Ok (Some (strftime dt)))
           (try_formats value_str fmts' rest)
  end.

Definition _parse_timestamp (value : tcell) : result (option string) :=
  match value with
  | TNa => Ok None
  | _ =>
      let value_str := Py.strip (str_tcell value) in
      (* Try parsing as ISO format first *)
      try_ (let* dt := pd_to_datetime value_str in
            let* s := ts_strftime dt in Ok (Some s))
      (* Try Unix timestamp *)
      (let unix_rest :=
         (* Try various date formats *)
         try_formats value_str formats
         (* Extract date-like patterns *)
         (match search_date value_str with
          | Some g =>
              try_ (let* dt := pd_to_datetime g in
                    let* s := ts_strftime dt in Ok (Some s))
                   (Ok None)
          | None => Ok None
          end) in
       if Py.isdigit (Py.remove_char "-" (Py.remove_char "." value_str))
       then try_ (let* x := py_float value_str in
                  let* dt := pd_to_datetime_unit_s x in
                  let* s := ts_strftime dt in Ok (Some s))
                 unix_rest
       else unix_rest)
  end.

End ParseTimestamp.

(** ** pandas column primitives *)

Module Pd.

Local Open Scope Q_scope.

(** [a < b] on rationals, as a boolean *)
Definition Qltb (a b : Q) : bool := negb (Qle_bool b a).

(** [s.dropna()] *)
Fixpoint dropna {A} (col : list (option A)) : list A :=
  match col with
  | [] => []
  | Some v :: rest => v :: dropna rest
  | None :: rest => dropna rest
  end.

(** [s.fillna(v)] *)
Definition fillna {A} (v : A) (col : list (option A)) : list (option A) :=
  map (fun c => match c with Some _ => c | None => Some v end) col.

(** [s.fillna(v)] where [v] itself may be NaN *)
Definition fillna_nan {A} (v : option A) (col : list (option A)) : list (option A) :=
  map (fun c => match c with Some _ => c | None => v end) col.

(** [s.ffill()]: [last] is the latest value seen above. *)
Fixpoint ffill_from {A} (last : option A) (col : list (option A)) : list (option A) :=
  match col with
  | [] => []
  | Some v :: rest => Some v :: ffill_from (Some v) rest
  | None :: rest => last :: ffill_from last rest
  end.

Definition ffill {A} (col : list (option A)) : list (option A) := ffill_from None col.

(** Sorting of the values of a numeric column. *)
Fixpoint insert_sorted (x : Q) (xs : list Q) : list Q :=
  match xs with
  | [] => [x]
  | y :: ys => if Qle_bool x y then x :: xs else y :: insert_sorted x ys
  end.

Definition sort (xs : list Q) : list Q := fold_right insert_sorted [] xs.

(** The [q]-quantile of the sorted values [xs], by linear
    interpolation between the two closest ranks. *)
Definition interpolate (q : Q) (xs : list Q) : Q :=
  let n := Z.of_nat (List.length xs) in
  let h := q * inject_Z (n - 1) in
  let i := Qfloor h in
  let g := h - inject_Z i in
  let a := nth (Z.to_nat i) xs 0 in
  let b := nth (Z.to_nat (Z.min (i + 1) (n - 1))) xs 0 in
  a + (b - a) * g.

(** [s.quantile(q)], NaN skipped; NaN ([None]) when no value is
    present. *)
Definition quantile (q : Q) (col : list (option Q)) : option Q :=
  let xs := sort (dropna col) in
  match xs with
  | [] => None
  | _ => Some (Qred (interpolate q xs))
  end.

(** [s.median()], NaN skipped; NaN when no value is present. *)
Definition median (col : list (option Q)) : option Q :=
  let xs := sort (dropna col) in
  match xs with
  | [] => None
  | _ =>
      let n := List.length xs in
      if Nat.even n
      then Some (Qred ((nth (n / 2 - 1) xs 0 + nth (n / 2) xs 0) / 2))
      else Some (nth (n / 2) xs 0)
  end.

(** Occurrences of [x] in [xs]. *)
Definition occurrences (x : string) (xs : list string) : nat :=
  List.length (List.filter (String.eqb x) xs).

(** [s.mode()[0]] when [s.mode()] is not empty: the most frequent
    value, the smallest one among ties (the modes come sorted). *)
Definition mode (col : list (option string)) : option string :=
  let xs := dropna col in
  fold_left
    (fun best x =>
       match best with
       | None => Some x
       | Some b =>
           if (occurrences b xs <? occurrences x xs)%nat
              || ((occurrences x xs =? occurrences b xs)%nat && String.ltb x b)
           then Some x else Some b
       end)
    xs None.

(** NaN-propagating arithmetic. *)
Definition nan_lift2 (f : Q -> Q -> Q) (a b : option Q) : option Q :=
  match a, b with
  | Some x, Some y => Some (f x y)
  | _, _ => None
  end.

(** Python's [max(a, b)] with [b] possibly NaN: [b] when [b > a],
    else [a]. *)
Definition py_max (a : Q) (b : option Q) : Q :=
  match b with
  | Some v => if Qltb a v then v else a
  | None => a
  end.

(** Python's [min(a, b)] with [b] possibly NaN: [b] when [b < a],
    else [a]. *)
Definition py_min (a : Q) (b : option Q) : Q :=
  match b with
  | Some v => if Qltb v a then v else a
  | None => a
  end.

Definition clip_value (lo hi v : Q) : Q :=
  if Qltb v lo then lo else if Qltb hi v then hi else v.

(** [s.clip(lower=lower, upper=upper)] with scalar bounds: pandas
    orders the two bounds first; NaN cells stay NaN. *)
Definition clip (lower upper : Q) (col : list (option Q)) : list (option Q) :=
  let lo := if Qltb upper lower then upper else lower in
  let hi := if Qltb upper lower then lower else upper in
  map (option_map (clip_value lo hi)) col.

(** [s.clip(lower=lower)] *)
Definition clip_lower (lower : Q) (col : list (option Q)) : list (option Q) :=
  map (option_map (fun v => if Qltb v lower then lower else v)) col.

End Pd.

(** ** Tables *)

(** The columns the feature stage adds; [None] is a cell that is
    missing or not yet computed. *)
Record features := mkFeatures {
  delay_minutes : option Q;
  hour_of_day : option Z;
  time_of_day : option Z;
  day_of_week : option Z;
  is_weekend : option Z;
  weather_severity : option Z;
  route_frequency : option Q
}.

Definition no_features : features :=
  mkFeatures None None None None None None None.

Record row := mkRow {
  route_id : option rval;
  scheduled_time : tcell;
  actual_time : tcell;
  weather : option string;
  passenger_count : option Q;
  latitude : option Q;
  longitude : option Q;
  derived : features
}.

Definition table := list row.

(** A row as loaded from the CSV file. *)
Definition raw_row rt st at_ w pc la lo : row :=
  mkRow rt st at_ w pc la lo no_features.

Definition set_route_id (v : option rval) (r : row) : row :=
  mkRow v (scheduled_time r) (actual_time r) (weather r) (passenger_count r)
        (latitude r) (longitude r) (derived r).
Definition set_scheduled_time (v : tcell) (r : row) : row :=
  mkRow (route_id r) v (actual_time r) (weather r) (passenger_count r)
        (latitude r) (longitude r) (derived r).
Definition set_actual_time (v : tcell) (r : row) : row :=
  mkRow (route_id r) (scheduled_time r) v (weather r) (passenger_count r)
        (latitude r) (longitude r) (derived r).
Definition set_weather (v : option string) (r : row) : row :=
  mkRow (route_id r) (scheduled_time r) (actual_time r) v (passenger_count r)
        (latitude r) (longitude r) (derived r).
Definition set_passenger_count (v : option Q) (r : row) : row :=
  mkRow (route_id r) (scheduled_time r) (actual_time r) (weather r) v
        (latitude r) (longitude r) (derived r).
Definition set_derived (v : features) (r : row) : row :=
  mkRow (route_id r) (scheduled_time r) (actual_time r) (weather r)
        (passenger_count r) (latitude r) (longitude r) v.

(** [df[col] = values]: the column is replaced cell by cell. *)
Definition assign {A} (set : A -> row -> row) (values : list A) (df : table) : table :=
  map (fun vr => set (fst vr) (snd vr)) (combine values df).

(** [df[mask]]: the rows where the boolean mask holds. *)
Fixpoint select (mask : list bool) (df : table) : table :=
  match mask, df with
  | b :: mask', r :: df' => if b then r :: select mask' df' else select mask' df'
  | _, _ => []
  end.

Definition isnull {A} (c : option A) : bool :=
  match c with None => true | Some _ => false end.

Definition count_true (mask : list bool) : nat :=
  List.length (List.filter (fun b => b) mask).

(** ** Objects and the heap

    DataFrames are heap objects: [df.copy()] allocates a new one,
    [self.df[col] = ...] mutates the object [self.df] refers to, and
    [self.df = ...] makes [self.df] refer to another object. *)

Abbreviation loc := nat (only parsing).
Abbreviation heap := (gmap nat table) (only parsing).

(** Objects that hold a DataFrame in the attribute [df]. *)
Class Self (S : Type) := {
  self_df : S -> loc;
  with_df : loc -> S -> S;
  self_df_with_df : forall l s, self_df (with_df l s) = l
}.

(** A method: from the object and the heap to a value or an exception,
    with the object and the heap as the [return] or the [raise] leaves
    them. *)
Definition M (S A : Type) : Type :=
  S -> heap -> outcome (exn * S * heap) (A * S * heap).

Definition mret {S A} (a : A) : M S A := fun s σ => Ok (a, s, σ).

Definition mbind {S A B} (c : M S A) (k : A -> M S B) : M S B :=
  fun s σ =>
    match c s σ with
    | Ok (a, s', σ') => k a s' σ'
    | Raise raised => Raise raised
    end.

Notation "'let!' x ':=' c 'in' k" := (mbind c (fun x => k))
  (at level 10, x name, c at level 100, k at level 200).
Notation "'do!' c 'in' k" := (mbind c (fun _ => k))
  (at level 10, c at level 100, k at level 200).

Section HeapOps.
Context {S : Type} `{Self S}.

(** [self.df], as a table (the empty table at a location that holds
    no object). *)
Definition read_df : M S table :=
  fun s σ => Ok (σ !!! self_df s, s, σ).

(** [self.df[col] = ...]: the object [self.df] refers to is changed
    in place. *)
Definition setitem (f : table -> table) : M S unit :=
  fun s σ => Ok (tt, s, <[self_df s := f (σ !!! self_df s)]> σ).

(** [self.df = <new DataFrame>] *)
Definition rebind_df (t : table) : M S unit :=
  fun s σ => let l := fresh (dom σ) in Ok (tt, with_df l s, <[l := t]> σ).

(** [self.df = self.<method>()] where the method returned [l]. *)
Definition set_df (l : loc) : M S unit :=
  fun s σ => Ok (tt, with_df l s, σ).

(** [return self.df] *)
Definition return_df : M S loc :=
  fun s σ => Ok (self_df s, s, σ).

(** A computation without effects, which can raise. *)
Definition lift {A} (r : result A) : M S A :=
  fun s σ => match r with Ok a => Ok (a, s, σ) | Raise e => Raise (e, s, σ) end.
End HeapOps.

(** ** Data cleaner *)

(** The audit log, one constructor per message, with the values the
    message interpolates (the lists of unique values are left out). *)
Inductive log_entry :=
  | LogInitialMissing (counts : list nat)
  | LogRouteForwardFilled
  | LogWeatherMode (mode_weather : string)
  | LogPassengerMedian (median_passengers : option Q)
  | LogGpsMissingDropped (gps_missing : nat)
  | LogTimestampsStandardized (col : string)
  | LogWeatherNormalized
  | LogRouteUnified
  | LogOutliersTreated (outliers_before : nat) (lower_bound upper_bound : Q)
  | LogGpsInvalidRemoved (invalid_count : nat).

(** [s.apply(f)] for an [f] that can raise. *)
Fixpoint apply_ {A B} (f : A -> result B) (col : list A) : result (list B) :=
  match col with
  | [] => Ok []
  | c :: rest =>
      let* v := f c in
      let* vs := apply_ f rest in
      Ok (v :: vs)
  end.

Module DataCleaner.

Local Open Scope Q_scope.

Record t := mk {
  df : loc;
  cleaning_log : list log_entry
}.

#[global] Instance self : Self t := {
  self_df := df;
  with_df l s := mk l (cleaning_log s);
  self_df_with_df _ _ := eq_refl
}.

(** [self.cleaning_log.append(entry)] *)
Definition log (entry : log_entry) : M t unit :=
  fun s σ => Ok (tt, mk (df s) (cleaning_log s ++ [entry]), σ).

(** *** The statements that change the table *)

(** [self.df.isnull().sum()] over the seven loaded columns *)
Definition missing_counts (d : table) : list nat :=
  [ count_true (map (fun r => isnull (route_id r)) d);
    count_true (map (fun r => match scheduled_time r with TNa => true | _ => false end) d);
    count_true (map (fun r => match actual_time r with TNa => true | _ => false end) d);
    count_true (map (fun r => isnull (weather r)) d);
    count_true (map (fun r => isnull (passenger_count r)) d);
    count_true (map (fun r => isnull (latitude r)) d);
    count_true (map (fun r => isnull (longitude r)) d) ].

(** [self.df['route_id'] = self.df['route_id'].ffill()] *)
Definition ffill_route_id (d : table) : table :=
  assign set_route_id (Pd.ffill (map route_id d)) d.

(** [self.df['weather'].mode()[0] if not self.df['weather'].mode().empty
    else 'clear'] *)
Definition mode_weather (d : table) : string :=
  match Pd.mode (map weather d) with
  | Some m => m
  | None => "clear"
  end.

(** [self.df['weather'] = self.df['weather'].fillna(mode_weather)] *)
Definition fill_weather (mode_weather : string) (d : table) : table :=
  assign set_weather (Pd.fillna mode_weather (map weather d)) d.

(** [self.df['passenger_count'].median()] *)
Definition median_passengers (d : table) : option Q :=
  Pd.median (map passenger_count d).

(** [self.df['passenger_count'] =
     self.df['passenger_count'].fillna(median_passengers)] *)
Definition fill_passenger_count (median_passengers : option Q) (d : table) : table :=
  assign set_passenger_count
         (Pd.fillna_nan median_passengers (map passenger_count d)) d.

(** [self.df[['latitude', 'longitude']].isnull().any(axis=1)] *)
Definition gps_isnull (d : table) : list bool :=
  map (fun r => isnull (latitude r) || isnull (longitude r)) d.

(** [self.df.dropna(subset=['latitude', 'longitude'])] *)
Definition dropna_gps (d : table) : table :=
  select (map negb (gps_isnull d)) d.

Definition of_parsed (v : option string) : tcell :=
  match v with
  | Some s => TStr s
  | None => TNa
  end.

(** [(self.df['latitude'] < -90) | (self.df['latitude'] > 90)]: a
    comparison with NaN is false. *)
Definition invalid_lat (d : table) : list bool :=
  map (fun r => match latitude r with
                | Some v => Pd.Qltb v (-90) || Pd.Qltb 90 v
                | None => false
                end) d.

Definition invalid_lon (d : table) : list bool :=
  map (fun r => match longitude r with
                | Some v => Pd.Qltb v (-180) || Pd.Qltb 180 v
                | None => false
                end) d.

(** [mask1 | mask2] and [~mask1 & ~mask2], cell by cell *)
Definition mask_or (a b : list bool) : list bool :=
  map (fun p => fst p || snd p) (combine a b).
Definition mask_nor (a b : list bool) : list bool :=
  map (fun p => negb (fst p) && negb (snd p)) (combine a b).

(** [self.df['weather'] = self.df['weather'].apply(normalize_weather_value)] *)
Definition apply_normalize_weather (d : table) : table :=
  assign set_weather (map (fun v => Some (normalize_weather_value v)) (map weather d)) d.

(** [self.df['route_id'] = values], for a column of integers *)
Definition assign_route_numbers (values : list Z) (d : table) : table :=
  assign set_route_id (map (fun z => Some (RInt z)) values) d.

(** The bounds of [treat_outliers]. *)
Definition Q1 (d : table) : option Q := Pd.quantile (1 # 4) (map passenger_count d).
Definition Q3 (d : table) : option Q := Pd.quantile (3 # 4) (map passenger_count d).
Definition IQR (d : table) : option Q := Pd.nan_lift2 Qminus (Q3 d) (Q1 d).

Definition lower_bound (d : table) : Q :=
  Pd.py_max 0 (Pd.nan_lift2 Qminus (Q1 d) (option_map (Qmult (3 # 2)) (IQR d))).
Definition upper_bound (d : table) : Q :=
  Pd.py_min 500 (Pd.nan_lift2 Qplus (Q3 d) (option_map (Qmult (3 # 2)) (IQR d))).

(** [((self.df['passenger_count'] < lower_bound) |
      (self.df['passenger_count'] > upper_bound)).sum()] *)
Definition outliers_before (lower upper : Q) (d : table) : nat :=
  count_true (map (fun r => match passenger_count r with
                            | Some v => Pd.Qltb v lower || Pd.Qltb upper v
                            | None => false
                            end) d).

(** [self.df['passenger_count'] =
     self.df['passenger_count'].clip(lower=lower, upper=upper)] *)
Definition clip_passenger_count (lower upper : Q) (d : table) : table :=
  assign set_passenger_count (Pd.clip lower upper (map passenger_count d)) d.

Section CleanerStages.

Variable pd_to_datetime : string -> result (option datetime).
Variable py_float : string -> result Q.
Variable pd_to_datetime_unit_s : Q -> result (option datetime).
Variable strptime : string -> string -> result datetime.

Definition parse_timestamp : tcell -> result (option string) :=
  _parse_timestamp pd_to_datetime py_float pd_to_datetime_unit_s strptime.

(** *** What each stage does to the table *)

Definition handle_missing_values_df (d : table) : table :=
  let d1 := ffill_route_id d in
  let d2 := fill_weather (mode_weather d1) d1 in
  let d3 := fill_passenger_count (median_passengers d2) d2 in
  let gps_missing := count_true (gps_isnull d3) in
  if (0 <? gps_missing)%nat then dropna_gps d3 else d3.

Definition standardize_scheduled_time (d : table) : result table :=
  let* col := apply_ parse_timestamp (map scheduled_time d) in
  Ok (assign set_scheduled_time (map of_parsed col) d).

Definition standardize_actual_time (d : table) : result table :=
  let* col := apply_ parse_timestamp (map actual_time d) in
  Ok (assign set_actual_time (map of_parsed col) d).

Definition standardize_timestamps_df (d : table) : result table :=
  let* d1 := standardize_scheduled_time d in
  standardize_actual_time d1.

Definition normalize_weather_df (d : table) : table := apply_normalize_weather d.

Definition unify_route_identifiers_df (d : table) : result table :=
  let* col := apply_ extract_route_number (map route_id d) in
  Ok (assign_route_numbers col d).

Definition treat_outliers_df (d : table) : table :=
  let d1 := clip_passenger_count (lower_bound d) (upper_bound d) d in
  clip_passenger_count 0 500 d1.

Definition handle_gps_coordinates_df (d : table) : table :=
  let invalid_count := count_true (mask_or (invalid_lat d) (invalid_lon d)) in
  if (0 <? invalid_count)%nat
  then select (mask_nor (invalid_lat d) (invalid_lon d)) d
  else d.

Definition clean_all_df (d : table) : result table :=
  let d1 := handle_missing_values_df d in
  let* d2 := standardize_timestamps_df d1 in
  let d3 := normalize_weather_df d2 in
  let* d4 := unify_route_identifiers_df d3 in
  let d5 := treat_outliers_df d4 in
  Ok (handle_gps_coordinates_df d5).

(** *** The methods *)

(** [DataCleaner(df)] *)
Definition init (df_arg : loc) : heap -> t * heap :=
  fun σ => let l := fresh (dom σ) in (mk l [], <[l := σ !!! df_arg]> σ).

Definition handle_missing_values : M t loc :=
  let! d := read_df in
  do! log (LogInitialMissing (missing_counts d)) in
  (* route_id: Forward fill *)
  do! setitem ffill_route_id in
  do! log LogRouteForwardFilled in
  (* weather: Mode imputation *)
  let! d := read_df in
  let mode_weather := mode_weather d in
  do! setitem (fill_weather mode_weather) in
  do! log (LogWeatherMode mode_weather) in
  (* passenger_count: Median imputation *)
  let! d := read_df in
  let median_passengers := median_passengers d in
  do! setitem (fill_passenger_count median_passengers) in
  do! log (LogPassengerMedian median_passengers) in
  (* GPS coordinates: Drop rows with missing *)
  let! d := read_df in
  let gps_missing := count_true (gps_isnull d) in
  do! (if (0 <? gps_missing)%nat
       then do! rebind_df (dropna_gps d) in
            log (LogGpsMissingDropped gps_missing)
       else mret tt) in
  return_df.

Definition standardize_timestamps : M t loc :=
  let! d := read_df in
  let! col := lift (apply_ parse_timestamp (map scheduled_time d)) in
  do! setitem (assign set_scheduled_time (map of_parsed col)) in
  do! log (LogTimestampsStandardized "scheduled_time") in
  let! d := read_df in
  let! col := lift (apply_ parse_timestamp (map actual_time d)) in
  do! setitem (assign set_actual_time (map of_parsed col)) in
  do! log (LogTimestampsStandardized "actual_time") in
  return_df.

Definition normalize_weather : M t loc :=
  do! setitem apply_normalize_weather in
  do! log LogWeatherNormalized in
  return_df.

Definition unify_route_identifiers : M t loc :=
  let! d := read_df in
  let! col := lift (apply_ extract_route_number (map route_id d)) in
  do! setitem (assign_route_numbers col) in
  do! log LogRouteUnified in
  return_df.

Definition treat_outliers : M t loc :=
  let! d := read_df in
  let lower_bound := lower_bound d in
  let upper_bound := upper_bound d in
  let outliers_before := outliers_before lower_bound upper_bound d in
  (* Cap outliers *)
  do! setitem (clip_passenger_count lower_bound upper_bound) in
  (* Also ensure within absolute bounds (0-500) *)
  do! setitem (clip_passenger_count 0 500) in
  do! log (LogOutliersTreated outliers_before lower_bound upper_bound) in
  return_df.

Definition handle_gps_coordinates : M t loc :=
  let! d := read_df in
  let invalid_lat := invalid_lat d in
  let invalid_lon := invalid_lon d in
  let invalid_count := count_true (mask_or invalid_lat invalid_lon) in
  do! (if (0 <? invalid_count)%nat
       then do! rebind_df (select (mask_nor invalid_lat invalid_lon) d) in
            log (LogGpsInvalidRemoved invalid_count)
       else mret tt) in
  return_df.

Definition clean_all : M t loc :=
  let! l := handle_missing_values in do! set_df l in
  let! l := standardize_timestamps in do! set_df l in
  let! l := normalize_weather in do! set_df l in
  let! l := unify_route_identifiers in do! set_df l in
  let! l := treat_outliers in do! set_df l in
  let! l := handle_gps_coordinates in do! set_df l in
  return_df.

End CleanerStages.

(** [return self.cleaning_log] *)
Definition get_cleaning_log : M t (list log_entry) :=
  fun s σ => Ok (cleaning_log s, s, σ).

End DataCleaner.

(** ** Feature engineer *)

Definition set_delay_minutes (v : option Q) (r : row) : row :=
  let f := derived r in
  set_derived (mkFeatures v (hour_of_day f) (time_of_day f) (day_of_week f)
                          (is_weekend f) (weather_severity f) (route_frequency f)) r.
Definition set_hour (v : option Z) (r : row) : row :=
  let f := derived r in
  set_derived (mkFeatures (delay_minutes f) v (time_of_day f) (day_of_week f)
                          (is_weekend f) (weather_severity f) (route_frequency f)) r.
Definition set_time_of_day (v : option Z) (r : row) : row :=
  let f := derived r in
  set_derived (mkFeatures (delay_minutes f) (hour_of_day f) v (day_of_week f)
                          (is_weekend f) (weather_severity f) (route_frequency f)) r.
Definition set_day_of_week (v : option Z) (r : row) : row :=
  let f := derived r in
  set_derived (mkFeatures (delay_minutes f) (hour_of_day f) (time_of_day f) v
                          (is_weekend f) (weather_severity f) (route_frequency f)) r.
Definition set_is_weekend (v : option Z) (r : row) : row :=
  let f := derived r in
  set_derived (mkFeatures (delay_minutes f) (hour_of_day f) (time_of_day f)
                          (day_of_week f) v (weather_severity f) (route_frequency f)) r.
Definition set_weather_severity (v : option Z) (r : row) : row :=
  let f := derived r in
  set_derived (mkFeatures (delay_minutes f) (hour_of_day f) (time_of_day f)
                          (day_of_week f) (is_weekend f) v (route_frequency f)) r.
Definition set_route_frequency (v : option Q) (r : row) : row :=
  let f := derived r in
  set_derived (mkFeatures (delay_minutes f) (hour_of_day f) (time_of_day f)
                          (day_of_week f) (is_weekend f) (weather_severity f) v) r.

Definition row_delay (r : row) : option Q := delay_minutes (derived r).

Module FeatureEngineer.

Local Open Scope Q_scope.

Record t := mk { df : loc }.

#[global] Instance self : Self t := {
  self_df := df;
  with_df l _ := mk l;
  self_df_with_df _ _ := eq_refl
}.

Definition notna_time (c : tcell) : bool :=
  match c with TNa => false | _ => true end.

Definition of_timestamp (v : option datetime) : tcell :=
  match v with
  | Some dt => TStamp dt
  | None => TNa
  end.

(** The body of the loop of [compute_delay_duration] for the row at
    [idx]: [self.df.loc[idx, 'delay_minutes'] = delay_min] when both
    times are present and the delay is within a year. *)
Definition delay_step (valid_mask : list bool) (idx : nat) (d : table) : table :=
  if bool_decide (valid_mask !! idx = Some true) then
    match (d : list row) !! idx with
    | Some r =>
        match scheduled_time r, actual_time r with
        | TStamp sched, TStamp actual =>
            let sched_ts := timestamp sched in
            let actual_ts := timestamp actual in
            let delay_sec := (actual_ts - sched_ts)%Z in
            let delay_min := inject_Z delay_sec / 60 in
            if Qle_bool (-525600) delay_min && Qle_bool delay_min 525600
            then <[idx := set_delay_minutes (Some delay_min) r]> (d : list row)
            else d
        | _, _ => d
        end
    | None => d
    end
  else d.

(** [for idx in self.df.index: ...] *)
Definition delay_loop (valid_mask : list bool) (index : list nat) (d : table) : table :=
  fold_left (fun d idx => delay_step valid_mask idx d) index d.

(** [categorize_time] *)
Definition categorize_time (hour : option Z) : Z :=
  match hour with
  | None => 1
  | Some hour =>
      if ((6 <=? hour) && (hour <? 12))%Z then 0
      else if ((12 <=? hour) && (hour <? 18))%Z then 1
      else if ((18 <=? hour) && (hour <? 24))%Z then 2
      else 3
  end.

Definition severity_map : list (string * Z) :=
  [ ("clear", 0%Z); ("cloudy", 1%Z); ("rainy", 2%Z); ("snowy", 3%Z) ].

(** [s.map(severity_map)]: NaN for a value that is no key. *)
Definition map_severity (w : option string) : option Z :=
  match w with
  | None => None
  | Some s => option_map snd (List.find (fun kv => String.eqb (fst kv) s) severity_map)
  end.

Definition rval_eqb (a b : rval) : bool :=
  match a, b with
  | RInt x, RInt y => (x =? y)%Z
  | RStr x, RStr y => String.eqb x y
  | _, _ => false
  end.

(** [route_counts[v]] for [route_counts = s.value_counts()] *)
Definition value_count (v : rval) (col : list (option rval)) : nat :=
  List.length (List.filter (rval_eqb v) (Pd.dropna col)).

Definition is_datetime_col (col : list tcell) : bool :=
  forallb (fun c => match c with TStr _ => false | _ => true end) col.

Section EngineerStages.

(** [pd.to_datetime(col, errors='coerce')] at a text cell of the
    column [col]: the timestamp, or NaT when the text does not parse
    (the format may be inferred from the whole column). *)
Variable to_datetime_coerce : list tcell -> string -> option datetime.

Definition to_datetime_col (col : list tcell) : list tcell :=
  map (fun c => match c with
                | TNa => TNa
                | TStamp dt => TStamp dt
                | TStr s => of_timestamp (to_datetime_coerce col s)
                end) col.

(** *** The statements that change the table *)

Definition convert_scheduled_time (d : table) : table :=
  assign set_scheduled_time (to_datetime_col (map scheduled_time d)) d.
Definition convert_actual_time (d : table) : table :=
  assign set_actual_time (to_datetime_col (map actual_time d)) d.

Definition valid_mask (d : table) : list bool :=
  map (fun r => notna_time (scheduled_time r) && notna_time (actual_time r)) d.

(** [self.df['delay_minutes'] = pd.NA] *)
Definition init_delay (d : table) : table := map (set_delay_minutes None) d.

(** [self.df['delay_minutes'] = self.df['delay_minutes'].clip(lower=0)] *)
Definition clip_delay (d : table) : table :=
  assign set_delay_minutes (Pd.clip_lower 0 (map row_delay d)) d.

(** [self.df.dropna(subset=['delay_minutes'])] *)
Definition dropna_delay (d : table) : table :=
  select (map (fun r => negb (isnull (row_delay r))) d) d.

Definition ensure_datetime (d : table) : table :=
  if negb (is_datetime_col (map scheduled_time d))
  then convert_scheduled_time d else d.

Definition assign_hour (d : table) : table :=
  map (fun r => set_hour (match scheduled_time r with
                          | TStamp dt => Some (hour dt)
                          | _ => None
                          end) r) d.

Definition assign_time_of_day (d : table) : table :=
  map (fun r => set_time_of_day (Some (categorize_time (hour_of_day (derived r)))) r) d.

Definition assign_day_of_week (d : table) : table :=
  map (fun r => set_day_of_week (match scheduled_time r with
                                 | TStamp dt => Some (dayofweek dt)
                                 | _ => None
                                 end) r) d.

(** [(self.df['day_of_week'] >= 5).astype(int)] *)
Definition assign_is_weekend (d : table) : table :=
  map (fun r => set_is_weekend (match day_of_week (derived r) with
                                | Some w => Some (if (5 <=? w)%Z then 1%Z else 0%Z)
                                | None => Some 0%Z
                                end) r) d.

(** [self.df['weather'].map(severity_map).fillna(0)] *)
Definition assign_weather_severity (d : table) : table :=
  map (fun r => set_weather_severity
                  (match map_severity (weather r) with
                   | Some v => Some v
                   | None => Some 0%Z
                   end) r) d.

(** [self.df['route_id'].map(route_counts / total_trips)] *)
Definition assign_route_frequency (d : table) : table :=
  let col := map route_id d in
  let total_trips := List.length d in
  map (fun r => set_route_frequency
                  (match route_id r with
                   | Some v => Some (Z.of_nat (value_count v col) # Pos.of_nat total_trips)
                   | None => None
                   end) r) d.

(** *** What each stage does to the table *)

Definition compute_delay_duration_df (d : table) : table :=
  let d1 := convert_scheduled_time d in
  let d2 := convert_actual_time d1 in
  let mask := valid_mask d2 in
  let d3 := init_delay d2 in
  let d4 := delay_loop mask (seq 0 (List.length d3)) d3 in
  let d5 := clip_delay d4 in
  dropna_delay d5.

Definition generate_time_features_df (d : table) : table :=
  assign_time_of_day (assign_hour (ensure_datetime d)).

Definition identify_weekend_df (d : table) : table :=
  assign_is_weekend (assign_day_of_week (ensure_datetime d)).

Definition compute_weather_severity_df (d : table) : table :=
  assign_weather_severity d.

Definition calculate_route_frequency_df (d : table) : table :=
  assign_route_frequency d.

Definition engineer_all_features_df (d : table) : table :=
  calculate_route_frequency_df
    (compute_weather_severity_df
       (identify_weekend_df
          (generate_time_features_df
             (compute_delay_duration_df d)))).

(** *** The methods *)

(** [FeatureEngineer(df)] *)
Definition init (df_arg : loc) : heap -> t * heap :=
  fun σ => let l := fresh (dom σ) in (mk l, <[l := σ !!! df_arg]> σ).

Definition compute_delay_duration : M t loc :=
  (* Convert to datetime *)
  do! setitem convert_scheduled_time in
  do! setitem convert_actual_time in
  let! d := read_df in
  let valid_mask := valid_mask d in
  (* Initialize delay column *)
  do! setitem init_delay in
  (* Calculate delay row by row *)
  let! d := read_df in
  do! setitem (delay_loop valid_mask (seq 0 (List.length d))) in
  (* Handle negative delays (early arrivals) - set to 0 *)
  do! setitem clip_delay in
  (* Remove rows where delay cannot be computed *)
  let! d := read_df in
  do! rebind_df (dropna_delay d) in
  return_df.

Definition generate_time_features : M t loc :=
  do! setitem ensure_datetime in
  do! setitem assign_hour in
  do! setitem assign_time_of_day in
  return_df.

Definition identify_weekend : M t loc :=
  do! setitem ensure_datetime in
  do! setitem assign_day_of_week in
  do! setitem assign_is_weekend in
  return_df.

Definition compute_weather_severity : M t loc :=
  do! setitem assign_weather_severity in
  return_df.

Definition calculate_route_frequency : M t loc :=
  do! setitem assign_route_frequency in
  return_df.

Definition engineer_all_features : M t loc :=
  let! l := compute_delay_duration in do! set_df l in
  let! l := generate_time_features in do! set_df l in
  let! l := identify_weekend in do! set_df l in
  let! l := compute_weather_severity in do! set_df l in
  let! l := calculate_route_frequency in do! set_df l in
  return_df.

End EngineerStages.

End FeatureEngineer.

(** ** The cleaning and feature steps of [main_pipeline.main] *)

Section Pipeline.

Variable pd_to_datetime : string -> result (option datetime).
Variable py_float : string -> result Q.
Variable pd_to_datetime_unit_s : Q -> result (option datetime).
Variable strptime : string -> string -> result datetime.
Variable to_datetime_coerce : list tcell -> string -> option datetime.

(** [cleaner = DataCleaner(df_raw); df_cleaned = cleaner.clean_all();
    engineer = FeatureEngineer(df_cleaned);
    df_features = engineer.engineer_all_features()] *)
Definition pipeline (df_raw : loc) (σ : heap)
  : outcome (exn * heap) (loc * loc * heap) :=
  let '(cleaner, σ1) := DataCleaner.init df_raw σ in
  match DataCleaner.clean_all pd_to_datetime py_float pd_to_datetime_unit_s strptime
                              cleaner σ1 with
  | Raise (e, _, σ2) => Raise (e, σ2)
  | Ok (df_cleaned, _, σ2) =>
      let '(engineer, σ3) := FeatureEngineer.init df_cleaned σ2 in
      match FeatureEngineer.engineer_all_features to_datetime_coerce engineer σ3 with
      | Raise (e, _, σ4) => Raise (e, σ4)
      | Ok (df_features, _, σ4) => Ok (df_cleaned, df_features, σ4)
      end
  end.

End Pipeline.

(** ** Reference behaviour of the library calls on canonical text

    What [pd.to_datetime] and [datetime.strptime] do on a string in the
    canonical format, and [pd.to_datetime] on the word 'now'; on other
    strings these reference functions fail.  They serve to run the
    pipeline on concrete tables. *)

Module Ref.

Definition num2 (a b : ascii) : Z := 10 * Py.digit_val a + Py.digit_val b.
Definition num4 (a b c d : ascii) : Z := 100 * num2 a b + num2 c d.

(** The date that canonical text denotes. *)
Definition parse_canonical (s : string) : result datetime :=
  if is_canonical s then
    match list_ascii_of_string s with
    | [y1; y2; y3; y4; _; m1; m2; _; d1; d2; _; h1; h2; _; n1; n2; _; c1; c2] =>
        make_datetime (num4 y1 y2 y3 y4) (num2 m1 m2) (num2 d1 d2)
                      (num2 h1 h2) (num2 n1 n2) (num2 c1 c2)
    | _ => Raise ValueError
    end
  else Raise ValueError.

(** The years that a nanosecond timestamp of pandas covers from their
    first to their last second. *)
Definition in_bounds (dt : datetime) : bool := (1678 <=? year dt) && (year dt <=? 2261).

Definition pd_to_datetime (s : string) : result (option datetime) :=
  let* dt := parse_canonical s in
  if in_bounds dt then Ok (Some dt) else Raise OutOfBoundsDatetime.

(** [pd.to_datetime(s)] when the system clock reads [now]: the word
    'now' is the current time. *)
Definition pd_to_datetime_at (now : datetime) (s : string) : result (option datetime) :=
  if String.eqb s "now" then Ok (Some now) else pd_to_datetime s.

Definition py_float (s : string) : result Q :=
  if negb (String.eqb s "") && Py.all_digits s
  then Ok (inject_Z (Py.int_of_digits s)) else Raise ValueError.

Definition pd_to_datetime_unit_s (x : Q) : result (option datetime) :=
  Raise OutOfBoundsDatetime.

Definition strptime (s fmt : string) : result datetime :=
  if String.eqb fmt "%Y-%m-%d %H:%M:%S" then parse_canonical s
  else Raise ValueError.

Definition to_datetime_coerce (col : list tcell) (s : string) : option datetime :=
  match pd_to_datetime s with
  | Ok v => v
  | Raise _ => None
  end.

Definition parse_timestamp : tcell -> result (option string) :=
  _parse_timestamp pd_to_datetime py_float pd_to_datetime_unit_s strptime.

Definition parse_timestamp_at (now : datetime) : tcell -> result (option string) :=
  _parse_timestamp (pd_to_datetime_at now) py_float pd_to_datetime_unit_s strptime.

Definition clean_all_df : table -> result table :=
  DataCleaner.clean_all_df pd_to_datetime py_float pd_to_datetime_unit_s strptime.

Definition compute_delay_duration_df : table -> table :=
  FeatureEngineer.compute_delay_duration_df to_datetime_coerce.

Definition run_pipeline : loc -> heap -> outcome (exn * heap) (loc * loc * heap) :=
  pipeline pd_to_datetime py_float pd_to_datetime_unit_s strptime to_datetime_coerce.

End Ref.

(** ** Model selection: [ml_pipeline/src/model_evaluation.py] *)

Module ModelEvaluator.

Section Results.

(** The metrics of one model (a dict), and [m.get('MAE')], which is
    absent when the dict has no such key. *)
Variable metrics : Type.
Variable get_mae : metrics -> option Q.

(** [a < b] on the keys [m.get('MAE', float('inf'))]: an absent value
    is infinity. *)
Definition key_lt (a b : option Q) : bool :=
  match a, b with
  | Some x, Some y => Pd.Qltb x y
  | Some _, None => true
  | None, _ => false
  end.

(** [min(items, key=...)]: the first item with the smallest key;
    [best] is the smallest so far. *)
Fixpoint min_by (best : string * metrics) (items : list (string * metrics))
  : string * metrics :=
  match items with
  | [] => best
  | x :: rest =>
      min_by (if key_lt (get_mae (snd x)) (get_mae (snd best)) then x else best) rest
  end.

(** [ModelEvaluator.get_best_model], on [self.results.items()] in
    insertion order. *)
Definition get_best_model (results : list (string * metrics)) : result (string * metrics) :=
  match results with
  | [] => Raise ValueError
  | x :: rest => Ok (min_by x rest)
  end.

End Results.

End ModelEvaluator.

(** ** The prediction API: [backend/app] *)

(** *** Request validation: [models/schemas.py] *)

Module PredictionRequest.

Record t := mk {
  route_id : Z;
  weather : string;
  passenger_count : Z;
  time_of_day : Z;
  is_weekend : Z
}.

Definition allowed : list string := ["clear"; "cloudy"; "rainy"; "snowy"; "sunny"].

(** The validator of the field [weather]. *)
Definition validate_weather (v : string) : result string :=
  let weather_lower := Py.lower v in
  if negb (Py.mem weather_lower allowed) then Raise ValueError
  else if String.eqb weather_lower "sunny" then Ok "clear"
  else Ok weather_lower.

(** [Field(..., ge=lo, le=hi)] on an integer field; a violation raises
    pydantic's [ValidationError], which is a [ValueError]. *)
Definition field_ge_le (lo hi v : Z) : result Z :=
  if (lo <=? v) && (v <=? hi) then Ok v else Raise ValueError.

(** [PredictionRequest(route_id=..., weather=..., passenger_count=...,
    time_of_day=..., is_weekend=...)] on integers and text. *)
Definition init (route_id : Z) (weather : string)
           (passenger_count time_of_day is_weekend : Z) : result t :=
  let* route_id := field_ge_le 1 10 route_id in
  let* weather := validate_weather weather in
  let* passenger_count := field_ge_le 0 500 passenger_count in
  let* time_of_day := field_ge_le 0 3 time_of_day in
  let* is_weekend := field_ge_le 0 1 is_weekend in
  Ok (mk route_id weather passenger_count time_of_day is_weekend).

End PredictionRequest.

(** *** Business rules: [utils/validators.py] *)

Definition validate_business_hours (time_of_day is_weekend : Z) : bool * string :=
  if is_weekend =? 0 then
    if time_of_day =? 3
    then (true, "Night hours detected for weekday - prediction may be less accurate")
    else (true, "")
  else (true, "").

Definition validate_route_operating_hours (route_id time_of_day : Z) : bool * string :=
  if (time_of_day =? 3) && (8 <? route_id)
  then (true, "Route may have limited night service")
  else (true, "").

(** *** The feature dict and the model wrapper:
        [services/prediction_service.py], [models/ml_model.py] *)

(** [d.get(key, default)] *)
Definition get {A} (entry : option A) (default : A) : A :=
  match entry with
  | Some v => v
  | None => default
  end.

(** [d.get(key, default)] on a dict literal, as a list of items. *)
Definition get_item {K V} (eqb : K -> K -> bool) (d : list (K * V)) (key : K) (default : V) : V :=
  match List.find (fun kv => eqb (fst kv) key) d with
  | Some kv => snd kv
  | None => default
  end.

(** [d[key] = v] on a dict that holds [key]. *)
Fixpoint set_item (key : string) (v : Z) (d : list (string * Z)) : list (string * Z) :=
  match d with
  | [] => [(key, v)]
  | (k, x) :: rest =>
      if String.eqb k key then (k, v) :: rest else (k, x) :: set_item key v rest
  end.

Module MLModelWrapper.

Local Open Scope Q_scope.

(** The dict [features]: the entries the service passes, typed as the
    request types them; an entry can be absent. *)
Record features := mk_features {
  route_id : option Z;
  weather : option string;
  passenger_count : option Z;
  time_of_day : option Z;
  is_weekend : option Z
}.

Definition default_feature_names : list string :=
  [ "route_id"; "weather_clear"; "weather_cloudy"; "weather_rainy"; "weather_snowy";
    "passenger_count"; "time_of_day"; "is_weekend" ].

(** [pd.DataFrame([feature_dict]).reindex(columns=names, fill_value=0)]:
    one row, as the list of its columns and values. *)
Definition reindex (names : list string) (feature_dict : list (string * Z))
  : list (string * Z) :=
  map (fun name => (name, get_item String.eqb feature_dict name 0%Z)) names.

(** [MLModelWrapper._prepare_features] *)
Definition _prepare_features (feature_names : list string) (features : features)
  : list (string * Z) :=
  let feature_dict :=
    [ ("route_id", get (route_id features) 1%Z);
      ("passenger_count", get (passenger_count features) 100%Z);
      ("time_of_day", get (time_of_day features) 1%Z);
      ("is_weekend", get (is_weekend features) 0%Z);
      ("weather_clear", 0%Z); ("weather_cloudy", 0%Z);
      ("weather_rainy", 0%Z); ("weather_snowy", 0%Z) ] in
  (* One-hot encode weather *)
  let weather := Py.lower (get (weather features) "clear") in
  let feature_dict :=
    if String.eqb weather "clear" then set_item "weather_clear" 1%Z feature_dict
    else if String.eqb weather "cloudy" then set_item "weather_cloudy" 1%Z feature_dict
    else if String.eqb weather "rainy" then set_item "weather_rainy" 1%Z feature_dict
    else if String.eqb weather "snowy" then set_item "weather_snowy" 1%Z feature_dict
    else feature_dict in
  match feature_names with
  | _ :: _ => reindex feature_names feature_dict
  | [] =>
      map (fun name => (name, get_item String.eqb feature_dict name 0%Z))
          [ "route_id"; "passenger_count"; "time_of_day"; "is_weekend";
            "weather_clear"; "weather_cloudy"; "weather_rainy"; "weather_snowy" ]
  end.

(** [round(x, 2)]: the nearest hundredth, a tie going to the even one. *)
Definition round_half_even (y : Q) : Z :=
  let f := Qfloor y in
  let frac := y - inject_Z f in
  if Pd.Qltb frac (1 # 2) then f
  else if Pd.Qltb (1 # 2) frac then (f + 1)%Z
  else if Z.even f then f else (f + 1)%Z.

Definition round2 (x : Q) : Q := inject_Z (round_half_even (x * 100)) / 100.

Definition weather_multiplier : list (string * Q) :=
  [ ("clear", 1); ("cloudy", 12 # 10); ("rainy", 15 # 10); ("snowy", 2) ].

Definition time_multiplier : list (Z * Q) :=
  [ (0%Z, 11 # 10); (1%Z, 13 # 10); (2%Z, 12 # 10); (3%Z, 9 # 10) ].

(** [MLModelWrapper._mock_predict] *)
Definition _mock_predict (features : features) : Q :=
  let base_delay := 10 in
  (* Weather impact *)
  let weather := Py.lower (get (weather features) "clear") in
  let base_delay := base_delay * get_item String.eqb weather_multiplier weather 1 in
  (* Passenger count impact *)
  let passenger_count := get (passenger_count features) 100%Z in
  let base_delay := base_delay + (inject_Z passenger_count / 100) * 2 in
  (* Time of day impact *)
  let time_of_day := get (time_of_day features) 1%Z in
  let base_delay := base_delay * get_item Z.eqb time_multiplier time_of_day 1 in
  (* Weekend impact *)
  let base_delay :=
    if (get (is_weekend features) 0 =? 1)%Z then base_delay * (8 # 10) else base_delay in
  (* Route impact *)
  let route_id := get (route_id features) 1%Z in
  let base_delay := base_delay + inject_Z (route_id mod 3) * (15 # 10) in
  round2 (Pd.py_max 0 (Some base_delay)).

Section Predict.

(** [self._model_loaded], [self._feature_names], and the loaded
    model: [float(self._model.predict(feature_vector)[0])], or an
    exception. *)
Variable _model_loaded : bool.
Variable _feature_names : list string.
Variable model_predict : list (string * Z) -> result Q.

(** [MLModelWrapper.predict] *)
Definition predict (features : features) : Q :=
  if negb _model_loaded then _mock_predict features
  else
    match model_predict (_prepare_features _feature_names features) with
    | Ok prediction => round2 (Pd.py_max 0 (Some prediction))
    | Raise _ => _mock_predict features
    end.

End Predict.

End MLModelWrapper.

(** [PredictionService._prepare_features] *)
Definition prepare_request_features (request : PredictionRequest.t) : MLModelWrapper.features :=
  MLModelWrapper.mk_features
    (Some (PredictionRequest.route_id request))
    (Some (PredictionRequest.weather request))
    (Some (PredictionRequest.passenger_count request))
    (Some (PredictionRequest.time_of_day request))
    (Some (PredictionRequest.is_weekend request)).

(** ** Specification-level definitions *)

(** A value matches a synonym set when it is one of the synonyms or
    contains one of them. *)
Definition synonym_match (value_lower : string) (variants : list string) : Prop :=
  In value_lower variants \/
  exists v, In v variants /\ is_substring v value_lower.

Definition synonym_matchb (value_lower : string) (variants : list string) : bool :=
  Py.mem value_lower variants
  || existsb (fun v => Py.contains v value_lower) variants.


(** No character of [s] is a decimal digit. *)
Definition no_digits (s : string) : bool :=
  forallb (fun c => negb (Py.is_digit c)) (list_ascii_of_string s).

(** [s] begins with a decimal digit. *)
Definition starts_with_digit (s : string) : bool :=
  match s with
  | String c _ => Py.is_digit c
  | EmptyString => false
  end.

(** [s] is a run of decimal digits: not empty, and nothing but
    digits. *)
Definition digit_run (s : string) : bool :=
  negb (String.eqb s "") && Py.all_digits s.

(** [int] and [str] accept the route: an integer has at most 4300
    digits, and the first run of digits of a text at most 4300
    characters. *)
Definition route_convertible (value : option rval) : bool :=
  match value with
  | None => true
  | Some (RInt z) =>
      Z.of_nat (String.length (Py.str_of_int (Z.abs z))) <=? Py.int_max_str_digits
  | Some (RStr s) =>
      match Py.findall_digits s with
      | n0 :: _ => Z.of_nat (String.length n0) <=? Py.int_max_str_digits
      | [] => true
      end
  end.

(** The number of a route: what the identifier unifier returns (1
    where it raises). *)
Definition route_number (value : option rval) : Z :=
  match extract_route_number value with
  | Ok z => z
  | Raise _ => 1
  end.

(** A text of [n] characters [c]. *)
Fixpoint repeat_char (c : ascii) (n : nat) : string :=
  match n with
  | O => EmptyString
  | S n' => String c (repeat_char c n')
  end.

(** The first success of a list of attempts. *)
Fixpoint first_some {A} (attempts : list (option A)) : option A :=
  match attempts with
  | [] => None
  | Some a :: _ => Some a
  | None :: rest => first_some rest
  end.

(** An attempt that fails or gives the text [strftime] prints for a
    date; the text has the shape YYYY-MM-DD HH:MM:SS when the year has
    four digits. *)
Definition formatted_or_none (a : option string) : Prop :=
  match a with
  | Some text => exists dt, text = strftime dt /\
                            (1000 <= year dt -> is_canonical text = true)
  | None => True
  end.

(** ** The date pattern [\d{4}[-/]\d{1,2}[-/]\d{1,2}] *)

(** [g] has the form of the pattern: four digits, a separator, one or
    two digits, a separator, one or two digits. *)
Definition date_like (g : string) : Prop :=
  exists (y m d : string) (s1 s2 : ascii),
    g = y ++ String s1 (m ++ String s2 d) /\
    String.length y = 4%nat /\ Py.all_digits y = true /\
    (s1 = "-"%char \/ s1 = "/"%char) /\ (s2 = "-"%char \/ s2 = "/"%char) /\
    (1 <= String.length m <= 2)%nat /\ Py.all_digits m = true /\
    (1 <= String.length d <= 2)%nat /\ Py.all_digits d = true.

(** One or two digits. *)
Definition d12 (d : string) : Prop :=
  (1 <= String.length d <= 2)%nat /\ Py.all_digits d = true.

(** The month, a separator and the day. *)
Definition md_like (t : string) : Prop :=
  exists (m : string) (s2 : ascii) (d : string),
    t = m ++ String s2 d /\ d12 m /\ (s2 = "-"%char \/ s2 = "/"%char) /\ d12 d.

(** [g] is what [re.search] finds in [s]: the leftmost occurrence of
    the pattern, and the longest one that starts there. *)
Definition first_date (s g : string) : Prop :=
  exists pre post,
    s = pre ++ g ++ post /\ date_like g /\
    forall pre' g' post',
      s = pre' ++ g' ++ post' -> date_like g' ->
      (String.length pre <= String.length pre')%nat /\
      (String.length pre' = String.length pre ->
       String.length g' <= String.length g)%nat.

(** The pattern occurs nowhere in [s]. *)
Definition no_date (s : string) : Prop :=
  forall pre g post, s = pre ++ g ++ post -> ~ date_like g.

(** The timestamp normalizer as the specification words it: four
    attempts, tried in order. *)
Section NormalizeTimestamp.

Variable pd_to_datetime : string -> result (option datetime).
Variable py_float : string -> result Q.
Variable pd_to_datetime_unit_s : Q -> result (option datetime).
Variable strptime : string -> string -> result datetime.

(** The canonical text of a successful parse. *)
Definition canonical_of (r : result (option datetime)) : option string :=
  match r with
  | Ok (Some dt) => Some (strftime dt)
  | _ => None
  end.

(** (1) the generic flexible parse *)
Definition attempt_generic (s : string) : option string :=
  canonical_of (pd_to_datetime s).

(** (2) a numeric-only string as Unix epoch seconds *)
Definition attempt_epoch (s : string) : option string :=
  if Py.isdigit (Py.remove_char "-" (Py.remove_char "." s))
  then match py_float s with
       | Ok x => canonical_of (pd_to_datetime_unit_s x)
       | Raise _ => None
       end
  else None.

(** (3) the fixed list of explicit formats *)
Definition attempt_formats (s : string) : option string :=
  first_some (map (fun fmt => match strptime s fmt with
                              | Ok dt => Some (strftime dt)
                              | Raise _ => None
                              end) formats).

(** (4) a date substring found by the regular expression *)
Definition attempt_regex (s : string) : option string :=
  match search_date s with
  | Some g => attempt_generic g
  | None => None
  end.

(** [a] is the outcome of attempt (4) on [s], worded without the
    matcher: the generic parse of the first date of [s], a failure
    when [s] has none. *)
Definition regex_attempt (s : string) (a : option string) : Prop :=
  (exists g, first_date s g /\ a = attempt_generic g) \/ (no_date s /\ a = None).

Definition normalize_timestamp (value : tcell) : option string :=
  match value with
  | TNa => None
  | _ =>
      let s := Py.strip (str_tcell value) in
      first_some [attempt_generic s; attempt_epoch s; attempt_formats s; attempt_regex s]
  end.

End NormalizeTimestamp.

(** A coordinate that is present and outside [lo, hi]. *)
Definition out_of_range (lo hi : Q) (c : option Q) : Prop :=
  exists v, c = Some v /\ (v < lo \/ hi < v)%Q.

Definition out_of_rangeb (lo hi : Q) (c : option Q) : bool :=
  match c with
  | Some v => Pd.Qltb v lo || Pd.Qltb hi v
  | None => false
  end.

(** Rows with an invalid, a missing and a valid position. *)
Definition gps_example : table :=
  [ raw_row (Some (RInt 1)) TNa TNa (Some "clear") (Some 10%Q) (Some 91%Q) (Some 0%Q);
    raw_row (Some (RInt 2)) TNa TNa (Some "clear") (Some 20%Q) None (Some 200%Q);
    raw_row (Some (RInt 3)) TNa TNa (Some "clear") (Some 30%Q) None None;
    raw_row (Some (RInt 4)) TNa TNa (Some "clear") (Some 40%Q) (Some 45%Q) None;
    raw_row (Some (RInt 5)) TNa TNa (Some "clear") (Some 50%Q) (Some 45%Q) (Some (-75)%Q) ].

(** A row the geospatial validation removes. *)
Definition gps_invalid (r : row) : bool :=
  out_of_rangeb (-90) 90 (latitude r) || out_of_rangeb (-180) 180 (longitude r).

(** A passenger count clipped into [lower, upper], then into
    [0, 500]. *)
Definition capped (lower upper v : Q) : Q :=
  Pd.clip_value 0 500 (Pd.clip_value lower upper v).

(** Two rows that differ at most in [passenger_count]. *)
Definition same_but_passenger_count (r r' : row) : Prop :=
  r' = set_passenger_count (passenger_count r') r.

(** The table of scenario D. *)
Definition scenario_d : table :=
  map (fun pc => raw_row (Some (RInt 1)) TNa TNa (Some "clear") (Some pc)
                         (Some 45%Q) (Some (-75)%Q))
      [(-50)%Q; 60%Q; 70%Q; 80%Q; 600%Q].

(** The missing-value policies for route, weather and passenger count,
    applied to every row of the table, with the mode and the median of
    the whole table. *)
Definition imputed (d : table) : table :=
  let routes := Pd.ffill (map route_id d) in
  let mode_weather :=
    match Pd.mode (map weather d) with Some m => m | None => "clear" end in
  let median_passengers := Pd.median (map passenger_count d) in
  map (fun r =>
         set_passenger_count
           (match passenger_count r with
            | Some v => Some v
            | None => median_passengers
            end)
           (set_weather
              (match weather r with
               | Some w => Some w
               | None => Some mode_weather
               end) r))
      (assign set_route_id routes d).

Definition gps_present (r : row) : bool :=
  negb (isnull (latitude r) || isnull (longitude r)).

(** A table where the one row with a route, a weather and a passenger
    count has no coordinates. *)
Definition missing_example : table :=
  [ raw_row (Some (RInt 7)) TNa TNa (Some "rainy") (Some 10%Q) None (Some (-75)%Q);
    raw_row None TNa TNa None None (Some 45%Q) (Some (-75)%Q) ].

(** ** Reasoning about methods *)

(** [m], run from object [s] and heap [σ], returns normally and its
    outcome satisfies [Φ]. *)
Definition post {S A} (m : M S A) (s : S) (σ : gmap nat table)
           (Φ : A -> S -> gmap nat table -> Prop) : Prop :=
  match m s σ with
  | Ok (a, s', σ') => Φ a s' σ'
  | Raise _ => False
  end.

(** [m], run from object [s] and heap [σ], ends in a [return] whose
    outcome satisfies [Φ] or in a [raise] whose outcome satisfies
    [Ψ]. *)
Definition ends {S A} (m : M S A) (s : S) (σ : gmap nat table)
           (Φ : A -> S -> gmap nat table -> Prop)
           (Ψ : exn -> S -> gmap nat table -> Prop) : Prop :=
  match m s σ with
  | Ok (a, s', σ') => Φ a s' σ'
  | Raise (e, s', σ') => Ψ e s' σ'
  end.

(** The state of an object whose DataFrame is not one of the protected
    objects [P]: [self.df] holds the table [d], and every protected
    object is as in [σ0]. *)
Definition inv {S} `{Self S} (P : gset nat) (σ0 : gmap nat table)
           (d : table) (s : S) (σ : gmap nat table) : Prop :=
  (self_df s ∉ P) /\ (σ !! self_df s = Some d) /\
  (forall k, k ∈ P -> σ !! k = σ0 !! k).

(** A method that turns the table of [self.df] into [f] of it, returns
    [self.df], and leaves the protected objects alone. *)
Definition method_spec {S} `{Self S} (P : gset nat) (σ0 : gmap nat table)
           (m : M S nat) (f : table -> table) : Prop :=
  forall d s σ, inv P σ0 d s σ ->
    post m s σ (fun l s' σ' => l = self_df s' /\ inv P σ0 (f d) s' σ').

(** The table after the identifier unifier, when it returns. *)
Definition unified (d : table) : table :=
  map (fun r => set_route_id (Some (RInt (route_number (route_id r)))) r) d.

(** The identifier unifier returns on the table the cleaner passes to
    it: every route of a row that survives the missing-value stage
    (which copies routes downwards and drops rows) is convertible. *)
Definition routes_convertible (d : table) : bool :=
  forallb (fun r => route_convertible (route_id r)) (DataCleaner.handle_missing_values_df d).

(** The table after the timestamp stage and, when the cleaner returns,
    after the whole cleaner, with the normalizer read as
    [normalize_timestamp]. *)
Section Cleaned.

Variable pd_to_datetime : string -> result (option datetime).
Variable py_float : string -> result Q.
Variable pd_to_datetime_unit_s : Q -> result (option datetime).
Variable strptime : string -> string -> result datetime.

Definition normalized_cell (value : tcell) : tcell :=
  DataCleaner.of_parsed
    (normalize_timestamp pd_to_datetime py_float pd_to_datetime_unit_s strptime value).

Definition standardized (d : table) : table :=
  map (fun r => set_actual_time (normalized_cell (actual_time r))
                  (set_scheduled_time (normalized_cell (scheduled_time r)) r)) d.

(** The table the cleaner has reached when the identifier unifier
    starts. *)
Definition before_unify (d : table) : table :=
  DataCleaner.normalize_weather_df (standardized (DataCleaner.handle_missing_values_df d)).

Definition cleaned (d : table) : table :=
  DataCleaner.handle_gps_coordinates_df
    (DataCleaner.treat_outliers_df (unified (before_unify d))).

End Cleaned.

(** The cleaned table under the reference behaviour of the parsers. *)
Definition ref_cleaned : table -> table :=
  cleaned Ref.pd_to_datetime Ref.py_float Ref.pd_to_datetime_unit_s Ref.strptime.

(** The entries [handle_missing_values] adds to the audit log. *)
Definition missing_log (d : table) : list log_entry :=
  let mode_weather :=
    match Pd.mode (map weather d) with Some m => m | None => "clear" end in
  let gps_missing := count_true (DataCleaner.gps_isnull (imputed d)) in
  [ LogInitialMissing (DataCleaner.missing_counts d);
    LogRouteForwardFilled;
    LogWeatherMode mode_weather;
    LogPassengerMedian (Pd.median (map passenger_count d)) ]
  ++ (if (0 <? gps_missing)%nat then [LogGpsMissingDropped gps_missing] else []).

(** ** The invariants of a cleaned table *)

Definition canonical_weather (w : option string) : Prop :=
  In w [Some "clear"; Some "cloudy"; Some "rainy"; Some "snowy"].

Definition unified_route (c : option rval) : Prop :=
  exists z, c = Some (RInt z) /\ 1 <= z <= 10.

Definition in_range (lo hi : Q) (c : option Q) : Prop :=
  exists v, c = Some v /\ (lo <= v /\ v <= hi)%Q.

(** A time that is missing or the text [strftime] prints for a
    date. *)
Definition formatted_time (c : tcell) : Prop :=
  c = TNa \/ exists dt, c = TStr (strftime dt).

(** A time that is missing or text of the shape YYYY-MM-DD HH:MM:SS. *)
Definition canonical_time (c : tcell) : Prop :=
  c = TNa \/ exists text, c = TStr text /\ is_canonical text = true.

(** A time that is missing or the text of a date whose year is 1000
    or later. *)
Definition four_digit_year (c : tcell) : Prop :=
  c = TNa \/ exists dt, c = TStr (strftime dt) /\ 1000 <= year dt.

(** What cleaning guarantees of every column but [passenger_count]. *)
Definition clean_but_passenger_count (r : row) : Prop :=
  canonical_weather (weather r) /\ unified_route (route_id r) /\
  in_range (-90) 90 (latitude r) /\ in_range (-180) 180 (longitude r) /\
  formatted_time (scheduled_time r) /\ formatted_time (actual_time r).

(** A passenger count that is missing or within [0, 500]. *)
Definition missing_or_in_range (c : option Q) : Prop :=
  match c with
  | None => True
  | Some v => (0 <= v /\ v <= 500)%Q
  end.

(** A table whose passenger counts are all missing. *)
Definition no_passenger_counts : table :=
  [ raw_row (Some (RStr "Route 3")) (TStr "2024-01-01 06:00:00")
            (TStr "2024-01-01 06:15:00") (Some "Rain") None (Some 45%Q) (Some (-75)%Q);
    raw_row (Some (RInt 4)) (TStr "2024-01-01 07:00:00")
            (TStr "2024-01-01 07:05:00") (Some "clear") None (Some 46%Q) (Some (-76)%Q) ].

(** ** Reading canonical text back *)

(** When the generic parse accepts the canonical text of a date whose
    year is 1000 or later, it reads the same date. *)
Definition generic_reads_back (pd_to_datetime : string -> result (option datetime)) : Prop :=
  forall dt dt',
    1000 <= year dt ->
    pd_to_datetime (strftime dt) = Ok (Some dt') -> strftime dt' = strftime dt.

(** The first explicit format accepts the canonical text of every
    date whose year is 1000 or later and reads the same date. *)
Definition format_reads_back (strptime : string -> string -> result datetime) : Prop :=
  forall dt,
    1000 <= year dt ->
    exists dt',
      strptime (strftime dt) "%Y-%m-%d %H:%M:%S" = Ok dt' /\ strftime dt' = strftime dt.

(** The row with its passenger count blanked. *)
Definition without_passenger_count (r : row) : row := set_passenger_count None r.

(** What a second cleaning does to a row: nothing, apart from the
    passenger count, which stays missing or within [0, 500], and from
    a time whose year is below 1000. *)
Definition recleaned (r r' : row) : Prop :=
  route_id r' = route_id r /\ weather r' = weather r /\
  latitude r' = latitude r /\ longitude r' = longitude r /\
  derived r' = derived r /\
  (four_digit_year (scheduled_time r) -> scheduled_time r' = scheduled_time r) /\
  (four_digit_year (actual_time r) -> actual_time r' = actual_time r) /\
  missing_or_in_range (passenger_count r').

(** A table with a route whose digit run has 4301 digits. *)
Definition long_route_example : table :=
  [ raw_row (Some (RStr (String "R" (repeat_char "1" 4301)))) (TStr "2024-01-01 06:00:00")
            (TStr "2024-01-01 06:15:00") (Some "clear") (Some 10%Q)
            (Some 45%Q) (Some (-75)%Q) ].

(** A clean table on which a second cleaning changes a passenger
    count. *)
Definition recapped_example : table :=
  map (fun pc => raw_row (Some (RInt 1)) (TStr "2024-01-01 06:00:00")
                         (TStr "2024-01-01 06:15:00") (Some "clear") (Some pc)
                         (Some 45%Q) (Some (-75)%Q))
      [0%Q; 100%Q; 100%Q; 100%Q].

(** ** Delay computation, row by row *)

(** [(actual - scheduled)] in minutes. *)
Definition minutes_between (sched actual : datetime) : Q :=
  inject_Z (timestamp actual - timestamp sched) / 60.

(** Both times are timestamps and the delay is within a year. *)
Definition delay_computable (r : row) : bool :=
  match scheduled_time r, actual_time r with
  | TStamp sched, TStamp actual =>
      Qle_bool (-525600) (minutes_between sched actual)
      && Qle_bool (minutes_between sched actual) 525600
  | _, _ => false
  end.

(** The row with its delay: the minutes between the two times, negative
    values replaced by 0. *)
Definition with_delay (r : row) : row :=
  match scheduled_time r, actual_time r with
  | TStamp sched, TStamp actual =>
      set_delay_minutes
        (Some (if Pd.Qltb (minutes_between sched actual) 0 then 0%Q
               else minutes_between sched actual)) r
  | _, _ => r
  end.

(** What one turn of the loop does to the row it visits. *)
Definition delay_turn (r : row) : row :=
  match scheduled_time r, actual_time r with
  | TStamp sched, TStamp actual =>
      if delay_computable r
      then set_delay_minutes (Some (minutes_between sched actual)) r
      else r
  | _, _ => r
  end.

Definition both_present (r : row) : bool :=
  FeatureEngineer.notna_time (scheduled_time r) && FeatureEngineer.notna_time (actual_time r).

(** The properties of a row that survives the delay computation. *)
Definition delayed_row (r : row) : Prop :=
  exists sched actual v,
    scheduled_time r = TStamp sched /\ actual_time r = TStamp actual /\
    row_delay r = Some v /\ (0 <= v)%Q /\
    ((timestamp actual < timestamp sched)%Z -> v == 0)%Q /\
    ((timestamp sched <= timestamp actual)%Z -> v == minutes_between sched actual)%Q /\
    (-525600 <= minutes_between sched actual /\ minutes_between sched actual <= 525600)%Q.

(** The rows of scenario C, as the cleaner leaves them, and a row
    whose actual time does not parse. *)
Definition scenario_c : table :=
  [ raw_row (Some (RInt 1)) (TStr "2024-01-01 06:00:00") (TStr "2024-01-01 06:15:00")
            (Some "clear") (Some 10%Q) (Some 45%Q) (Some (-75)%Q);
    raw_row (Some (RInt 2)) (TStr "2024-01-01 06:00:00") (TStr "2024-01-01 05:50:00")
            (Some "clear") (Some 20%Q) (Some 45%Q) (Some (-75)%Q);
    raw_row (Some (RInt 3)) (TStr "2024-01-01 06:00:00") TNa
            (Some "clear") (Some 30%Q) (Some 45%Q) (Some (-75)%Q);
    raw_row (Some (RInt 4)) (TStr "2024-01-01 06:00:00") (TStr "2026-01-01 06:00:00")
            (Some "clear") (Some 40%Q) (Some 45%Q) (Some (-75)%Q) ].

(** Two readings of the system clock, one second apart. *)
Definition clock_a : datetime := mkDT 2024 1 1 6 0 0 eq_refl.
Definition clock_b : datetime := mkDT 2024 1 1 6 0 1 eq_refl.

(** A heap with the caller's DataFrame at location 0. *)
Definition caller_heap : gmap nat table := {[ 0%nat := scenario_c ]}.

(** ** The feature columns, row by row *)

(** A time cell after [pd.to_datetime(col, errors='coerce')]: text is
    replaced by what it parses to. *)
Definition coerced_cell (to_datetime_coerce : list tcell -> string -> option datetime)
           (col : list tcell) (c : tcell) : tcell :=
  match c with
  | TStr s => FeatureEngineer.of_timestamp (to_datetime_coerce col s)
  | _ => c
  end.

(** The period of the day [t] of the hour [h]: morning 6-11, afternoon
    12-17, evening 18-23, night 0-5. *)
Definition time_bucket (h t : Z) : Prop :=
  (t = 0 /\ 6 <= h < 12) \/ (t = 1 /\ 12 <= h < 18) \/
  (t = 2 /\ 18 <= h < 24) \/ (t = 3 /\ 0 <= h < 6).

(** The time features of a row agree with its scheduled time. *)
Definition time_features (r : row) : Prop :=
  match scheduled_time r with
  | TStamp dt =>
      hour_of_day (derived r) = Some (hour dt) /\
      exists t, time_of_day (derived r) = Some t /\ time_bucket (hour dt) t
  | TNa => hour_of_day (derived r) = None /\ time_of_day (derived r) = Some 1
  | TStr _ => False
  end.

(** The weekend features of a row agree with its scheduled time. *)
Definition weekend_features (r : row) : Prop :=
  match scheduled_time r with
  | TStamp dt =>
      day_of_week (derived r) = Some (dayofweek dt) /\ 0 <= dayofweek dt <= 6 /\
      exists w, is_weekend (derived r) = Some w /\ (w = 0 \/ w = 1) /\
                (w = 1 <-> dayofweek dt = 5 \/ dayofweek dt = 6)
  | TNa => day_of_week (derived r) = None /\ is_weekend (derived r) = Some 0
  | TStr _ => False
  end.

(** The severity index of a row agrees with its weather. *)
Definition severity_feature (r : row) : Prop :=
  exists k, weather_severity (derived r) = Some k /\ 0 <= k <= 3 /\
            (k = 1 <-> weather r = Some "cloudy") /\
            (k = 2 <-> weather r = Some "rainy") /\
            (k = 3 <-> weather r = Some "snowy").

(** The row is a trip on route [v]. *)
Definition on_route (v : rval) (r : row) : bool :=
  match route_id r with
  | Some u => FeatureEngineer.rval_eqb v u
  | None => false
  end.

(** The number of trips of the table on route [v]. *)
Definition trips_on (v : rval) (d : table) : nat :=
  List.length (List.filter (on_route v) d).

(** The route frequency of a row of the table [d] is the share of the
    trips of [d] on its route. *)
Definition frequency_feature (d : table) (r : row) : Prop :=
  match route_id r with
  | Some v =>
      exists f, route_frequency (derived r) = Some f /\
                (f * inject_Z (Z.of_nat (List.length d))
                 == inject_Z (Z.of_nat (trips_on v d)))%Q /\
                (0 < f /\ f <= 1)%Q
  | None => route_frequency (derived r) = None
  end.

(** Four trips: two on route 3, one on route 7, one without a route. *)
Definition route_example : table :=
  map (fun rt => raw_row rt TNa TNa (Some "clear") (Some 10%Q) (Some 45%Q) (Some (-75)%Q))
      [Some (RInt 3); Some (RInt 7); Some (RInt 3); None].

(** ** The rows the cleaner keeps *)

(** Both coordinates are present and within their ranges. *)
Definition gps_valid (r : row) : bool := gps_present r && negb (gps_invalid r).

(** The second row has the position and the two times of the first. *)
Definition same_position_and_times (r r' : row) : Prop :=
  latitude r' = latitude r /\ longitude r' = longitude r /\
  scheduled_time r' = scheduled_time r /\ actual_time r' = actual_time r.

(** ** The audit log *)

(** A method of the cleaner that turns the table of [self.df] into [f]
    of it, returns [self.df], leaves the protected objects alone and
    appends [entries] to the audit log. *)
Definition logged_spec (P : gset nat) (σ0 : gmap nat table)
           (m : M DataCleaner.t nat) (f : table -> table)
           (entries : table -> list log_entry) : Prop :=
  forall d s σ, inv P σ0 d s σ ->
    post m s σ (fun l s' σ' =>
                  l = self_df s' /\ inv P σ0 (f d) s' σ' /\
                  DataCleaner.cleaning_log s'
                  = (DataCleaner.cleaning_log s ++ entries d)%list).

Definition timestamps_log : list log_entry :=
  [ LogTimestampsStandardized "scheduled_time"; LogTimestampsStandardized "actual_time" ].

(** The entry of [treat_outliers] on the table [d]. *)
Definition outliers_log (d : table) : list log_entry :=
  [ LogOutliersTreated
      (DataCleaner.outliers_before (DataCleaner.lower_bound d) (DataCleaner.upper_bound d) d)
      (DataCleaner.lower_bound d) (DataCleaner.upper_bound d) ].

(** The entry of [handle_gps_coordinates] on the table [d]: the number
    of rows removed, when there is one. *)
Definition gps_log (d : table) : list log_entry :=
  let invalid_count := count_true (map gps_invalid d) in
  if (0 <? invalid_count)%nat then [LogGpsInvalidRemoved invalid_count] else [].

(** The entries in the audit log when the identifier unifier starts:
    those of the missing-value, timestamp and weather stages. *)
Definition log_before_unify (d : table) : list log_entry :=
  (missing_log d ++ timestamps_log ++ [LogWeatherNormalized])%list.

Section CleaningLog.

Variable pd_to_datetime : string -> result (option datetime).
Variable py_float : string -> result Q.
Variable pd_to_datetime_unit_s : Q -> result (option datetime).
Variable strptime : string -> string -> result datetime.

(** The entries [clean_all] appends to the audit log when [self.df]
    holds the table [d]: those of the six stages, in their order, each
    computed on the table the stage receives. *)
Definition clean_log (d : table) : list log_entry :=
  let d1 := DataCleaner.handle_missing_values_df d in
  let d2 := standardized pd_to_datetime py_float pd_to_datetime_unit_s strptime d1 in
  let d3 := DataCleaner.normalize_weather_df d2 in
  let d4 := unified d3 in
  let d5 := DataCleaner.treat_outliers_df d4 in
  (missing_log d ++ timestamps_log ++ [LogWeatherNormalized] ++ [LogRouteUnified]
   ++ outliers_log d4 ++ gps_log d5)%list.

End CleaningLog.

(** ** Missing values *)

(** Missing cells occur only above the first present cell of the
    column ([seen]: a present cell was met further up). *)
Fixpoint gaps_on_top {A} (seen : bool) (col : list (option A)) : bool :=
  match col with
  | [] => true
  | Some _ :: rest => gaps_on_top true rest
  | None :: rest => negb seen && gaps_on_top false rest
  end.

(** Every passenger count of the table is present, or none is. *)
Definition counts_all_or_none (d : table) : Prop :=
  Forall (fun r => isnull (passenger_count r) = false) d \/
  Forall (fun r => passenger_count r = None) d.

(** ** The rows of the pipeline *)

(** What cleaning guarantees of the loaded columns other than the two
    times, which the feature stage turns into timestamps. *)
Definition clean_loaded (r : row) : Prop :=
  unified_route (route_id r) /\ canonical_weather (weather r) /\
  in_range (-90) 90 (latitude r) /\ in_range (-180) 180 (longitude r) /\
  missing_or_in_range (passenger_count r).

(** The weather of the row is one of the four categories and its
    severity index is the index of that category. *)
Definition severity_of_category (r : row) : Prop :=
  In (weather r, weather_severity (derived r))
     [ (Some "clear", Some 0); (Some "cloudy", Some 1);
       (Some "rainy", Some 2); (Some "snowy", Some 3) ].

(** The row has a route frequency, above 0 and at most 1. *)
Definition frequency_present (r : row) : Prop :=
  exists f, route_frequency (derived r) = Some f /\ (0 < f /\ f <= 1)%Q.

(** The route, weather, period and weekend flag of the row make, with
    any integer passenger count in [0, 500], a request the prediction
    API accepts and leaves as it is. *)
Definition accepted_as_request (r : row) : Prop :=
  exists route w period weekend,
    route_id r = Some (RInt route) /\ weather r = Some w /\
    time_of_day (derived r) = Some period /\ is_weekend (derived r) = Some weekend /\
    forall pc, 0 <= pc <= 500 ->
      PredictionRequest.init route w pc period weekend
      = Ok (PredictionRequest.mk route w pc period weekend).

(** ** Predictions *)

(** The four weather flags of a feature row, by category. *)
Definition one_hot : list (string * list Z) :=
  [ ("clear", [1; 0; 0; 0]); ("cloudy", [0; 1; 0; 0]);
    ("rainy", [0; 0; 1; 0]); ("snowy", [0; 0; 0; 1]) ].

(** The features with another passenger count, another weather. *)
Definition with_passenger_count (pc : Z) (f : MLModelWrapper.features)
  : MLModelWrapper.features :=
  MLModelWrapper.mk_features (MLModelWrapper.route_id f) (MLModelWrapper.weather f)
                             (Some pc) (MLModelWrapper.time_of_day f)
                             (MLModelWrapper.is_weekend f).

Definition with_weather (w : string) (f : MLModelWrapper.features)
  : MLModelWrapper.features :=
  MLModelWrapper.mk_features (MLModelWrapper.route_id f) (Some w)
                             (MLModelWrapper.passenger_count f)
                             (MLModelWrapper.time_of_day f) (MLModelWrapper.is_weekend f).

(** ** The counts of the audit log *)

(** The entry for [removed] rows, written only when there is one. *)
Definition removal_entry (entry : nat -> log_entry) (removed : nat) : list log_entry :=
  match removed with
  | O => []
  | _ => [entry removed]
  end.

(** Two passenger counts that are both missing, or equal numbers. *)
Definition same_count (a b : option Q) : bool :=
  match a, b with
  | Some x, Some y => Qeq_bool x y
  | None, None => true
  | _, _ => false
  end.

(** The number of rows whose passenger count differs between [d] and
    [d'], row by row. *)
Definition changed_counts (d d' : table) : nat :=
  count_true (map (fun p => negb (same_count (passenger_count (fst p))
                                             (passenger_count (snd p))))
                  (combine d d')).

(** * Properties *)


(** ** Text *)

Lemma append_cons (c : ascii) (s t : string) : String c s ++ t = String c (s ++ t).
Proof. reflexivity. Qed.

Lemma append_nil (t : string) : "" ++ t = t.
Proof. reflexivity. Qed.

Lemma prefix_iff (p s : string) :
  String.prefix p s = true <-> exists post, s = p ++ post.
Proof.
  revert s; induction p as [|c p IH]; intros s.
  - split; [intros _; exists s; reflexivity | intros _; destruct s; reflexivity].
  - destruct s as [|c' s]; simpl.
    + split; [discriminate | intros [post Hp]; discriminate].
    + destruct (Ascii.ascii_dec c c') as [->|Hne].
      * rewrite IH. split; intros [post Hp]; exists post;
          rewrite append_cons in *; [now rewrite Hp | now inversion Hp].
      * split; [discriminate | intros [post Hp]; rewrite append_cons in Hp; congruence].
Qed.

Lemma contains_iff (sub s : string) :
  Py.contains sub s = true <-> is_substring sub s.
Proof.
  induction s as [|c s IH]; cbn [Py.contains].
  - rewrite orb_false_r, prefix_iff. split.
    + intros [post Hp]. exists "", post. exact Hp.
    + intros [pre [post Hp]]. destruct pre; [exists post; exact Hp | discriminate].
  - rewrite orb_true_iff, IH, prefix_iff. split.
    + intros [[post Hp] | [pre [post Hp]]].
      * exists "", post. exact Hp.
      * exists (String c pre), post. rewrite append_cons. now rewrite Hp.
    + intros [pre [post Hp]]. destruct pre as [|c' pre].
      * left. exists post. exact Hp.
      * right. exists pre, post. rewrite append_cons in Hp. now inversion Hp.
Qed.

Lemma mem_iff (x : string) (xs : list string) : Py.mem x xs = true <-> In x xs.
Proof.
  unfold Py.mem. rewrite existsb_exists. split.
  - intros [y [Hin Heq]]. apply String.eqb_eq in Heq. now subst.
  - intros Hin. exists x. split; [assumption | apply String.eqb_refl].
Qed.

(** ** Category normalizer *)

Lemma synonym_match_iff l vs : synonym_matchb l vs = true <-> synonym_match l vs.
Proof.
  unfold synonym_matchb, synonym_match.
  rewrite orb_true_iff, mem_iff, existsb_exists.
  split; (intros [H | [v [Hin Hc]]]; [left; exact H | right; exists v; split; [exact Hin|]]);
    apply contains_iff; exact Hc.
Qed.

Lemma first_match_split l before standard variants after :
  synonym_match l variants ->
  (forall c vs, In (c, vs) before -> ~ synonym_match l vs) ->
  first_match l (before ++ (standard, variants) :: after) = Some standard.
Proof.
  intros Hm. induction before as [|[c vs] before IH]; intros Hno; simpl.
  - apply synonym_match_iff in Hm. unfold synonym_matchb in Hm. now rewrite Hm.
  - fold (synonym_matchb l vs).
    destruct (synonym_matchb l vs) eqn:E.
    + apply synonym_match_iff in E. exfalso. apply (Hno c vs); [now left | exact E].
    + apply IH. intros c' vs' Hin. apply (Hno c'). now right.
Qed.

Lemma first_match_none l items :
  (forall c vs, In (c, vs) items -> ~ synonym_match l vs) ->
  first_match l items = None.
Proof.
  induction items as [|[c vs] items IH]; intros Hno; simpl; [reflexivity|].
  fold (synonym_matchb l vs).
  destruct (synonym_matchb l vs) eqn:E.
  - apply synonym_match_iff in E. exfalso. apply (Hno c vs); [now left | exact E].
  - apply IH. intros c' vs' Hin. apply (Hno c'). now right.
Qed.

(** C6. The category normalizer maps an absent value to [clear];
    a present value is lower-cased and trimmed, and the result is the
    first category of the mapping, in the order clear, cloudy, rainy,
    snowy, whose synonym set holds the value or has a synonym that is
    a substring of it; when no category matches the result is
    [clear].  ["Rain"] gives [rainy] and ["foggy"] gives [clear]. *)
Theorem normalize_weather_value_spec :
  normalize_weather_value None = "clear" /\
  map fst weather_mapping = ["clear"; "cloudy"; "rainy"; "snowy"] /\
  (forall s before standard variants after,
      weather_mapping = (before ++ (standard, variants) :: after)%list ->
      synonym_match (Py.strip (Py.lower s)) variants ->
      (forall c vs, In (c, vs) before -> ~ synonym_match (Py.strip (Py.lower s)) vs) ->
      normalize_weather_value (Some s) = standard) /\
  (forall s,
      (forall c vs, In (c, vs) weather_mapping ->
                    ~ synonym_match (Py.strip (Py.lower s)) vs) ->
      normalize_weather_value (Some s) = "clear") /\
  normalize_weather_value (Some "Rain") = "rainy" /\
  normalize_weather_value (Some "foggy") = "clear".
Proof.
  split; [reflexivity|]. split; [reflexivity|]. split; [|split; [|split; reflexivity]].
  - intros s before standard variants after Hmap Hm Hno.
    unfold normalize_weather_value. rewrite Hmap.
    now rewrite (first_match_split _ before standard variants after Hm Hno).
  - intros s Hno. unfold normalize_weather_value.
    now rewrite (first_match_none _ _ Hno).
Qed.

Lemma no_synonym_match l (items : list (string * list string)) :
  forallb (fun cv => negb (synonym_matchb l (snd cv))) items = true ->
  forall c vs, In (c, vs) items -> ~ synonym_match l vs.
Proof.
  rewrite forallb_forall. intros H c vs Hin Hm.
  specialize (H (c, vs) Hin). simpl in H.
  apply synonym_match_iff in Hm. rewrite Hm in H. discriminate.
Qed.

Lemma normalize_weather_value_spec_witness :
  normalize_weather_value (Some "Heavy RAIN ") = "rainy" /\
  normalize_weather_value (Some "foggy") = "clear".
Proof.
  destruct normalize_weather_value_spec as (_ & _ & Hfirst & Hnone & _).
  split.
  - apply (Hfirst "Heavy RAIN "
                  [("clear", ["clear"; "sunny"; "sun"; "fair"]);
                   ("cloudy", ["cloudy"; "clouds"; "overcast"; "cloud"])]
                  "rainy" ["rainy"; "rain"; "raining"; "drizzle"; "drizzling"]
                  [("snowy", ["snowy"; "snow"; "snowing"; "sleet"])]).
    + reflexivity.
    + apply synonym_match_iff. vm_compute. reflexivity.
    + apply no_synonym_match. vm_compute. reflexivity.
  - apply Hnone. apply no_synonym_match. vm_compute. reflexivity.
Defined.

(** ** Identifier unifier *)

Lemma string_length_append (a b : string) :
  String.length (a ++ b) = (String.length a + String.length b)%nat.
Proof.
  induction a as [|c a IH]; [reflexivity|].
  rewrite append_cons. simpl. now rewrite IH.
Qed.

Lemma append_nil_r (s : string) : s ++ "" = s.
Proof. induction s as [|c s IH]; [reflexivity|]. rewrite append_cons. now rewrite IH. Qed.

Lemma digit_run_all (run : string) :
  digit_run run = true -> run <> "" /\ Py.all_digits run = true.
Proof.
  unfold digit_run. intros H. apply andb_true_iff in H as [Hne Hall].
  split; [|exact Hall]. intros ->. discriminate.
Qed.

Lemma span_digits_run (run post : string) :
  Py.all_digits run = true -> starts_with_digit post = false ->
  Py.span_digits (run ++ post) = (run, post).
Proof.
  intros Hrun Hpost. induction run as [|c run IH].
  - rewrite append_nil. destruct post as [|c post]; [reflexivity|].
    simpl in *. now rewrite Hpost.
  - rewrite append_cons. simpl in *. apply andb_true_iff in Hrun as [Hc Hrun].
    rewrite Hc, (IH Hrun). reflexivity.
Qed.

Lemma findall_digits_aux_skip (pre rest : string) (fuel : nat) :
  no_digits pre = true ->
  Py.findall_digits_aux (String.length pre + fuel) (pre ++ rest)
  = Py.findall_digits_aux fuel rest.
Proof.
  intros Hpre. induction pre as [|c pre IH]; [reflexivity|].
  unfold no_digits in Hpre. simpl in Hpre. apply andb_true_iff in Hpre as [Hc Hpre].
  rewrite append_cons. simpl. apply negb_true_iff in Hc. rewrite Hc.
  apply IH. exact Hpre.
Qed.

Lemma findall_digits_first_run (pre run post : string) :
  no_digits pre = true -> digit_run run = true -> starts_with_digit post = false ->
  exists others, Py.findall_digits (pre ++ run ++ post) = run :: others.
Proof.
  intros Hpre Hrun Hpost. unfold Py.findall_digits.
  rewrite string_length_append, findall_digits_aux_skip by exact Hpre.
  apply digit_run_all in Hrun as [Hne Hrun].
  destruct run as [|c run]; [contradiction|].
  pose proof (span_digits_run _ _ Hrun Hpost) as Hspan.
  rewrite append_cons in *. simpl String.length. cbn [Py.findall_digits_aux].
  simpl in Hrun. apply andb_true_iff in Hrun as [Hc _]. rewrite Hc, Hspan.
  eexists. reflexivity.
Qed.

Lemma findall_digits_aux_none (s : string) (fuel : nat) :
  no_digits s = true -> Py.findall_digits_aux fuel s = [].
Proof.
  revert s; induction fuel as [|fuel IH]; intros s Hs; [reflexivity|].
  destruct s as [|c s]; [reflexivity|].
  unfold no_digits in Hs. simpl in Hs. apply andb_true_iff in Hs as [Hc Hs].
  simpl. apply negb_true_iff in Hc. rewrite Hc. apply IH. exact Hs.
Qed.

(** *** The decimal text of an integer *)

Lemma string_of_uint_digits (d : Decimal.uint) :
  Py.all_digits (NilEmpty.string_of_uint d) = true.
Proof. induction d; cbn; auto. Qed.

Lemma to_uint_not_nil (p : positive) : Pos.to_uint p <> Decimal.Nil.
Proof.
  intros E. pose proof (DecimalPos.Unsigned.of_to p) as H. rewrite E in H. discriminate.
Qed.

Lemma str_of_int_pos (p : positive) :
  Py.str_of_int (Z.pos p) = NilEmpty.string_of_uint (Pos.to_uint p).
Proof.
  unfold Py.str_of_int. cbn [Z.to_int NilZero.string_of_int].
  pose proof (to_uint_not_nil p). now destruct (Pos.to_uint p).
Qed.

Lemma str_of_int_digit_run (z : Z) : 0 <= z -> digit_run (Py.str_of_int z) = true.
Proof.
  intros Hz. destruct z as [|p|p]; [reflexivity | | lia].
  rewrite str_of_int_pos. unfold digit_run.
  rewrite string_of_uint_digits, andb_true_r.
  pose proof (to_uint_not_nil p). now destruct (Pos.to_uint p).
Qed.

Lemma str_of_int_neg (z : Z) :
  z < 0 -> Py.str_of_int z = String "-" (Py.str_of_int (Z.abs z)).
Proof. intros Hz. destruct z as [|p|p]; [lia | lia | reflexivity]. Qed.

(** The text of an integer is its sign and the digits of its absolute
    value. *)
Lemma str_of_int_split (z : Z) :
  exists pre,
    Py.str_of_int z = pre ++ Py.str_of_int (Z.abs z) ++ "" /\ no_digits pre = true.
Proof.
  destruct (Z.ltb_spec z 0) as [Hz|Hz].
  - exists "-". rewrite (str_of_int_neg z Hz), append_cons, append_nil, append_nil_r.
    split; reflexivity.
  - exists "". rewrite Z.abs_eq by exact Hz. rewrite append_nil, append_nil_r.
    split; reflexivity.
Qed.

(** Evaluates the value of the digit in the goal. *)
Ltac digit_value :=
  match goal with
  | |- context [Py.digit_val ?c] =>
      let v := eval vm_compute in (Py.digit_val c) in change (Py.digit_val c) with v
  end.

(** The digits of a number denote it. *)
Lemma int_of_digits_acc (d : Decimal.uint) (acc : positive) :
  fold_left (fun acc c => 10 * acc + Py.digit_val c)
            (list_ascii_of_string (NilEmpty.string_of_uint d)) (Z.pos acc)
  = Z.pos (Pos.of_uint_acc d acc).
Proof.
  revert acc. induction d; intros acc; cbn [NilEmpty.string_of_uint list_ascii_of_string
                                            fold_left Pos.of_uint_acc];
    [reflexivity|..];
    match goal with
    | |- fold_left _ _ ?a = Z.pos (Pos.of_uint_acc _ ?b) =>
        replace a with (Z.pos b) by (digit_value; lia)
    end; apply IHd.
Qed.

Lemma int_of_digits_uint (d : Decimal.uint) :
  Py.int_of_digits (NilEmpty.string_of_uint d) = Z.of_N (Pos.of_uint d).
Proof.
  unfold Py.int_of_digits.
  induction d; cbn [NilEmpty.string_of_uint list_ascii_of_string fold_left Pos.of_uint];
    [reflexivity | exact IHd | ..];
    match goal with
    | |- fold_left _ _ ?a = Z.of_N (N.pos (Pos.of_uint_acc _ ?b)) =>
        replace a with (Z.pos b) by (digit_value; lia)
    end; apply int_of_digits_acc.
Qed.

Lemma int_of_digits_str (z : Z) : 0 <= z -> Py.int_of_digits (Py.str_of_int z) = z.
Proof.
  intros Hz. destruct z as [|p|p]; [reflexivity | | lia].
  rewrite str_of_int_pos, int_of_digits_uint, DecimalPos.Unsigned.of_to. reflexivity.
Qed.

(** *** What the unifier returns *)

Lemma int_outcome (run : string) :
  Py.int run
  = if Z.of_nat (String.length run) <=? Py.int_max_str_digits
    then Ok (Py.int_of_digits run) else Raise ValueError.
Proof.
  unfold Py.int.
  destruct (Z.ltb_spec Py.int_max_str_digits (Z.of_nat (String.length run)));
    destruct (Z.leb_spec (Z.of_nat (String.length run)) Py.int_max_str_digits);
    try reflexivity; lia.
Qed.

Lemma str_outcome (z : Z) :
  Py.str z
  = if Z.of_nat (String.length (Py.str_of_int (Z.abs z))) <=? Py.int_max_str_digits
    then Ok (Py.str_of_int z) else Raise ValueError.
Proof.
  unfold Py.str.
  destruct (Z.ltb_spec Py.int_max_str_digits
                       (Z.of_nat (String.length (Py.str_of_int (Z.abs z)))));
    destruct (Z.leb_spec (Z.of_nat (String.length (Py.str_of_int (Z.abs z))))
                         Py.int_max_str_digits);
    try reflexivity; lia.
Qed.

(** On a text with a run of digits. *)
Lemma extract_route_number_run (s pre run post : string) :
  s = pre ++ run ++ post ->
  no_digits pre = true -> digit_run run = true -> starts_with_digit post = false ->
  extract_route_number (Some (RStr s))
  = (if Z.of_nat (String.length run) <=? Py.int_max_str_digits
     then Ok (Z.min (Z.max (Py.int_of_digits run) 1) 10)
     else Raise ValueError) /\
  route_convertible (Some (RStr s))
  = (Z.of_nat (String.length run) <=? Py.int_max_str_digits).
Proof.
  intros -> Hpre Hrun Hpost.
  unfold extract_route_number, route_convertible. cbn [str_rval rbind].
  destruct (findall_digits_first_run pre run post Hpre Hrun Hpost) as [others ->].
  rewrite int_outcome. split; [|reflexivity].
  now destruct (_ <=? _).
Qed.

(** On a text without any digit. *)
Lemma extract_route_number_words (s : string) :
  no_digits s = true ->
  let value_lower := Py.lower s in
  extract_route_number (Some (RStr s))
  = (if Py.contains "one" value_lower || Py.contains "1" value_lower then Ok 1
     else if Py.contains "two" value_lower || Py.contains "2" value_lower then Ok 2
     else Ok 1) /\
  route_convertible (Some (RStr s)) = true.
Proof.
  intros Hno. cbv zeta. unfold extract_route_number, route_convertible, Py.findall_digits.
  cbn [str_rval rbind]. rewrite (findall_digits_aux_none _ _ Hno). split; reflexivity.
Qed.

(** On an integer. *)
Lemma extract_route_number_int (z : Z) :
  extract_route_number (Some (RInt z))
  = if route_convertible (Some (RInt z))
    then Ok (Z.min (Z.max (Z.abs z) 1) 10) else Raise ValueError.
Proof.
  unfold extract_route_number. cbn [str_rval route_convertible]. rewrite str_outcome.
  destruct (_ <=? _) eqn:E; cbn [rbind]; [|reflexivity].
  destruct (str_of_int_split z) as (pre & Hsplit & Hpre).
  pose proof (str_of_int_digit_run (Z.abs z) (Z.abs_nonneg z)) as Hrun.
  destruct (findall_digits_first_run pre _ "" Hpre Hrun eq_refl) as [others Hall].
  rewrite <- Hsplit in Hall. rewrite Hall, int_outcome, E. cbn [rbind].
  now rewrite (int_of_digits_str _ (Z.abs_nonneg z)).
Qed.

(** The unifier returns a number between 1 and 10 on a convertible
    route and raises [ValueError] on any other. *)
Lemma extract_route_number_outcome (value : option rval) :
  match extract_route_number value with
  | Ok z => 1 <= z <= 10 /\ route_convertible value = true
  | Raise e => e = ValueError /\ route_convertible value = false
  end.
Proof.
  destruct value as [[z|s]|]; [| |cbn; lia].
  - rewrite extract_route_number_int.
    destruct (route_convertible (Some (RInt z))); split; try reflexivity; lia.
  - unfold extract_route_number, route_convertible. cbn [str_rval rbind].
    destruct (Py.findall_digits s) as [|n0 others].
    + destruct (_ || _); [split; [lia | reflexivity]|].
      destruct (_ || _); split; try reflexivity; lia.
    + rewrite int_outcome. destruct (_ <=? _); cbn [rbind]; split; try reflexivity; lia.
Qed.

Lemma extract_route_number_convertible (value : option rval) :
  route_convertible value = true -> extract_route_number value = Ok (route_number value).
Proof.
  intros Hc. unfold route_number.
  pose proof (extract_route_number_outcome value) as H.
  destruct (extract_route_number value) as [z|e]; [reflexivity|].
  destruct H as [_ H]. congruence.
Qed.

Lemma extract_route_number_raises (value : option rval) :
  route_convertible value = false -> extract_route_number value = Raise ValueError.
Proof.
  intros Hc. pose proof (extract_route_number_outcome value) as H.
  destruct (extract_route_number value) as [z|e]; [destruct H; congruence|].
  destruct H as [-> _]. reflexivity.
Qed.

Lemma route_number_bounds (value : option rval) : 1 <= route_number value <= 10.
Proof.
  unfold route_number. pose proof (extract_route_number_outcome value) as H.
  destruct (extract_route_number value) as [z|e]; [apply H | lia].
Qed.

Lemma repeat_char_length (c : ascii) (n : nat) : String.length (repeat_char c n) = n.
Proof. induction n as [|n IH]; cbn; congruence. Qed.

(** C7. The identifier unifier returns 1 on an absent value.  On
    text it takes the first run of decimal digits: when the run has at
    most 4300 characters it returns the number of the run clamped into
    [1, 10], and when it has more, [int] raises [ValueError], which
    the unifier does not catch.  On text without any digit it returns 1
    for a text with "one" or "1", else 2 for a text with "two" or "2",
    else 1.  An integer stands for its decimal text ([str] raises
    [ValueError] beyond 4300 digits).  Whenever the unifier returns,
    the result lies in [1, 10]; "Route 12" gives 10 and "R3" gives 3;
    "R" followed by 4301 digits raises. *)
Theorem extract_route_number_spec :
  extract_route_number None = Ok 1 /\
  (forall s pre run post,
      s = pre ++ run ++ post ->
      no_digits pre = true -> digit_run run = true -> starts_with_digit post = false ->
      extract_route_number (Some (RStr s))
      = if Z.of_nat (String.length run) <=? 4300
        then Ok (Z.min (Z.max (Py.int_of_digits run) 1) 10)
        else Raise ValueError) /\
  (forall s,
      no_digits s = true ->
      let value_lower := Py.lower s in
      (is_substring "one" value_lower \/ is_substring "1" value_lower ->
       extract_route_number (Some (RStr s)) = Ok 1) /\
      (~ (is_substring "one" value_lower \/ is_substring "1" value_lower) ->
       is_substring "two" value_lower \/ is_substring "2" value_lower ->
       extract_route_number (Some (RStr s)) = Ok 2) /\
      (~ (is_substring "one" value_lower \/ is_substring "1" value_lower) ->
       ~ (is_substring "two" value_lower \/ is_substring "2" value_lower) ->
       extract_route_number (Some (RStr s)) = Ok 1)) /\
  (forall z,
      extract_route_number (Some (RInt z))
      = if Z.of_nat (String.length (Py.str_of_int (Z.abs z))) <=? 4300
        then Ok (Z.min (Z.max (Z.abs z) 1) 10)
        else Raise ValueError) /\
  (forall value,
      match extract_route_number value with
      | Ok z => 1 <= z <= 10 /\ route_convertible value = true
      | Raise e => e = ValueError /\ route_convertible value = false
      end) /\
  extract_route_number (Some (RStr "Route 12")) = Ok 10 /\
  extract_route_number (Some (RStr "R3")) = Ok 3 /\
  extract_route_number (Some (RStr (String "R" (repeat_char "1" 4301)))) = Raise ValueError.
Proof.
  split; [reflexivity|].
  split; [|split; [|split; [|split; [|split; [|split]]]]].
  - intros s pre run post Hs Hpre Hrun Hpost.
    apply (extract_route_number_run s pre run post Hs Hpre Hrun Hpost).
  - intros s Hno value_lower.
    assert (Hone : Py.contains "one" value_lower || Py.contains "1" value_lower = true
                   <-> is_substring "one" value_lower \/ is_substring "1" value_lower)
      by (rewrite orb_true_iff, !contains_iff; reflexivity).
    assert (Htwo : Py.contains "two" value_lower || Py.contains "2" value_lower = true
                   <-> is_substring "two" value_lower \/ is_substring "2" value_lower)
      by (rewrite orb_true_iff, !contains_iff; reflexivity).
    destruct (extract_route_number_words s Hno) as [-> _]. fold value_lower.
    destruct (Py.contains "one" value_lower || Py.contains "1" value_lower);
      destruct (Py.contains "two" value_lower || Py.contains "2" value_lower);
      repeat split; intros; try reflexivity;
      try (exfalso; tauto); intuition discriminate.
  - exact extract_route_number_int.
  - exact extract_route_number_outcome.
  - reflexivity.
  - reflexivity.
  - destruct (extract_route_number_run (String "R" (repeat_char "1" 4301))
                                       "R" (repeat_char "1" 4301) "") as [-> _].
    + now rewrite append_cons, append_nil, append_nil_r.
    + reflexivity.
    + vm_compute. reflexivity.
    + reflexivity.
    + rewrite repeat_char_length. reflexivity.
Qed.

Lemma extract_route_number_spec_witness :
  extract_route_number (Some (RStr "Route 12 express 7")) = Ok 10 /\
  extract_route_number (Some (RStr "Line TWO")) = Ok 2 /\
  extract_route_number (Some (RInt (-12))) = Ok 10.
Proof.
  destruct extract_route_number_spec as (_ & Hrun & Hword & Hint & _).
  split; [|split].
  - apply (Hrun "Route 12 express 7" "Route " "12" " express 7");
      vm_compute; reflexivity.
  - apply (Hword "Line TWO").
    + vm_compute; reflexivity.
    + rewrite <- !contains_iff. vm_compute. intros [H | H]; discriminate.
    + left. apply contains_iff. vm_compute. reflexivity.
  - apply (Hint (-12)).
Defined.

(** ** The date pattern *)

(** Compares the lengths of texts built from characters. *)
Ltac str_length :=
  rewrite ?append_cons, ?append_nil; cbn [String.length] in *; lia.

Lemma is_sep_iff (c : ascii) : is_sep c = true <-> c = "-"%char \/ c = "/"%char.
Proof.
  unfold is_sep. rewrite orb_true_iff, !Ascii.eqb_eq. reflexivity.
Qed.

Lemma sep_not_digit (c : ascii) : is_sep c = true -> Py.is_digit c = false.
Proof. intros H. apply is_sep_iff in H as [-> | ->]; reflexivity. Qed.

Lemma d12_cases (d : string) :
  d12 d ->
  (exists a, d = String a "" /\ Py.is_digit a = true) \/
  (exists a b, d = String a (String b "") /\ Py.is_digit a = true /\ Py.is_digit b = true).
Proof.
  intros [Hlen Hall]. destruct d as [|a [|b [|c d]]]; cbn in Hlen; try lia.
  - left. exists a. cbn in Hall. rewrite andb_true_r in Hall. now split.
  - right. exists a, b. cbn in Hall. rewrite andb_true_r in Hall.
    apply andb_true_iff in Hall as [Ha Hb]. now repeat split.
Qed.

Lemma d12_one (a : ascii) : Py.is_digit a = true -> d12 (String a "").
Proof. intros Ha. split; [cbn; lia | cbn; now rewrite Ha]. Qed.

Lemma d12_two (a b : ascii) :
  Py.is_digit a = true -> Py.is_digit b = true -> d12 (String a (String b "")).
Proof. intros Ha Hb. split; [cbn; lia | cbn; now rewrite Ha, Hb]. Qed.

(** The last [\d{1,2}]: the digits it takes, as many as there are. *)
Lemma match_d12_end_sound (s g : string) :
  match_d12_end s = Some g ->
  exists post,
    s = g ++ post /\ d12 g /\
    forall g' post', s = g' ++ post' -> d12 g' -> (String.length g' <= String.length g)%nat.
Proof.
  destruct s as [|a [|b s]]; cbn [match_d12_end]; [discriminate | |].
  - destruct (Py.is_digit a) eqn:Ha; [|discriminate]. intros [= <-].
    exists "". split; [reflexivity|]. split; [now apply d12_one|].
    intros g' post' Hs Hg'. apply d12_cases in Hg' as [(x & -> & _) | (x & y & -> & _)];
      [str_length | discriminate].
  - destruct (Py.is_digit a) eqn:Ha; cbn [andb]; [|discriminate].
    destruct (Py.is_digit b) eqn:Hb; intros [= <-].
    + exists s. split; [reflexivity|]. split; [now apply d12_two|].
      intros g' post' _ [Hlen _]. str_length.
    + exists (String b s). split; [reflexivity|]. split; [now apply d12_one|].
      intros g' post' Hs Hg'.
      apply d12_cases in Hg' as [(x & -> & _) | (x & y & -> & _ & Hy)]; [str_length|].
      rewrite ?append_cons, ?append_nil in Hs. injection Hs as _ <- _. congruence.
Qed.

Lemma match_d12_end_complete (s g' post' : string) :
  s = g' ++ post' -> d12 g' -> exists g, match_d12_end s = Some g.
Proof.
  intros -> Hg'.
  apply d12_cases in Hg' as [(a & -> & Ha) | (a & b & -> & Ha & Hb)];
    rewrite ?append_cons, ?append_nil.
  - destruct post' as [|b post']; cbn [match_d12_end]; rewrite Ha;
      [eexists; reflexivity|].
    cbn [andb]. destruct (Py.is_digit b); eexists; reflexivity.
  - cbn [match_d12_end]. rewrite Ha, Hb. eexists. reflexivity.
Qed.

Lemma match_md_one (a c : ascii) (rest : string) :
  Py.is_digit a = true -> is_sep c = true ->
  match_md (String a (String c rest))
  = option_map (fun t => String a (String c t)) (match_d12_end rest).
Proof.
  intros Ha Hc. unfold match_md.
  rewrite Ha, Hc, (sep_not_digit c Hc). cbn [andb].
  now destruct rest as [|x rest].
Qed.

Lemma match_md_two (a b c : ascii) (rest : string) (dd : string) :
  Py.is_digit a = true -> Py.is_digit b = true -> is_sep c = true ->
  match_md (String a (String b (String c rest)))
  = option_map (fun t => String a (String b (String c t))) (match_d12_end rest).
Proof.
  intros Ha Hb Hc. unfold match_md. rewrite Ha, Hb, Hc. cbn [andb].
  destruct (match_d12_end rest) as [t|]; cbn [option_map]; [reflexivity|].
  assert (Hb' : is_sep b = false).
  { destruct (is_sep b) eqn:E; [|reflexivity]. apply sep_not_digit in E. congruence. }
  now rewrite Hb'.
Qed.

(** The text starts with a month and its separator: what is left. *)
Lemma md_like_head (rest t' post' : string) :
  rest = t' ++ post' -> md_like t' ->
  exists (m : string) (s2 : ascii) (d tail : string),
    t' = m ++ String s2 d /\ rest = m ++ String s2 tail /\ tail = d ++ post' /\
    d12 m /\ is_sep s2 = true /\ d12 d.
Proof.
  intros -> (m & s2 & d & -> & Hm & Hs2 & Hd).
  exists m, s2, d, (d ++ post'). apply is_sep_iff in Hs2.
  split; [reflexivity|].
  split; [|split; [reflexivity|]; split; [exact Hm|]; split; assumption].
  clear. induction m as [|x m IH]; [reflexivity|]. rewrite !append_cons. now rewrite IH.
Qed.

Lemma match_md_sound (s t : string) :
  match_md s = Some t ->
  exists post,
    s = t ++ post /\ md_like t /\
    forall t' post', s = t' ++ post' -> md_like t' -> (String.length t' <= String.length t)%nat.
Proof.
  intros Hmatch.
  assert (Hshape :
    (exists a c rest dd, s = String a (String c rest) /\ Py.is_digit a = true /\
                         is_sep c = true /\ match_d12_end rest = Some dd /\
                         t = String a (String c dd)) \/
    (exists a b c rest dd, s = String a (String b (String c rest)) /\
                           Py.is_digit a = true /\ Py.is_digit b = true /\
                           is_sep c = true /\ match_d12_end rest = Some dd /\
                           t = String a (String b (String c dd)))).
  { unfold match_md in Hmatch.
    destruct s as [|a [|b s]]; [discriminate | discriminate |].
    destruct (Py.is_digit a) eqn:Ha; cbn [andb] in Hmatch.
    2: { destruct s; discriminate. }
    destruct (is_sep b) eqn:Hsb.
    - pose proof (sep_not_digit b Hsb) as Hb. rewrite Hb in Hmatch. cbn [andb] in Hmatch.
      assert (Hm : option_map (fun t => String a (String b t)) (match_d12_end s) = Some t)
        by (destruct s; exact Hmatch).
      destruct (match_d12_end s) as [dd|] eqn:Hdd; [|discriminate].
      injection Hm as <-. left. exists a, b, s, dd. now repeat split.
    - destruct s as [|c s]; [discriminate|].
      destruct (Py.is_digit b) eqn:Hb; cbn [andb] in Hmatch; [|discriminate].
      destruct (is_sep c) eqn:Hc; [|discriminate].
      destruct (match_d12_end s) as [dd|] eqn:Hdd; cbn [option_map] in Hmatch;
        [|discriminate].
      injection Hmatch as <-. right. exists a, b, c, s, dd. now repeat split. }
  destruct Hshape as [(a & c & rest & dd & -> & Ha & Hc & Hdd & ->)
                     |(a & b & c & rest & dd & -> & Ha & Hb & Hc & Hdd & ->)];
    destruct (match_d12_end_sound _ _ Hdd) as (post & -> & Hd & Hmax);
    exists post; (split; [reflexivity|]).
  - split.
    + exists (String a ""), c, dd.
      split; [reflexivity|]. split; [now apply d12_one|].
      split; [apply is_sep_iff; exact Hc | exact Hd].
    + intros t' post' Hs Ht'.
      destruct (md_like_head _ _ _ Hs Ht') as (m & s2 & d & tail & -> & Hrest & Htail & Hm & Hs2 & Hd').
      apply d12_cases in Hm as [(x & -> & _) | (x & y & -> & _ & Hy)].
      * rewrite ?append_cons, ?append_nil in Hrest. injection Hrest as _ _ <-.
        specialize (Hmax d post' Htail Hd'). str_length.
      * rewrite ?append_cons, ?append_nil in Hrest. injection Hrest as _ <- _.
        apply sep_not_digit in Hc. congruence.
  - split.
    + exists (String a (String b "")), c, dd.
      split; [reflexivity|]. split; [now apply d12_two|].
      split; [apply is_sep_iff; exact Hc | exact Hd].
    + intros t' post' Hs Ht'.
      destruct (md_like_head _ _ _ Hs Ht') as (m & s2 & d & tail & -> & Hrest & Htail & Hm & Hs2 & Hd').
      apply d12_cases in Hm as [(x & -> & _) | (x & y & -> & _ & Hy)].
      * rewrite ?append_cons, ?append_nil in Hrest. injection Hrest as _ <- _.
        apply sep_not_digit in Hs2. congruence.
      * rewrite ?append_cons, ?append_nil in Hrest. injection Hrest as _ _ _ <-.
        specialize (Hmax d post' Htail Hd'). str_length.
Qed.

Lemma match_md_complete (s t' post' : string) :
  s = t' ++ post' -> md_like t' -> exists t, match_md s = Some t.
Proof.
  intros Hs Ht'.
  destruct (md_like_head _ _ _ Hs Ht') as (m & s2 & d & tail & _ & -> & Htail & Hm & Hs2 & Hd).
  destruct (match_d12_end_complete _ _ _ Htail Hd) as [dd Hdd].
  apply d12_cases in Hm as [(a & -> & Ha) | (a & b & -> & Ha & Hb)];
    rewrite ?append_cons, ?append_nil.
  - rewrite (match_md_one a s2 tail Ha Hs2), Hdd. eexists. reflexivity.
  - rewrite (match_md_two a b s2 tail dd Ha Hb Hs2), Hdd. eexists. reflexivity.
Qed.

(** A date at the start of the text: the year, a separator, and
    the rest. *)
Lemma date_like_head (s g' post' : string) :
  s = g' ++ post' -> date_like g' ->
  exists (a b c d e : ascii) (t rest : string),
    g' = String a (String b (String c (String d (String e t)))) /\
    s = String a (String b (String c (String d (String e rest)))) /\
    rest = t ++ post' /\
    Py.is_digit a && Py.is_digit b && Py.is_digit c && Py.is_digit d && is_sep e = true /\
    md_like t.
Proof.
  intros -> (y & m & dd & s1 & s2 & -> & Hlen & Hy & Hs1 & Hs2 & Hm & Hmd & Hd & Hdd).
  destruct y as [|a [|b [|c [|d [|x y]]]]]; try discriminate Hlen.
  exists a, b, c, d, s1, (m ++ String s2 dd), ((m ++ String s2 dd) ++ post').
  split; [reflexivity|]. split; [reflexivity|]. split; [reflexivity|]. split.
  - cbn [Py.all_digits] in Hy. apply is_sep_iff in Hs1. rewrite Hs1.
    destruct (Py.is_digit a), (Py.is_digit b), (Py.is_digit c), (Py.is_digit d);
      try discriminate Hy; reflexivity.
  - exists m, s2, dd. split; [reflexivity|].
    split; [split; assumption|]. split; [assumption | split; assumption].
Qed.

Lemma date_like_intro (a b c d e : ascii) (t : string) :
  Py.is_digit a && Py.is_digit b && Py.is_digit c && Py.is_digit d && is_sep e = true ->
  md_like t -> date_like (String a (String b (String c (String d (String e t))))).
Proof.
  intros Hy (m & s2 & dd & -> & [Hm Hmd] & Hs2 & [Hd Hdd]).
  apply andb_true_iff in Hy as [Hy He]. apply is_sep_iff in He.
  exists (String a (String b (String c (String d "")))), m, dd, e, s2.
  split; [reflexivity|]. split; [reflexivity|].
  split; [cbn [Py.all_digits];
          destruct (Py.is_digit a), (Py.is_digit b), (Py.is_digit c), (Py.is_digit d);
          try discriminate Hy; reflexivity|].
  split; [exact He|]. split; [exact Hs2|]. split; [exact Hm|]. split; [exact Hmd|].
  split; [exact Hd | exact Hdd].
Qed.

Lemma match_date_at_sound (s g : string) :
  match_date_at s = Some g ->
  exists post,
    s = g ++ post /\ date_like g /\
    forall g' post', s = g' ++ post' -> date_like g' ->
                     (String.length g' <= String.length g)%nat.
Proof.
  unfold match_date_at.
  destruct s as [|a [|b [|c [|d [|e rest]]]]]; try discriminate.
  destruct (Py.is_digit a && Py.is_digit b && Py.is_digit c && Py.is_digit d && is_sep e)
    eqn:Hy; [|discriminate].
  destruct (match_md rest) as [t|] eqn:Ht; [|discriminate]. intros [= <-].
  destruct (match_md_sound _ _ Ht) as (post & -> & Hmd & Hmax).
  exists post. split; [reflexivity|]. split; [now apply date_like_intro|].
  intros g' post' Hs Hg'.
  destruct (date_like_head _ _ _ Hs Hg') as (a' & b' & c' & d' & e' & t' & rest' & -> & Hs' & Hrest & _ & Ht').
  injection Hs' as _ _ _ _ _ <-.
  specialize (Hmax t' post' Hrest Ht'). str_length.
Qed.

Lemma match_date_at_complete (s g' post' : string) :
  s = g' ++ post' -> date_like g' -> exists g, match_date_at s = Some g.
Proof.
  intros Hs Hg'.
  destruct (date_like_head _ _ _ Hs Hg') as (a & b & c & d & e & t & rest & _ & -> & Hrest & Hy & Ht).
  destruct (match_md_complete _ _ _ Hrest Ht) as [t0 Ht0].
  unfold match_date_at. rewrite Hy, Ht0. eexists. reflexivity.
Qed.

(** [search_date] finds the first date of the text, and finds none
    only in a text without a date. *)
Lemma search_date_sound (s g : string) : search_date s = Some g -> first_date s g.
Proof.
  induction s as [|c s IH].
  - cbn. discriminate.
  - cbn [search_date].
    destruct (match_date_at (String c s)) as [g0|] eqn:Hat.
    + intros [= <-]. destruct (match_date_at_sound _ _ Hat) as (post & Hs & Hg & Hmax).
      exists "", post. split; [exact Hs|]. split; [exact Hg|].
      intros pre' g' post' Hs' Hg'. split; [str_length|].
      intros Hlen. destruct pre' as [|x pre']; [|discriminate].
      exact (Hmax g' post' Hs' Hg').
    + intros Hrec. destruct (IH Hrec) as (pre & post & -> & Hg & Hfirst).
      exists (String c pre), post. split; [reflexivity|]. split; [exact Hg|].
      intros pre' g' post' Hs' Hg'.
      destruct pre' as [|x pre'].
      * exfalso. rewrite append_nil in Hs'.
        destruct (match_date_at_complete _ _ _ Hs' Hg') as [g0 Hg0]. congruence.
      * rewrite ?append_cons, ?append_nil in Hs'. injection Hs' as _ Hs'.
        destruct (Hfirst pre' g' post' Hs' Hg') as [H1 H2].
        split; [str_length|]. intros Hlen. apply H2. cbn in Hlen. lia.
Qed.

Lemma search_date_none (s : string) : search_date s = None -> no_date s.
Proof.
  induction s as [|c s IH]; intros Hnone pre g post Hs Hg.
  - destruct pre; [|discriminate]. rewrite ?append_cons, ?append_nil in Hs.
    destruct (date_like_head "" g post Hs Hg) as (a & b & c & d & e & t & rest & _ & H & _).
    discriminate.
  - cbn [search_date] in Hnone.
    destruct (match_date_at (String c s)) as [g0|] eqn:Hat; [discriminate|].
    destruct pre as [|x pre].
    + rewrite append_nil in Hs.
      destruct (match_date_at_complete _ _ _ Hs Hg) as [g0 Hg0]. congruence.
    + rewrite ?append_cons, ?append_nil in Hs. injection Hs as _ Hs. exact (IH Hnone pre g post Hs Hg).
Qed.

Lemma append_same_length (a b a' b' : string) :
  a ++ b = a' ++ b' -> String.length a = String.length a' -> a = a' /\ b = b'.
Proof.
  revert a'. induction a as [|x a IH]; intros [|x' a'] Heq Hlen; try discriminate.
  - now split.
  - cbn in Heq, Hlen. injection Heq as -> Heq. injection Hlen as Hlen.
    destruct (IH a' Heq Hlen) as [-> ->]. now split.
Qed.

(** A text has at most one first date. *)
Lemma first_date_unique (s g g' : string) : first_date s g -> first_date s g' -> g = g'.
Proof.
  intros (pre & post & Hs & Hg & Hfirst) (pre' & post' & Hs' & Hg' & Hfirst').
  destruct (Hfirst pre' g' post' Hs' Hg') as [H1 H2].
  destruct (Hfirst' pre g post Hs Hg) as [H1' H2'].
  assert (Hpre : String.length pre = String.length pre') by lia.
  rewrite Hs in Hs'. destruct (append_same_length _ _ _ _ Hs' Hpre) as [_ Hrest].
  assert (Hlen : String.length g = String.length g').
  { specialize (H2 (eq_sym Hpre)). specialize (H2' Hpre). lia. }
  apply (append_same_length _ _ _ _ Hrest Hlen).
Qed.

Lemma first_date_not_none (s g : string) : first_date s g -> ~ no_date s.
Proof. intros (pre & post & Hs & Hg & _) Hno. exact (Hno pre g post Hs Hg). Qed.

(** [re.search(date_pattern, s)] is the first date of [s]. *)
Lemma search_date_spec (s : string) :
  match search_date s with
  | Some g => first_date s g
  | None => no_date s
  end.
Proof.
  destruct (search_date s) as [g|] eqn:E; [now apply search_date_sound | now apply search_date_none].
Qed.

(** ** Timestamp normalizer *)

Lemma is_digit_digit_char (n : Z) : Py.is_digit (digit_char (n mod 10)) = true.
Proof.
  pose proof (Z.mod_pos_bound n 10 ltac:(lia)) as Hb.
  unfold Py.is_digit, digit_char.
  rewrite nat_ascii_embedding by lia.
  apply andb_true_iff. split; apply Nat.leb_le; lia.
Qed.

Lemma is_canonical_isoformat (dt : datetime) : is_canonical (isoformat dt) = true.
Proof.
  unfold isoformat, pad4, pad2.
  repeat (rewrite append_cons || rewrite append_nil).
  unfold is_canonical. cbn [list_ascii_of_string forallb].
  rewrite !is_digit_digit_char. reflexivity.
Qed.

Lemma year_text_four (y : Z) : 1000 <= y -> year_text y = pad4 y.
Proof.
  intros Hy. unfold year_text.
  destruct (Z.ltb_spec y 10); [lia|]. destruct (Z.ltb_spec y 100); [lia|].
  destruct (Z.ltb_spec y 1000); [lia | reflexivity].
Qed.

(** From the year 1000 on, [strftime] prints what [str] prints. *)
Lemma strftime_isoformat (dt : datetime) : 1000 <= year dt -> strftime dt = isoformat dt.
Proof. intros Hy. unfold strftime, isoformat. now rewrite year_text_four. Qed.

Lemma is_canonical_strftime (dt : datetime) :
  1000 <= year dt -> is_canonical (strftime dt) = true.
Proof. intros Hy. rewrite strftime_isoformat by exact Hy. apply is_canonical_isoformat. Qed.

Lemma strftime_formatted (dt : datetime) : formatted_or_none (Some (strftime dt)).
Proof. exists dt. split; [reflexivity | apply is_canonical_strftime]. Qed.

Section ParseTimestampFacts.

Variable pd_to_datetime : string -> result (option datetime).
Variable py_float : string -> result Q.
Variable pd_to_datetime_unit_s : Q -> result (option datetime).
Variable strptime : string -> string -> result datetime.

Let parse := _parse_timestamp pd_to_datetime py_float pd_to_datetime_unit_s strptime.
Let spec := normalize_timestamp pd_to_datetime py_float pd_to_datetime_unit_s strptime.

(** An attempt guarded by [try ... except: pass]. *)
Lemma try_canonical (r : result (option datetime)) (rest : result (option string)) :
  try_ (let* dt := r in let* s := ts_strftime dt in Ok (Some s)) rest
  = match canonical_of r with
    | Some s => Ok (Some s)
    | None => rest
    end.
Proof. destruct r as [[dt|]|e]; reflexivity. Qed.

Lemma try_formats_first (s : string) (fmts : list string) (rest : result (option string)) :
  try_formats strptime s fmts rest
  = match first_some (map (fun fmt => match strptime s fmt with
                                      | Ok dt => Some (strftime dt)
                                      | Raise _ => None
                                      end) fmts) with
    | Some r => Ok (Some r)
    | None => rest
    end.
Proof.
  induction fmts as [|fmt fmts IH]; [reflexivity|].
  simpl. destruct (strptime s fmt); simpl; [reflexivity | exact IH].
Qed.

Lemma try_epoch (s : string) (rest : result (option string)) :
  try_ (let* x := py_float s in
        let* dt := pd_to_datetime_unit_s x in
        let* s := ts_strftime dt in Ok (Some s)) rest
  = match match py_float s with
          | Ok x => canonical_of (pd_to_datetime_unit_s x)
          | Raise _ => None
          end with
    | Some r => Ok (Some r)
    | None => rest
    end.
Proof.
  destruct (py_float s) as [x|e]; [|reflexivity].
  cbn [rbind]. apply try_canonical.
Qed.

Lemma parse_text_eq (s : string) :
  let value_str := Py.strip s in
  try_ (let* dt := pd_to_datetime value_str in
        let* s := ts_strftime dt in Ok (Some s))
    (let unix_rest :=
       try_formats strptime value_str formats
         (match search_date value_str with
          | Some g =>
              try_ (let* dt := pd_to_datetime g in
                    let* s := ts_strftime dt in Ok (Some s))
                   (Ok None)
          | None => Ok None
          end) in
     if Py.isdigit (Py.remove_char "-" (Py.remove_char "." value_str))
     then try_ (let* x := py_float value_str in
                let* dt := pd_to_datetime_unit_s x in
                let* s := ts_strftime dt in Ok (Some s))
               unix_rest
     else unix_rest)
  = Ok (first_some
          [attempt_generic pd_to_datetime value_str;
           attempt_epoch py_float pd_to_datetime_unit_s value_str;
           attempt_formats strptime value_str;
           attempt_regex pd_to_datetime value_str]).
Proof.
  intros value_str. cbv zeta.
  rewrite try_canonical, try_epoch, try_formats_first.
  unfold attempt_generic at 1. cbn [first_some].
  destruct (canonical_of (pd_to_datetime value_str)); [reflexivity|].
  assert (Hrest :
    match first_some (map (fun fmt => match strptime value_str fmt with
                                      | Ok dt => Some (strftime dt)
                                      | Raise _ => None
                                      end) formats) with
    | Some r => Ok (Some r)
    | None =>
        match search_date value_str with
        | Some g =>
            try_ (let* dt := pd_to_datetime g in
                  let* s := ts_strftime dt in Ok (Some s)) (Ok None)
        | None => Ok None
        end
    end
    = Ok (first_some [attempt_formats strptime value_str;
                      attempt_regex pd_to_datetime value_str])).
  { unfold attempt_formats, attempt_regex, attempt_generic. cbn [first_some].
    destruct (first_some _); [reflexivity|].
    destruct (search_date value_str) as [g|]; [|reflexivity].
    rewrite try_canonical. destruct (canonical_of (pd_to_datetime g)); reflexivity. }
  unfold attempt_epoch.
  destruct (Py.isdigit _); [|exact Hrest].
  destruct (match py_float value_str with
            | Ok x => canonical_of (pd_to_datetime_unit_s x)
            | Raise _ => None
            end); [reflexivity | exact Hrest].
Qed.

Lemma parse_timestamp_eq (value : tcell) : parse value = Ok (spec value).
Proof.
  destruct value as [|s|dt];
    [reflexivity | exact (parse_text_eq s) | exact (parse_text_eq (isoformat dt))].
Qed.

Lemma first_some_formatted (attempts : list (option string)) :
  Forall formatted_or_none attempts -> formatted_or_none (first_some attempts).
Proof.
  induction 1 as [|[a|] attempts Ha _ IH]; simpl; [exact I | exact Ha | exact IH].
Qed.

Lemma canonical_of_formatted (x : result (option datetime)) :
  formatted_or_none (canonical_of x).
Proof.
  destruct x as [[dt|]|e]; cbn [canonical_of]; [apply strftime_formatted | exact I | exact I].
Qed.

Lemma attempt_generic_formatted s : formatted_or_none (attempt_generic pd_to_datetime s).
Proof. apply canonical_of_formatted. Qed.

Lemma attempt_epoch_formatted s :
  formatted_or_none (attempt_epoch py_float pd_to_datetime_unit_s s).
Proof.
  unfold attempt_epoch. destruct (Py.isdigit _); [|exact I].
  destruct (py_float s); [apply canonical_of_formatted | exact I].
Qed.

Lemma attempt_formats_formatted s : formatted_or_none (attempt_formats strptime s).
Proof.
  unfold attempt_formats. generalize formats as fmts.
  induction fmts as [|fmt fmts IH]; [exact I|].
  cbn [map first_some]. destruct (strptime s fmt); [apply strftime_formatted | exact IH].
Qed.

Lemma attempt_regex_formatted s : formatted_or_none (attempt_regex pd_to_datetime s).
Proof.
  unfold attempt_regex. destruct (search_date s); [apply attempt_generic_formatted | exact I].
Qed.

Lemma attempts_formatted (s : string) :
  formatted_or_none
    (first_some [attempt_generic pd_to_datetime s;
                 attempt_epoch py_float pd_to_datetime_unit_s s;
                 attempt_formats strptime s;
                 attempt_regex pd_to_datetime s]).
Proof.
  apply first_some_formatted.
  constructor; [apply attempt_generic_formatted|].
  constructor; [apply attempt_epoch_formatted|].
  constructor; [apply attempt_formats_formatted|].
  constructor; [apply attempt_regex_formatted|].
  constructor.
Qed.

Lemma spec_formatted (value : tcell) : formatted_or_none (spec value).
Proof.
  destruct value as [|s|dt]; [exact I | |]; apply attempts_formatted.
Qed.

(** The fourth attempt is the generic parse of the first date of the
    text. *)
Lemma attempt_regex_first_date (s : string) :
  regex_attempt pd_to_datetime s (attempt_regex pd_to_datetime s).
Proof.
  unfold regex_attempt, attempt_regex. pose proof (search_date_spec s) as H.
  destruct (search_date s) as [g|]; [left; now exists g | right; now split].
Qed.

(** The normalizer consults the generic parse on the trimmed text and
    on its first date only. *)
Lemma spec_generic_ext (pd' : string -> result (option datetime)) (value : tcell) :
  let s := Py.strip (str_tcell value) in
  pd' s = pd_to_datetime s ->
  (forall g, first_date s g -> pd' g = pd_to_datetime g) ->
  normalize_timestamp pd' py_float pd_to_datetime_unit_s strptime value = spec value.
Proof.
  cbv zeta. intros Hs Hg. unfold spec, normalize_timestamp.
  destruct value as [|t|dt]; [reflexivity | |];
    cbv zeta; unfold attempt_generic, attempt_regex; rewrite Hs;
    (pose proof (search_date_spec (Py.strip (str_tcell (TStr t)))) as Hd
     || pose proof (search_date_spec (Py.strip (str_tcell (TStamp dt)))) as Hd);
    destruct (search_date _) as [g|]; try reflexivity;
    unfold attempt_generic; now rewrite (Hg g Hd).
Qed.

End ParseTimestampFacts.

(** C3 (as amended). Under every reading of the system clock and
    whatever the parsers do, the timestamp normalizer returns normally:
    the absent-marker on an absent value, otherwise the first success
    of (1) the generic parse of the trimmed text, (2) the reading of a
    numeric-only text as epoch seconds, (3) the explicit formats, in
    their order, (4) the generic parse of the first date of the text,
    the leftmost and longest occurrence of four digits, a separator,
    one or two digits, a separator, one or two digits.  A returned
    string is what [strftime] prints for the parsed date, of the shape
    YYYY-MM-DD HH:MM:SS when the year is 1000 or later; the
    absent-marker is returned only for an absent value or when all four
    attempts fail.  The clock matters through the generic parse only:
    a later call for which the generic parse answers the same on the
    trimmed text and on its first date returns the same. *)
Theorem parse_timestamp_spec
  (pd_to_datetime : datetime -> string -> result (option datetime))
  (py_float : string -> result Q)
  (pd_to_datetime_unit_s : Q -> result (option datetime))
  (strptime : string -> string -> result datetime)
  (now : datetime) (value : tcell) :
  let parse := fun clock =>
    _parse_timestamp (pd_to_datetime clock) py_float pd_to_datetime_unit_s strptime in
  let s := Py.strip (str_tcell value) in
  let a1 := attempt_generic (pd_to_datetime now) s in
  let a2 := attempt_epoch py_float pd_to_datetime_unit_s s in
  let a3 := attempt_formats strptime s in
  exists r a4 : option string,
    parse now value = Ok r /\
    regex_attempt (pd_to_datetime now) s a4 /\
    r = match value with
        | TNa => None
        | _ => first_some [a1; a2; a3; a4]
        end /\
    match r with
    | Some text =>
        exists dt, text = strftime dt /\ (1000 <= year dt -> is_canonical text = true)
    | None => value = TNa \/ (a1 = None /\ a2 = None /\ a3 = None /\ a4 = None)
    end /\
    forall later,
      pd_to_datetime later s = pd_to_datetime now s ->
      (forall g, first_date s g -> pd_to_datetime later g = pd_to_datetime now g) ->
      parse later value = Ok r.
Proof.
  intros parse s a1 a2 a3.
  exists (normalize_timestamp (pd_to_datetime now) py_float pd_to_datetime_unit_s strptime
                              value),
         (attempt_regex (pd_to_datetime now) s).
  split; [apply parse_timestamp_eq|].
  split; [apply attempt_regex_first_date|].
  split; [destruct value; reflexivity|].
  split.
  - pose proof (spec_formatted (pd_to_datetime now) py_float pd_to_datetime_unit_s strptime
                               value) as Hc.
    destruct (normalize_timestamp _ _ _ _ value) as [text|] eqn:E; [exact Hc|].
    destruct value as [|t|dt]; [left; reflexivity | right | right];
      unfold normalize_timestamp in E; cbv zeta in E; fold s a1 a2 a3 in E;
      destruct a1, a2, a3, (attempt_regex (pd_to_datetime now) s);
      try discriminate; repeat split.
  - intros later Hs Hg. unfold parse. rewrite parse_timestamp_eq. f_equal.
    now apply spec_generic_ext.
Qed.

Lemma parse_timestamp_spec_witness :
  Ref.parse_timestamp_at clock_b (TStr " 2024-01-01 06:00:00 ")
  = Ok (Some "2024-01-01 06:00:00").
Proof.
  destruct (parse_timestamp_spec Ref.pd_to_datetime_at Ref.py_float
              Ref.pd_to_datetime_unit_s Ref.strptime clock_a
              (TStr " 2024-01-01 06:00:00 "))
    as (r & a4 & Hr & _ & _ & _ & Hlater).
  assert (Er : r = Some "2024-01-01 06:00:00") by (vm_compute in Hr; congruence).
  rewrite <- Er. apply Hlater; [reflexivity|].
  intros g Hg.
  assert (Eg : g = "2024-01-01").
  { apply (first_date_unique _ _ _ Hg). apply search_date_sound. reflexivity. }
  rewrite Eg. reflexivity.
Defined.

(** C3 (as stated) fails.  The result is not a function of the value:
    the generic parse reads the word 'now' as the current time, so the
    same value gives two results one second apart.  And a returned
    string need not have the canonical shape: the year 1 is printed
    without padding. *)
Lemma parse_timestamp_clock_and_year :
  Ref.parse_timestamp_at clock_a (TStr "now") = Ok (Some "2024-01-01 06:00:00") /\
  Ref.parse_timestamp_at clock_b (TStr "now") = Ok (Some "2024-01-01 06:00:01") /\
  Ref.parse_timestamp (TStr "0001-01-01 00:00:00") = Ok (Some "1-01-01 00:00:00") /\
  is_canonical "1-01-01 00:00:00" = false.
Proof. repeat split; vm_compute; reflexivity. Qed.

(** ** Columns and masks *)

Lemma Qltb_lt (a b : Q) : Pd.Qltb a b = true <-> (a < b)%Q.
Proof.
  unfold Pd.Qltb. rewrite negb_true_iff, <- not_true_iff_false, Qle_bool_iff.
  split; [apply Qnot_le_lt | apply Qlt_not_le].
Qed.

Lemma Qltb_ge (a b : Q) : Pd.Qltb a b = false <-> (b <= a)%Q.
Proof.
  unfold Pd.Qltb. rewrite negb_false_iff. apply Qle_bool_iff.
Qed.

Lemma combine_map_map {A B C} (f : C -> A) (g : C -> B) (l : list C) :
  combine (map f l) (map g l) = map (fun x => (f x, g x)) l.
Proof. induction l as [|x l IH]; simpl; [reflexivity | now rewrite IH]. Qed.

Lemma assign_map {A} (set : A -> row -> row) (f : row -> A) (d : table) :
  assign set (map f d) d = map (fun r => set (f r) r) d.
Proof.
  unfold assign. induction d as [|r d IH]; simpl; [reflexivity | now rewrite IH].
Qed.

Lemma assign_map_col {A B} (set : B -> row -> row) (get : row -> A) (f : A -> B)
      (d : table) :
  assign set (map f (map get d)) d = map (fun r => set (f (get r)) r) d.
Proof. rewrite map_map. apply assign_map. Qed.

Lemma select_filter (p : row -> bool) (d : table) :
  select (map p d) d = List.filter p d.
Proof.
  induction d as [|r d IH]; simpl; [reflexivity|].
  destruct (p r); now rewrite IH.
Qed.

Lemma mask_nor_map (f g : row -> bool) (d : table) :
  DataCleaner.mask_nor (map f d) (map g d) = map (fun r => negb (f r) && negb (g r)) d.
Proof. unfold DataCleaner.mask_nor. now rewrite combine_map_map, map_map. Qed.

Lemma mask_or_map (f g : row -> bool) (d : table) :
  DataCleaner.mask_or (map f d) (map g d) = map (fun r => f r || g r) d.
Proof. unfold DataCleaner.mask_or. now rewrite combine_map_map, map_map. Qed.

Lemma count_true_zero (p : row -> bool) (d : table) :
  (0 <? count_true (map p d))%nat = false ->
  List.filter (fun r => negb (p r)) d = d.
Proof.
  unfold count_true. induction d as [|r d IH]; simpl; [reflexivity|].
  destruct (p r); simpl; [discriminate|].
  intros H. now rewrite IH.
Qed.

Lemma filter_ext_bool {A} (p q : A -> bool) (l : list A) :
  (forall x, p x = q x) -> List.filter p l = List.filter q l.
Proof.
  intros H. induction l as [|x l IH]; simpl; [reflexivity|].
  rewrite H, IH. reflexivity.
Qed.

(** ** Geospatial validator *)

Lemma out_of_rangeb_iff (lo hi : Q) (c : option Q) :
  out_of_rangeb lo hi c = true <-> out_of_range lo hi c.
Proof.
  unfold out_of_rangeb, out_of_range. destruct c as [v|].
  - rewrite orb_true_iff, !Qltb_lt. split.
    + intros H. exists v. split; [reflexivity | exact H].
    + intros [v' [Hv H]]. now inversion Hv; subst.
  - split; [discriminate | intros [v [Hv _]]; discriminate].
Qed.

Lemma handle_gps_coordinates_filter (d : table) :
  DataCleaner.handle_gps_coordinates_df d = List.filter (fun r => negb (gps_invalid r)) d.
Proof.
  unfold DataCleaner.handle_gps_coordinates_df, DataCleaner.invalid_lat,
    DataCleaner.invalid_lon.
  rewrite mask_or_map, mask_nor_map, select_filter.
  fold (out_of_rangeb (-90) 90) (out_of_rangeb (-180) 180).
  destruct (0 <? _)%nat eqn:E.
  - apply filter_ext_bool. intros r. unfold gps_invalid. now rewrite negb_orb.
  - symmetry. apply (count_true_zero _ _ E).
Qed.

(** C10. The geospatial validation keeps, in order, exactly the rows
    that are not invalid, a row being invalid when its latitude is
    present and outside [-90, 90] or its longitude is present and
    outside [-180, 180].  An absent coordinate never makes a row
    invalid: a row is kept as soon as each of its coordinates is absent
    or in range, so rows without coordinates survive this stage. *)
Theorem handle_gps_coordinates_spec :
  (forall d,
      DataCleaner.handle_gps_coordinates_df d
      = List.filter (fun r => negb (gps_invalid r)) d) /\
  (forall r,
      gps_invalid r = true <->
      out_of_range (-90) 90 (latitude r) \/ out_of_range (-180) 180 (longitude r)) /\
  (forall d r,
      In r d ->
      latitude r = None \/ in_range (-90) 90 (latitude r) ->
      longitude r = None \/ in_range (-180) 180 (longitude r) ->
      In r (DataCleaner.handle_gps_coordinates_df d)) /\
  map route_id (DataCleaner.handle_gps_coordinates_df gps_example)
  = [Some (RInt 3); Some (RInt 4); Some (RInt 5)].
Proof.
  split; [exact handle_gps_coordinates_filter|]. split; [|split].
  - intros r. unfold gps_invalid. now rewrite orb_true_iff, !out_of_rangeb_iff.
  - intros d r Hin Hlat Hlon. rewrite handle_gps_coordinates_filter.
    apply filter_In. split; [exact Hin|].
    apply negb_true_iff, orb_false_iff. split.
    + destruct Hlat as [-> | (v & -> & Hlo & Hhi)]; [reflexivity|].
      apply orb_false_iff; split; apply Qltb_ge; assumption.
    + destruct Hlon as [-> | (v & -> & Hlo & Hhi)]; [reflexivity|].
      apply orb_false_iff; split; apply Qltb_ge; assumption.
  - reflexivity.
Qed.

Lemma handle_gps_coordinates_spec_witness :
  In (raw_row (Some (RInt 4)) TNa TNa (Some "clear") (Some 40%Q) (Some 45%Q) None)
     (DataCleaner.handle_gps_coordinates_df gps_example).
Proof.
  destruct handle_gps_coordinates_spec as (_ & _ & Hkeep & _).
  apply Hkeep.
  - simpl. right. right. right. left. reflexivity.
  - right. exists 45%Q. split; [reflexivity|]. split; vm_compute; discriminate.
  - left. reflexivity.
Defined.

(** ** Sorting and quantiles *)

Lemma insert_sorted_Forall (P : Q -> Prop) (x : Q) (xs : list Q) :
  P x -> Forall P xs -> Forall P (Pd.insert_sorted x xs).
Proof.
  intros Hx Hxs. induction Hxs as [|y ys Hy Hys IH]; simpl.
  - constructor; [exact Hx | constructor].
  - destruct (Qle_bool x y).
    + constructor; [exact Hx|]. constructor; assumption.
    + constructor; [exact Hy | exact IH].
Qed.

Lemma insert_sorted_sorted (x : Q) (xs : list Q) :
  StronglySorted Qle xs -> StronglySorted Qle (Pd.insert_sorted x xs).
Proof.
  induction 1 as [|y ys Hs IH Hall]; simpl.
  - constructor; constructor.
  - destruct (Qle_bool x y) eqn:E.
    + apply Qle_bool_iff in E. constructor.
      * constructor; assumption.
      * constructor; [exact E|].
        eapply List.Forall_impl; [|exact Hall]. intros z Hz. simpl in Hz.
        eapply Qle_trans; eassumption.
    + constructor; [exact IH|].
      apply insert_sorted_Forall; [|exact Hall].
      apply Qlt_le_weak. apply Qltb_lt. unfold Pd.Qltb. now rewrite E.
Qed.

Lemma sort_sorted (xs : list Q) : StronglySorted Qle (Pd.sort xs).
Proof.
  induction xs as [|x xs IH]; simpl; [constructor | now apply insert_sorted_sorted].
Qed.

Lemma sorted_nth_le (xs : list Q) (i j : nat) :
  StronglySorted Qle xs -> (i <= j)%nat -> (j < List.length xs)%nat ->
  (nth i xs 0 <= nth j xs 0)%Q.
Proof.
  intros Hs. revert i j. induction Hs as [|x xs Hs IH Hall]; intros i j Hij Hj.
  - simpl in Hj. lia.
  - destruct j as [|j].
    + assert (i = 0)%nat as -> by lia. apply Qle_refl.
    + destruct i as [|i].
      * simpl. rewrite List.Forall_forall in Hall. apply Hall.
        apply nth_In. simpl in Hj. lia.
      * simpl. apply IH; simpl in Hj; lia.
Qed.

Lemma interpolate_between (a b g : Q) :
  (a <= b -> 0 <= g -> g <= 1 -> a <= a + (b - a) * g /\ a + (b - a) * g <= b)%Q.
Proof. intros. split; nra. Qed.

Lemma interpolate_mono (a b g g' : Q) :
  (a <= b -> g <= g' -> a + (b - a) * g <= a + (b - a) * g')%Q.
Proof. intros. nra. Qed.

(** The position and the weight [Pd.quantile] interpolates at. *)
Lemma quantile_position (q : Q) (n : Z) :
  (0 <= q)%Q -> (q <= 1)%Q -> 1 <= n ->
  let h := (q * inject_Z (n - 1))%Q in
  0 <= Qfloor h <= n - 1 /\ (0 <= h - inject_Z (Qfloor h))%Q
  /\ (h - inject_Z (Qfloor h) <= 1)%Q.
Proof.
  intros Hq0 Hq1 Hn h.
  assert (Hn1 : (0 <= inject_Z (n - 1))%Q).
  { change 0%Q with (inject_Z 0). rewrite <- Zle_Qle. lia. }
  assert (Hh0 : (0 <= h)%Q) by (unfold h; nra).
  assert (Hh1 : (h <= inject_Z (n - 1))%Q) by (unfold h; nra).
  pose proof (Qfloor_le h) as Hfl.
  pose proof (Qlt_floor h) as Hlt.
  split; [split|split].
  - change 0 with (Qfloor (inject_Z 0)). apply Qfloor_resp_le. exact Hh0.
  - rewrite <- (Qfloor_Z (n - 1)). apply Qfloor_resp_le. exact Hh1.
  - lra.
  - rewrite inject_Z_plus in Hlt. change (inject_Z 1) with 1%Q in Hlt. lra.
Qed.

Lemma interpolate_le (xs : list Q) (q q' : Q) :
  StronglySorted Qle xs -> (1 <= List.length xs)%nat ->
  (0 <= q)%Q -> (q <= q')%Q -> (q' <= 1)%Q ->
  (Pd.interpolate q xs <= Pd.interpolate q' xs)%Q.
Proof.
  intros Hs HN Hq0 Hqq Hq1. unfold Pd.interpolate.
  set (n := Z.of_nat (List.length xs)).
  assert (Hn : 1 <= n) by (unfold n; lia).
  destruct (quantile_position q n ltac:(assumption) ltac:(lra) Hn) as ((Hi0 & Hi1) & Hg0 & Hg1).
  destruct (quantile_position q' n ltac:(lra) ltac:(assumption) Hn)
    as ((Hi0' & Hi1') & Hg0' & Hg1').
  cbv zeta in *.
  assert (Hn1 : (0 <= inject_Z (n - 1))%Q).
  { change 0%Q with (inject_Z 0). rewrite <- Zle_Qle. lia. }
  assert (Hhh : (q * inject_Z (n - 1) <= q' * inject_Z (n - 1))%Q) by nra.
  pose proof (Qfloor_resp_le _ _ Hhh) as Hii.
  set (h := (q * inject_Z (n - 1))%Q) in *.
  set (h' := (q' * inject_Z (n - 1))%Q) in *.
  set (i := Qfloor h) in *. set (i' := Qfloor h') in *.
  assert (Hab : (nth (Z.to_nat i) xs 0 <= nth (Z.to_nat (Z.min (i + 1) (n - 1))) xs 0)%Q)
    by (apply sorted_nth_le; [exact Hs | lia | lia]).
  assert (Hab' : (nth (Z.to_nat i') xs 0 <= nth (Z.to_nat (Z.min (i' + 1) (n - 1))) xs 0)%Q)
    by (apply sorted_nth_le; [exact Hs | lia | lia]).
  destruct (Z.eq_dec i i') as [Heq | Hne].
  - rewrite <- Heq. apply interpolate_mono; [exact Hab|].
    assert (Hi : inject_Z i == inject_Z i') by (now rewrite Heq).
    lra.
  - assert (Hmid : (nth (Z.to_nat (Z.min (i + 1) (n - 1))) xs 0 <= nth (Z.to_nat i') xs 0)%Q)
      by (apply sorted_nth_le; [exact Hs | lia | lia]).
    destruct (interpolate_between _ _ _ Hab Hg0 Hg1) as [_ Hup].
    destruct (interpolate_between _ _ _ Hab' Hg0' Hg1') as [Hlow _].
    lra.
Qed.

Lemma quantile_le (col : list (option Q)) (q q' v v' : Q) :
  (0 <= q)%Q -> (q <= q')%Q -> (q' <= 1)%Q ->
  Pd.quantile q col = Some v -> Pd.quantile q' col = Some v' -> (v <= v')%Q.
Proof.
  intros Hq0 Hqq Hq1. unfold Pd.quantile.
  pose proof (sort_sorted (Pd.dropna col)) as Hs.
  pose proof (interpolate_le (Pd.sort (Pd.dropna col)) q q' Hs) as Hle.
  destruct (Pd.sort (Pd.dropna col)) as [|x xs']; [discriminate|].
  intros Hv Hv'. inversion Hv; inversion Hv'; subst.
  rewrite !Qred_correct. apply Hle; [simpl; lia | assumption..].
Qed.

Lemma quantile_none (col : list (option Q)) (q q' : Q) :
  Pd.quantile q col = None -> Pd.quantile q' col = None.
Proof.
  unfold Pd.quantile. destruct (Pd.sort (Pd.dropna col)); [reflexivity | discriminate].
Qed.

(** ** Outlier treater *)

Lemma clip_value_between (lo hi v : Q) :
  (lo <= hi -> lo <= Pd.clip_value lo hi v /\ Pd.clip_value lo hi v <= hi)%Q.
Proof.
  intros Hlh. unfold Pd.clip_value.
  destruct (Pd.Qltb v lo) eqn:E1; [split; lra|].
  destruct (Pd.Qltb hi v) eqn:E2; [split; lra|].
  apply Qltb_ge in E1, E2. split; assumption.
Qed.

Lemma treat_outliers_map (d : table) :
  DataCleaner.treat_outliers_df d
  = map (fun r =>
           set_passenger_count
             (option_map
                (fun v =>
                   Pd.clip_value 0 500
                     (Pd.clip_value
                        (if Pd.Qltb (DataCleaner.upper_bound d) (DataCleaner.lower_bound d)
                         then DataCleaner.upper_bound d else DataCleaner.lower_bound d)
                        (if Pd.Qltb (DataCleaner.upper_bound d) (DataCleaner.lower_bound d)
                         then DataCleaner.lower_bound d else DataCleaner.upper_bound d)
                        v))
                (passenger_count r)) r) d.
Proof.
  unfold DataCleaner.treat_outliers_df, DataCleaner.clip_passenger_count, Pd.clip.
  change (Pd.Qltb 500 0) with false. cbv iota.
  rewrite !assign_map_col, !map_map.
  apply map_ext. intros r. destruct r as [a b c e [v|] f g h]; reflexivity.
Qed.

Lemma bounds_facts (d : table) :
  let lower := DataCleaner.lower_bound d in
  let upper := DataCleaner.upper_bound d in
  (0 <= lower /\ upper <= 500 /\
   (upper < lower -> (lower == 0 /\ upper < 0) \/ (upper == 500 /\ 500 < lower)))%Q.
Proof.
  unfold DataCleaner.lower_bound, DataCleaner.upper_bound, DataCleaner.IQR.
  destruct (DataCleaner.Q1 d) as [q1|] eqn:E1.
  - destruct (DataCleaner.Q3 d) as [q3|] eqn:E3.
    + assert (Hle : (q1 <= q3)%Q)
        by (eapply (quantile_le _ (1 # 4) (3 # 4)); [lra | lra | lra | exact E1 | exact E3]).
      cbn [Pd.nan_lift2 option_map Pd.py_max Pd.py_min].
      destruct (Pd.Qltb 0 _) eqn:Ea; destruct (Pd.Qltb _ 500) eqn:Eb;
        try apply Qltb_lt in Ea; try apply Qltb_ge in Ea;
        try apply Qltb_lt in Eb; try apply Qltb_ge in Eb;
        repeat split; intros; first [lra | left; split; lra | right; split; lra].
    + apply (quantile_none _ _ (1 # 4)) in E3. unfold DataCleaner.Q1 in E1.
      rewrite E3 in E1. discriminate.
  - pose proof (quantile_none _ _ (3 # 4) E1) as E3. unfold DataCleaner.Q3. rewrite E3.
    cbn. repeat split; intros; first [lra | left; split; lra | right; split; lra].
Qed.

Lemma clip_value_cases (lo hi v : Q) :
  ((v < lo)%Q /\ Pd.clip_value lo hi v = lo) \/
  ((lo <= v)%Q /\ (hi < v)%Q /\ Pd.clip_value lo hi v = hi) \/
  ((lo <= v)%Q /\ (v <= hi)%Q /\ Pd.clip_value lo hi v = v).
Proof.
  unfold Pd.clip_value.
  destruct (Pd.Qltb v lo) eqn:E1; [apply Qltb_lt in E1; now left | apply Qltb_ge in E1].
  destruct (Pd.Qltb hi v) eqn:E2; [apply Qltb_lt in E2 | apply Qltb_ge in E2]; right;
    [left | right]; repeat split; assumption.
Qed.

Lemma capped_swap (lower upper v : Q) :
  (0 <= lower -> upper <= 500 ->
   (upper < lower -> (lower == 0 /\ upper < 0) \/ (upper == 500 /\ 500 < lower)) ->
   Pd.clip_value 0 500
     (Pd.clip_value (if Pd.Qltb upper lower then upper else lower)
                    (if Pd.Qltb upper lower then lower else upper) v)
   == capped lower upper v)%Q.
Proof.
  intros H0 H500 Hsw. unfold capped.
  destruct (Pd.Qltb upper lower) eqn:Es;
    [apply Qltb_lt in Es; specialize (Hsw Es) | reflexivity].
  destruct (clip_value_cases upper lower v) as [(? & Ha) | [(? & ? & Ha) | (? & ? & Ha)]];
    destruct (clip_value_cases lower upper v) as [(? & Hb) | [(? & ? & Hb) | (? & ? & Hb)]];
    rewrite Ha, Hb; clear Ha Hb;
    match goal with
    | |- (Pd.clip_value 0 500 ?x == Pd.clip_value 0 500 ?y)%Q =>
        destruct (clip_value_cases 0 500 x) as [(? & Hc) | [(? & ? & Hc) | (? & ? & Hc)]];
        destruct (clip_value_cases 0 500 y) as [(? & Hd) | [(? & ? & Hd) | (? & ? & Hd)]];
        rewrite ?Hc, ?Hd; clear Hc Hd
    end;
    destruct Hsw as [[? ?] | [? ?]]; lra.
Qed.

Lemma capped_bounds (lower upper v : Q) :
  (0 <= capped lower upper v /\ capped lower upper v <= 500)%Q.
Proof. apply clip_value_between. lra. Qed.

(** C5. The outlier treater keeps every row and changes only
    [passenger_count]: a missing count stays missing and a present
    count [v] becomes [v] clipped into [lower, upper] and then into
    [0, 500], where [lower = max(0, Q1 - 1.5 IQR)] and
    [upper = min(500, Q3 + 1.5 IQR)].  On the column
    [-50, 60, 70, 80, 600] the quartiles are 60 and 80, the bounds 30
    and 110, and the result [30, 60, 70, 80, 110]. *)
Theorem treat_outliers_spec :
  (forall d,
      let lower := DataCleaner.lower_bound d in
      let upper := DataCleaner.upper_bound d in
      Forall2 (fun r r' =>
                 same_but_passenger_count r r' /\
                 match passenger_count r, passenger_count r' with
                 | None, None => True
                 | Some v, Some v' =>
                     (v' == capped lower upper v /\ 0 <= v' /\ v' <= 500)%Q
                 | _, _ => False
                 end)
              d (DataCleaner.treat_outliers_df d)) /\
  (forall d, List.length (DataCleaner.treat_outliers_df d) = List.length d) /\
  (forall d q1 q3,
      DataCleaner.Q1 d = Some q1 -> DataCleaner.Q3 d = Some q3 ->
      (DataCleaner.lower_bound d == Qmax 0 (q1 - (3 # 2) * (q3 - q1)) /\
       DataCleaner.upper_bound d == Qmin 500 (q3 + (3 # 2) * (q3 - q1)))%Q) /\
  (DataCleaner.Q1 scenario_d = Some 60%Q /\
   DataCleaner.Q3 scenario_d = Some 80%Q /\
   Qred (DataCleaner.lower_bound scenario_d) = 30%Q /\
   Qred (DataCleaner.upper_bound scenario_d) = 110%Q /\
   map (fun r => option_map Qred (passenger_count r))
       (DataCleaner.treat_outliers_df scenario_d)
   = [Some 30%Q; Some 60%Q; Some 70%Q; Some 80%Q; Some 110%Q]).
Proof.
  split; [|split; [|split]].
  - intros d lower upper. rewrite treat_outliers_map. fold lower upper.
    destruct (bounds_facts d) as (H0 & H500 & Hsw). fold lower upper in H0, H500, Hsw.
    generalize lower upper H0 H500 Hsw. clear. intros lower upper H0 H500 Hsw.
    induction d as [|r d IH]; [constructor|].
    cbn [map]. constructor; [|exact IH].
    split; [destruct r; reflexivity|].
    destruct r as [a b c e [v|] f g h]; cbn; [|exact I].
    pose proof (capped_swap lower upper v H0 H500 Hsw) as Heq.
    pose proof (capped_bounds lower upper v) as [Hb0 Hb500].
    split; [exact Heq|]. rewrite Heq. split; assumption.
  - intros d. rewrite treat_outliers_map. apply length_map.
  - intros d q1 q3 E1 E3.
    unfold DataCleaner.lower_bound, DataCleaner.upper_bound, DataCleaner.IQR.
    rewrite E1, E3. cbn [Pd.nan_lift2 option_map Pd.py_max Pd.py_min].
    split.
    + destruct (Pd.Qltb 0 _) eqn:E;
        [apply Qltb_lt in E; rewrite Q.max_r; lra
        |apply Qltb_ge in E; rewrite Q.max_l; lra].
    + destruct (Pd.Qltb _ 500) eqn:E;
        [apply Qltb_lt in E; rewrite Q.min_r; lra
        |apply Qltb_ge in E; rewrite Q.min_l; lra].
  - repeat split; vm_compute; reflexivity.
Qed.

Lemma treat_outliers_spec_witness :
  (DataCleaner.lower_bound scenario_d == Qmax 0 (60 - (3 # 2) * (80 - 60)) /\
   DataCleaner.upper_bound scenario_d == Qmin 500 (80 + (3 # 2) * (80 - 60)))%Q.
Proof.
  destruct treat_outliers_spec as (_ & _ & Hbounds & _).
  apply (Hbounds scenario_d 60%Q 80%Q); vm_compute; reflexivity.
Defined.

(** ** Missing-value resolver *)

Lemma ffill_from_length {A} (last : option A) (col : list (option A)) :
  List.length (Pd.ffill_from last col) = List.length col.
Proof.
  revert last; induction col as [|[v|] col IH]; intros last; simpl;
    [reflexivity | now rewrite IH | now rewrite IH].
Qed.

Lemma assign_length {A} (set : A -> row -> row) (values : list A) (d : table) :
  List.length values = List.length d -> List.length (assign set values d) = List.length d.
Proof.
  intros H. unfold assign. rewrite length_map, length_combine. lia.
Qed.

Lemma assign_other_col {A B} (set : A -> row -> row) (get : row -> B)
      (values : list A) (d : table) :
  (forall v r, get (set v r) = get r) ->
  List.length values = List.length d ->
  map get (assign set values d) = map get d.
Proof.
  intros Hget. unfold assign. revert d.
  induction values as [|v values IH]; intros [|r d] Hlen; simpl in *;
    try reflexivity; try discriminate.
  rewrite Hget, IH by lia. reflexivity.
Qed.

Lemma select_negb_isnull (d : table) :
  DataCleaner.dropna_gps d = List.filter gps_present d.
Proof.
  unfold DataCleaner.dropna_gps, DataCleaner.gps_isnull.
  rewrite map_map. apply select_filter.
Qed.

Lemma imputation_steps (d : table) :
  let d1 := DataCleaner.ffill_route_id d in
  let d2 := DataCleaner.fill_weather (DataCleaner.mode_weather d1) d1 in
  let d3 := DataCleaner.fill_passenger_count (DataCleaner.median_passengers d2) d2 in
  DataCleaner.mode_weather d1
  = match Pd.mode (map weather d) with Some m => m | None => "clear" end /\
  DataCleaner.median_passengers d2 = Pd.median (map passenger_count d) /\
  d3 = imputed d.
Proof.
  intros d1 d2 d3.
  assert (Hlen : List.length (Pd.ffill (map route_id d)) = List.length d)
    by (unfold Pd.ffill; now rewrite ffill_from_length, length_map).
  assert (Hw : map weather d1 = map weather d)
    by (apply assign_other_col; [reflexivity | exact Hlen]).
  assert (Hp : map passenger_count d1 = map passenger_count d)
    by (apply assign_other_col; [reflexivity | exact Hlen]).
  assert (Hp2 : map passenger_count d2 = map passenger_count d).
  { rewrite <- Hp. apply assign_other_col; [reflexivity|].
    unfold Pd.fillna. now rewrite !length_map. }
  assert (Hmode : DataCleaner.mode_weather d1
                  = match Pd.mode (map weather d) with Some m => m | None => "clear" end)
    by (unfold DataCleaner.mode_weather; now rewrite Hw).
  assert (Hmed : DataCleaner.median_passengers d2 = Pd.median (map passenger_count d))
    by (unfold DataCleaner.median_passengers; now rewrite Hp2).
  split; [exact Hmode|]. split; [exact Hmed|].
  unfold d3. rewrite Hmed. unfold d2. rewrite Hmode.
  unfold imputed, DataCleaner.fill_weather, DataCleaner.fill_passenger_count,
    Pd.fillna, Pd.fillna_nan.
  rewrite !assign_map_col, map_map. apply map_ext. intros r.
  destruct r as [a b c [w|] [v|] f g h]; reflexivity.
Qed.

Lemma handle_missing_values_imputed (d : table) :
  DataCleaner.handle_missing_values_df d = List.filter gps_present (imputed d).
Proof.
  unfold DataCleaner.handle_missing_values_df. cbv zeta.
  destruct (imputation_steps d) as (_ & _ & ->).
  destruct (0 <? _)%nat eqn:E; [apply select_negb_isnull|].
  symmetry. apply (count_true_zero _ _ E).
Qed.

Lemma imputed_length (d : table) : List.length (imputed d) = List.length d.
Proof.
  unfold imputed. rewrite length_map. apply assign_length.
  unfold Pd.ffill. now rewrite ffill_from_length, length_map.
Qed.

(** ** Methods and the heap *)

Section HeapRules.
Context {S : Type} `{Self S}.
Variable P : gset nat.
Variable σ0 : gmap nat table.
Hypothesis HP : P ⊆ dom σ0.

Lemma post_ret {A} (a : A) (s : S) σ (Φ : A -> S -> gmap nat table -> Prop) :
  Φ a s σ -> post (mret a) s σ Φ.
Proof. exact (fun H => H). Qed.

Lemma post_bind {A B} (m : M S A) (k : A -> M S B) (s : S) σ
      (Φ : B -> S -> gmap nat table -> Prop) :
  post m s σ (fun a s' σ' => post (k a) s' σ' Φ) -> post (mbind m k) s σ Φ.
Proof.
  unfold post, mbind. destruct (m s σ) as [[[a s'] σ']|e]; [exact (fun H => H) | tauto].
Qed.

Lemma post_lift {A} (r : result A) (a : A) (s : S) σ
      (Φ : A -> S -> gmap nat table -> Prop) :
  r = Ok a -> Φ a s σ -> post (lift r) s σ Φ.
Proof. intros -> HΦ. exact HΦ. Qed.

Lemma inv_dom d (s : S) σ : inv P σ0 d s σ -> P ⊆ dom σ.
Proof.
  intros (_ & _ & Hfr) k Hk. apply elem_of_dom. rewrite (Hfr k Hk).
  apply elem_of_dom. apply HP. exact Hk.
Qed.

Lemma post_read_df d (s : S) σ (Φ : table -> S -> gmap nat table -> Prop) :
  inv P σ0 d s σ -> Φ d s σ -> post read_df s σ Φ.
Proof.
  intros (_ & Hd & _) HΦ. unfold post, read_df.
  now rewrite (lookup_total_correct _ _ _ Hd).
Qed.

Lemma post_setitem (f : table -> table) d (s : S) σ
      (Φ : unit -> S -> gmap nat table -> Prop) :
  inv P σ0 d s σ ->
  (forall σ', inv P σ0 (f d) s σ' -> Φ tt s σ') ->
  post (setitem f) s σ Φ.
Proof.
  intros (Hs & Hd & Hfr) HΦ. unfold post, setitem. apply HΦ.
  rewrite (lookup_total_correct _ _ _ Hd).
  split; [exact Hs|]. split; [apply lookup_insert_eq|].
  intros k Hk. rewrite lookup_insert_ne; [now apply Hfr | congruence].
Qed.

Lemma post_rebind_df (t : table) d (s : S) σ
      (Φ : unit -> S -> gmap nat table -> Prop) :
  inv P σ0 d s σ ->
  (forall l σ', inv P σ0 t (with_df l s) σ' -> Φ tt (with_df l s) σ') ->
  post (rebind_df t) s σ Φ.
Proof.
  intros Hinv HΦ. pose proof (inv_dom _ _ _ Hinv) as Hdom.
  destruct Hinv as (Hs & Hd & Hfr). unfold post, rebind_df. apply HΦ.
  pose proof (is_fresh (dom σ)) as Hfresh.
  split; [rewrite self_df_with_df; set_solver|].
  split; [rewrite self_df_with_df; apply lookup_insert_eq|].
  intros k Hk. rewrite lookup_insert_ne; [now apply Hfr | set_solver].
Qed.

Lemma post_set_df (l : nat) d (s : S) σ (Φ : unit -> S -> gmap nat table -> Prop) :
  inv P σ0 d s σ -> l = self_df s ->
  (inv P σ0 d (with_df l s) σ -> Φ tt (with_df l s) σ) ->
  post (set_df l) s σ Φ.
Proof.
  intros (Hs & Hd & Hfr) -> HΦ. unfold post, set_df. apply HΦ.
  split; [|split]; rewrite ?self_df_with_df; assumption.
Qed.

Lemma post_return_df (s : S) σ (Φ : nat -> S -> gmap nat table -> Prop) :
  Φ (self_df s) s σ -> post return_df s σ Φ.
Proof. exact (fun H => H). Qed.

Lemma post_method (m : M S nat) (f : table -> table) d (s : S) σ
      (Φ : nat -> S -> gmap nat table -> Prop) :
  method_spec P σ0 m f -> inv P σ0 d s σ ->
  (forall s' σ', inv P σ0 (f d) s' σ' -> Φ (self_df s') s' σ') ->
  post m s σ Φ.
Proof.
  intros Hm Hinv HΦ. specialize (Hm d s σ Hinv). unfold post in *.
  destruct (m s σ) as [[[l s'] σ']|e]; [|exact Hm].
  destruct Hm as [-> Hinv']. now apply HΦ.
Qed.

(** [self.df = self.method()] *)
Lemma post_call (m : M S nat) (f : table -> table) d (s : S) σ
      (Φ : unit -> S -> gmap nat table -> Prop) :
  method_spec P σ0 m f -> inv P σ0 d s σ ->
  (forall s' σ', inv P σ0 (f d) s' σ' -> Φ tt s' σ') ->
  post (let! l := m in set_df l) s σ Φ.
Proof.
  intros Hm Hinv HΦ. apply post_bind. eapply post_method; [exact Hm | exact Hinv|].
  intros s' σ' Hinv'. eapply post_set_df; [exact Hinv' | reflexivity|].
  apply HΦ.
Qed.

End HeapRules.

Section Outcomes.
Context {S : Type}.

Lemma ends_bind {A B} (m : M S A) (k : A -> M S B) (s : S) σ
      (Φ : B -> S -> gmap nat table -> Prop) (Ψ : exn -> S -> gmap nat table -> Prop) :
  ends m s σ (fun a s' σ' => ends (k a) s' σ' Φ Ψ) Ψ -> ends (mbind m k) s σ Φ Ψ.
Proof.
  unfold ends, mbind. destruct (m s σ) as [[[a s'] σ']|[[e s'] σ']]; exact (fun H => H).
Qed.

Lemma ends_post {A} (m : M S A) (s : S) σ
      (Φ : A -> S -> gmap nat table -> Prop) (Ψ : exn -> S -> gmap nat table -> Prop) :
  post m s σ Φ -> ends m s σ Φ Ψ.
Proof.
  unfold post, ends. destruct (m s σ) as [[[a s'] σ']|[[e s'] σ']];
    [exact (fun H => H) | contradiction].
Qed.

End Outcomes.

(** One step through a method body. *)
Ltac wp_step HP :=
  lazymatch goal with
  | |- post (mbind _ _) _ _ _ => apply post_bind
  | |- post read_df _ _ _ => eapply post_read_df; [eassumption|]
  | |- post (setitem _) _ _ _ => eapply post_setitem; [eassumption|]; intros ? ?
  | |- post (rebind_df _) _ _ _ =>
      eapply (post_rebind_df _ _ HP); [eassumption|]; intros ? ? ?
  | |- post return_df _ _ _ => apply post_return_df
  | |- post (mret _) _ _ _ => apply post_ret
  end.

(** ** The cleaner's stages and methods *)

(** [apply(extract_route_number)] returns the numbers of the routes
    when all of them are convertible and raises [ValueError] when one
    is not. *)
Lemma apply_extract_route_number_outcome (col : list (option rval)) :
  apply_ extract_route_number col
  = if forallb route_convertible col then Ok (map route_number col) else Raise ValueError.
Proof.
  induction col as [|v col IH]; [reflexivity|]. cbn [apply_ forallb map].
  destruct (route_convertible v) eqn:Hv; cbn [andb].
  - rewrite (extract_route_number_convertible v Hv). cbn [rbind]. rewrite IH.
    now destruct (forallb route_convertible col).
  - now rewrite (extract_route_number_raises v Hv).
Qed.

Lemma forallb_map {A B} (p : B -> bool) (f : A -> B) (l : list A) :
  forallb p (map f l) = forallb (fun x => p (f x)) l.
Proof. induction l as [|x l IH]; [reflexivity|]. cbn. now rewrite IH. Qed.

Lemma assign_route_numbers_unified (d : table) :
  DataCleaner.assign_route_numbers (map route_number (map route_id d)) d = unified d.
Proof.
  unfold DataCleaner.assign_route_numbers, unified.
  rewrite !map_map. apply assign_map.
Qed.

Lemma unify_route_identifiers_df_outcome (d : table) :
  DataCleaner.unify_route_identifiers_df d
  = if forallb (fun r => route_convertible (route_id r)) d
    then Ok (unified d) else Raise ValueError.
Proof.
  unfold DataCleaner.unify_route_identifiers_df.
  rewrite apply_extract_route_number_outcome, forallb_map.
  destruct (forallb _ d); [|reflexivity]. cbn [rbind].
  now rewrite assign_route_numbers_unified.
Qed.

Section CleanerFacts.

Variable pd_to_datetime : string -> result (option datetime).
Variable py_float : string -> result Q.
Variable pd_to_datetime_unit_s : Q -> result (option datetime).
Variable strptime : string -> string -> result datetime.

Let parse := DataCleaner.parse_timestamp pd_to_datetime py_float pd_to_datetime_unit_s strptime.
Let spec := normalize_timestamp pd_to_datetime py_float pd_to_datetime_unit_s strptime.
Let cell := normalized_cell pd_to_datetime py_float pd_to_datetime_unit_s strptime.
Let std_table := standardized pd_to_datetime py_float pd_to_datetime_unit_s strptime.
Let unify_table := before_unify pd_to_datetime py_float pd_to_datetime_unit_s strptime.
Let clean_table := cleaned pd_to_datetime py_float pd_to_datetime_unit_s strptime.

Lemma apply_parse_ok (col : list tcell) : apply_ parse col = Ok (map spec col).
Proof.
  induction col as [|c col IH]; [reflexivity|].
  cbn [apply_ map]. unfold parse at 1, DataCleaner.parse_timestamp.
  rewrite parse_timestamp_eq. cbn [rbind]. rewrite IH. reflexivity.
Qed.

Lemma standardize_timestamps_df_ok (d : table) :
  DataCleaner.standardize_timestamps_df pd_to_datetime py_float pd_to_datetime_unit_s
                                        strptime d
  = Ok (std_table d).
Proof.
  unfold DataCleaner.standardize_timestamps_df, DataCleaner.standardize_scheduled_time,
    DataCleaner.standardize_actual_time.
  fold parse. rewrite apply_parse_ok. cbn [rbind]. rewrite apply_parse_ok. cbn [rbind].
  set (d1 := assign set_scheduled_time _ d).
  rewrite (map_map spec), assign_map_col.
  unfold d1. rewrite (map_map spec), assign_map_col, map_map.
  reflexivity.
Qed.

(** The timestamp and weather stages leave the routes as the
    missing-value stage left them. *)
Lemma before_unify_routes (d : table) :
  map route_id (unify_table d) = map route_id (DataCleaner.handle_missing_values_df d).
Proof.
  unfold unify_table, before_unify, DataCleaner.normalize_weather_df,
    DataCleaner.apply_normalize_weather, standardized.
  rewrite assign_map_col, !map_map. apply map_ext. intros r. now destruct r.
Qed.

Lemma before_unify_convertible (d : table) :
  forallb (fun r => route_convertible (route_id r)) (unify_table d) = routes_convertible d.
Proof.
  unfold routes_convertible.
  rewrite <- !(forallb_map route_convertible route_id). now rewrite before_unify_routes.
Qed.

(** [clean_all] returns the cleaned table when the routes are
    convertible and raises [ValueError] when they are not. *)
Lemma clean_all_df_outcome (d : table) :
  DataCleaner.clean_all_df pd_to_datetime py_float pd_to_datetime_unit_s strptime d
  = if routes_convertible d then Ok (clean_table d) else Raise ValueError.
Proof.
  unfold DataCleaner.clean_all_df. cbv zeta.
  rewrite standardize_timestamps_df_ok. cbn [rbind].
  change (DataCleaner.normalize_weather_df
            (std_table (DataCleaner.handle_missing_values_df d))) with (unify_table d).
  rewrite unify_route_identifiers_df_outcome, before_unify_convertible.
  now destruct (routes_convertible d).
Qed.

Lemma clean_all_df_ok (d : table) :
  routes_convertible d = true ->
  DataCleaner.clean_all_df pd_to_datetime py_float pd_to_datetime_unit_s strptime d
  = Ok (clean_table d).
Proof. intros H. now rewrite clean_all_df_outcome, H. Qed.

Lemma clean_all_df_returns (d out : table) :
  DataCleaner.clean_all_df pd_to_datetime py_float pd_to_datetime_unit_s strptime d = Ok out ->
  routes_convertible d = true /\ out = clean_table d.
Proof.
  rewrite clean_all_df_outcome. destruct (routes_convertible d); [|discriminate].
  intros [= <-]. now split.
Qed.

(** The cleaner raises on a table with a route of 4301 digits. *)
Lemma clean_all_df_long_route :
  DataCleaner.clean_all_df pd_to_datetime py_float pd_to_datetime_unit_s strptime
                           long_route_example
  = Raise ValueError.
Proof.
  rewrite clean_all_df_outcome.
  assert (H : routes_convertible long_route_example = false) by (vm_compute; reflexivity).
  now rewrite H.
Qed.

Variable P : gset nat.
Variable σ0 : gmap nat table.
Hypothesis HP : P ⊆ dom σ0.

Lemma inv_logged (e : list log_entry) d (s : DataCleaner.t) σ :
  inv P σ0 d s σ -> inv P σ0 d (DataCleaner.mk (DataCleaner.df s) e) σ.
Proof. exact (fun H => H). Qed.

Lemma post_log (e : log_entry) d (s : DataCleaner.t) σ
      (Φ : unit -> DataCleaner.t -> gmap nat table -> Prop) :
  inv P σ0 d s σ ->
  (let s' := DataCleaner.mk (DataCleaner.df s) (DataCleaner.cleaning_log s ++ [e]) in
   inv P σ0 d s' σ -> Φ tt s' σ) ->
  post (DataCleaner.log e) s σ Φ.
Proof. intros Hinv HΦ. apply HΦ. exact Hinv. Qed.

Ltac wp_cleaner HP :=
  first
    [ wp_step HP
    | lazymatch goal with
      | |- post (DataCleaner.log _) _ _ _ => eapply post_log; [eassumption|]; intros ? ?
      | |- post (lift _) _ _ _ => eapply post_lift; [apply apply_parse_ok|]
      end ].

Ltac logged_done :=
  split; [reflexivity|]; split; [try assumption|];
  repeat match goal with x := _ |- _ => subst x end;
  cbn; rewrite <- ?app_assoc; try reflexivity.

Lemma handle_missing_values_run d (s : DataCleaner.t) σ :
  inv P σ0 d s σ ->
  post DataCleaner.handle_missing_values s σ
       (fun l s' σ' =>
          l = self_df s' /\ inv P σ0 (DataCleaner.handle_missing_values_df d) s' σ' /\
          DataCleaner.cleaning_log s'
          = (DataCleaner.cleaning_log s ++ missing_log d)%list).
Proof.
  intros Hinv. unfold DataCleaner.handle_missing_values.
  repeat wp_cleaner HP.
  unfold DataCleaner.handle_missing_values_df, missing_log. cbv zeta.
  destruct (imputation_steps d) as (Hmode & Hmed & Himp). cbv zeta in Hmode, Hmed, Himp.
  rewrite Hmode, Hmed, Himp in *.
  destruct (0 <? _)%nat; repeat wp_cleaner HP;
    (split; [reflexivity|]; split; [assumption|]);
    repeat match goal with x := _ |- _ => subst x end;
    cbn; rewrite Hmode, Hmed, <- !app_assoc; reflexivity.
Qed.

Lemma handle_missing_values_logged :
  logged_spec P σ0 DataCleaner.handle_missing_values DataCleaner.handle_missing_values_df
              missing_log.
Proof. intros d s σ Hinv. now apply handle_missing_values_run. Qed.

Lemma standardize_timestamps_logged :
  logged_spec P σ0
    (DataCleaner.standardize_timestamps pd_to_datetime py_float pd_to_datetime_unit_s
                                        strptime)
    std_table (fun _ => timestamps_log).
Proof.
  intros d s σ Hinv. unfold DataCleaner.standardize_timestamps. fold parse.
  repeat wp_cleaner HP. logged_done.
  match goal with
  | H : inv P σ0 ?t ?s ?σ |- inv P σ0 ?t' ?s' ?σ => replace t' with t; [exact H|]
  end.
  unfold standardized, normalized_cell.
  rewrite (map_map _ DataCleaner.of_parsed), assign_map_col.
  rewrite (map_map _ DataCleaner.of_parsed), assign_map_col, map_map. reflexivity.
Qed.

Lemma normalize_weather_logged :
  logged_spec P σ0 DataCleaner.normalize_weather DataCleaner.normalize_weather_df
              (fun _ => [LogWeatherNormalized]).
Proof.
  intros d s σ Hinv. unfold DataCleaner.normalize_weather.
  repeat wp_cleaner HP. logged_done.
Qed.

Lemma treat_outliers_logged :
  logged_spec P σ0 DataCleaner.treat_outliers DataCleaner.treat_outliers_df outliers_log.
Proof.
  intros d s σ Hinv. unfold DataCleaner.treat_outliers.
  repeat wp_cleaner HP. logged_done.
Qed.

Lemma invalid_count_rows (d : table) :
  count_true (DataCleaner.mask_or (DataCleaner.invalid_lat d) (DataCleaner.invalid_lon d))
  = count_true (map gps_invalid d).
Proof.
  unfold DataCleaner.invalid_lat, DataCleaner.invalid_lon. rewrite mask_or_map.
  reflexivity.
Qed.

Lemma handle_gps_coordinates_logged :
  logged_spec P σ0 DataCleaner.handle_gps_coordinates
              DataCleaner.handle_gps_coordinates_df gps_log.
Proof.
  intros d s σ Hinv. unfold DataCleaner.handle_gps_coordinates.
  repeat wp_cleaner HP.
  unfold DataCleaner.handle_gps_coordinates_df, gps_log. cbv zeta.
  rewrite <- invalid_count_rows.
  destruct (0 <? _)%nat; repeat wp_cleaner HP; logged_done.
  now rewrite app_nil_r.
Qed.

(** A stage that cannot raise, seen as a method. *)
Lemma logged_method (m : M DataCleaner.t nat) (f : table -> table)
      (entries : table -> list log_entry) :
  logged_spec P σ0 m f entries -> method_spec P σ0 m f.
Proof.
  intros Hm d s σ Hinv. specialize (Hm d s σ Hinv). unfold post in *.
  destruct (m s σ) as [[[l s'] σ']|e]; [|exact Hm].
  destruct Hm as (Hl & Hi & _). split; assumption.
Qed.

Lemma handle_missing_values_method :
  method_spec P σ0 DataCleaner.handle_missing_values DataCleaner.handle_missing_values_df.
Proof. exact (logged_method _ _ _ handle_missing_values_logged). Qed.

Lemma standardize_timestamps_method :
  method_spec P σ0
    (DataCleaner.standardize_timestamps pd_to_datetime py_float pd_to_datetime_unit_s
                                        strptime)
    std_table.
Proof. exact (logged_method _ _ _ standardize_timestamps_logged). Qed.

Lemma normalize_weather_method :
  method_spec P σ0 DataCleaner.normalize_weather DataCleaner.normalize_weather_df.
Proof. exact (logged_method _ _ _ normalize_weather_logged). Qed.

Lemma treat_outliers_method :
  method_spec P σ0 DataCleaner.treat_outliers DataCleaner.treat_outliers_df.
Proof. exact (logged_method _ _ _ treat_outliers_logged). Qed.

Lemma handle_gps_coordinates_method :
  method_spec P σ0 DataCleaner.handle_gps_coordinates
              DataCleaner.handle_gps_coordinates_df.
Proof. exact (logged_method _ _ _ handle_gps_coordinates_logged). Qed.

Lemma post_logged (m : M DataCleaner.t nat) (f : table -> table)
      (entries : table -> list log_entry) d (s : DataCleaner.t) σ
      (Φ : nat -> DataCleaner.t -> gmap nat table -> Prop) :
  logged_spec P σ0 m f entries -> inv P σ0 d s σ ->
  (forall s' σ',
      inv P σ0 (f d) s' σ' ->
      DataCleaner.cleaning_log s' = (DataCleaner.cleaning_log s ++ entries d)%list ->
      Φ (self_df s') s' σ') ->
  post m s σ Φ.
Proof.
  intros Hm Hinv HΦ. specialize (Hm d s σ Hinv). unfold post in *.
  destruct (m s σ) as [[[l s'] σ']|e]; [|exact Hm].
  destruct Hm as (-> & Hinv' & Hlog). now apply HΦ.
Qed.

Lemma cleaning_log_with_df (l : nat) (s : DataCleaner.t) :
  DataCleaner.cleaning_log (with_df l s) = DataCleaner.cleaning_log s.
Proof. reflexivity. Qed.

(** The identifier unifier: when every route of the table is
    convertible it replaces the routes by their numbers and writes its
    entry to the audit log; otherwise it raises [ValueError] before it
    changes anything. *)
Lemma unify_route_identifiers_ends d (s : DataCleaner.t) σ
      (Φ : nat -> DataCleaner.t -> gmap nat table -> Prop)
      (Ψ : exn -> DataCleaner.t -> gmap nat table -> Prop) :
  inv P σ0 d s σ ->
  (forallb (fun r => route_convertible (route_id r)) d = true ->
   forall s' σ',
     inv P σ0 (unified d) s' σ' ->
     DataCleaner.cleaning_log s' = (DataCleaner.cleaning_log s ++ [LogRouteUnified])%list ->
     Φ (self_df s') s' σ') ->
  (forallb (fun r => route_convertible (route_id r)) d = false -> Ψ ValueError s σ) ->
  ends DataCleaner.unify_route_identifiers s σ Φ Ψ.
Proof.
  intros Hinv HΦ HΨ. unfold DataCleaner.unify_route_identifiers.
  apply ends_bind, ends_post. eapply post_read_df; [exact Hinv|].
  rewrite apply_extract_route_number_outcome, forallb_map.
  destruct (forallb (fun r => route_convertible (route_id r)) d) eqn:E.
  - apply ends_post. apply post_bind. eapply post_lift; [reflexivity|].
    repeat wp_cleaner HP.
    match goal with
    | H : inv P σ0 _ ?s' ?σ' |- _ ?s' ?σ' =>
        rewrite assign_route_numbers_unified in H; apply (HΦ eq_refl s' σ' H)
    end.
    reflexivity.
  - exact (HΨ eq_refl).
Qed.

(** [clean_all]: when the routes are convertible the run returns
    [self.df], which holds the cleaned table, and the audit log has
    the entries of the six stages; otherwise the run raises
    [ValueError] in the identifier unifier, with the table and the
    audit log as the first three stages left them.  Either way the
    protected objects are as they were. *)
Lemma clean_all_ends d (s : DataCleaner.t) σ :
  inv P σ0 d s σ ->
  ends (DataCleaner.clean_all pd_to_datetime py_float pd_to_datetime_unit_s strptime) s σ
       (fun l s' σ' =>
          routes_convertible d = true /\ l = self_df s' /\
          inv P σ0 (clean_table d) s' σ' /\
          DataCleaner.cleaning_log s'
          = (DataCleaner.cleaning_log s
             ++ clean_log pd_to_datetime py_float pd_to_datetime_unit_s strptime d)%list)
       (fun e s' σ' =>
          routes_convertible d = false /\ e = ValueError /\
          inv P σ0 (unify_table d) s' σ' /\
          DataCleaner.cleaning_log s'
          = (DataCleaner.cleaning_log s ++ log_before_unify d)%list).
Proof.
  intros Hinv. unfold DataCleaner.clean_all.
  apply ends_bind, ends_post.
  eapply post_logged; [apply handle_missing_values_logged | exact Hinv|].
  intros s1 σ1 H1 L1. apply ends_bind, ends_post.
  eapply post_set_df; [exact H1 | reflexivity|]. intros H1'. apply ends_bind, ends_post.
  eapply post_logged; [apply standardize_timestamps_logged | exact H1'|].
  intros s2 σ2 H2 L2. apply ends_bind, ends_post.
  eapply post_set_df; [exact H2 | reflexivity|]. intros H2'. apply ends_bind, ends_post.
  eapply post_logged; [apply normalize_weather_logged | exact H2'|].
  intros s3 σ3 H3 L3. apply ends_bind, ends_post.
  eapply post_set_df; [exact H3 | reflexivity|]. intros H3'. apply ends_bind.
  assert (H3u : inv P σ0 (unify_table d) (with_df (self_df s3) s3) σ3) by exact H3'.
  assert (L123 : DataCleaner.cleaning_log (with_df (self_df s3) s3)
                 = (DataCleaner.cleaning_log s ++ log_before_unify d)%list).
  { rewrite ?cleaning_log_with_df in *. rewrite L3, L2, L1. unfold log_before_unify.
    rewrite <- !app_assoc. reflexivity. }
  eapply unify_route_identifiers_ends; [exact H3u | |].
  - rewrite before_unify_convertible. intros Hconv s4 σ4 H4 L4. apply ends_bind, ends_post.
    eapply post_set_df; [exact H4 | reflexivity|]. intros H4'. apply ends_bind, ends_post.
    eapply post_logged; [apply treat_outliers_logged | exact H4'|].
    intros s5 σ5 H5 L5. apply ends_bind, ends_post.
    eapply post_set_df; [exact H5 | reflexivity|]. intros H5'. apply ends_bind, ends_post.
    eapply post_logged; [apply handle_gps_coordinates_logged | exact H5'|].
    intros s6 σ6 H6 L6. apply ends_bind, ends_post.
    eapply post_set_df; [exact H6 | reflexivity|]. intros H6'.
    apply ends_post, post_return_df.
    split; [exact Hconv|]. split; [reflexivity|]. split; [exact H6'|].
    rewrite ?cleaning_log_with_df in *. rewrite L6, L5, L4, L123.
    unfold clean_log, log_before_unify. cbv zeta.
    rewrite <- !app_assoc. reflexivity.
  - rewrite before_unify_convertible. intros Hconv.
    split; [exact Hconv|]. split; [reflexivity|]. split; [exact H3u | exact L123].
Qed.

End CleanerFacts.

(** C8. The missing-value resolver imputes every row of the table
    (route by forward fill, weather by the mode of the whole column or
    [clear], passenger count by the median of the whole column) and
    only then removes the rows without latitude or longitude: its
    result is the imputed table filtered on the presence of both
    coordinates, so a row that is dropped still took part in the
    imputations.  Each policy runs once, in that order, as the audit
    log records. *)
Theorem handle_missing_values_order :
  (forall d,
      DataCleaner.handle_missing_values_df d = List.filter gps_present (imputed d)) /\
  (forall d, List.length (imputed d) = List.length d) /\
  (forall d (s : DataCleaner.t) (σ : gmap nat table),
      σ !! DataCleaner.df s = Some d ->
      exists s' σ',
        DataCleaner.handle_missing_values s σ = Ok (DataCleaner.df s', s', σ') /\
        σ' !! DataCleaner.df s' = Some (DataCleaner.handle_missing_values_df d) /\
        DataCleaner.cleaning_log s'
        = (DataCleaner.cleaning_log s ++ missing_log d)%list) /\
  DataCleaner.handle_missing_values_df missing_example
  = [ raw_row (Some (RInt 7)) TNa TNa (Some "rainy") (Some 10%Q)
              (Some 45%Q) (Some (-75)%Q) ].
Proof.
  split; [exact handle_missing_values_imputed|].
  split; [exact imputed_length|]. split; [|reflexivity].
  intros d s σ Hd.
  assert (Hinv : inv ∅ ∅ d s σ) by (split; [set_solver | split; [exact Hd | set_solver]]).
  pose proof (handle_missing_values_run ∅ ∅ ltac:(set_solver) d s σ Hinv) as Hrun.
  unfold post in Hrun.
  destruct (DataCleaner.handle_missing_values s σ) as [[[l s'] σ']|e]; [|contradiction].
  destruct Hrun as (-> & (_ & Hd' & _) & Hlog).
  exists s', σ'. repeat split; assumption.
Qed.

Lemma handle_missing_values_order_witness :
  exists s' σ',
    DataCleaner.handle_missing_values (DataCleaner.mk 0 []) {[ 0%nat := missing_example ]}
    = Ok (DataCleaner.df s', s', σ') /\
    σ' !! DataCleaner.df s'
    = Some (DataCleaner.handle_missing_values_df missing_example) /\
    DataCleaner.cleaning_log s' = ([] ++ missing_log missing_example)%list.
Proof.
  destruct handle_missing_values_order as (_ & _ & Hrun & _).
  apply (Hrun missing_example (DataCleaner.mk 0 []) {[ 0%nat := missing_example ]}).
  reflexivity.
Defined.

(** ** The invariants of the cleaner *)

Lemma Forall_map_intro {A B} (P : A -> Prop) (Q : B -> Prop) (f : A -> B) (l : list A) :
  Forall P l -> (forall x, P x -> Q (f x)) -> Forall Q (map f l).
Proof.
  intros Hl Hf. induction Hl as [|x l Hx Hl IH]; simpl; constructor; auto.
Qed.

Lemma Forall_filter_intro {A} (P : A -> Prop) (p : A -> bool) (l : list A) :
  Forall P l -> Forall (fun x => P x /\ p x = true) (List.filter p l).
Proof.
  intros Hl. induction Hl as [|x l Hx Hl IH]; simpl; [constructor|].
  destruct (p x) eqn:E; [constructor; [split; assumption | exact IH] | exact IH].
Qed.

Lemma Forall_true {A} (l : list A) : Forall (fun _ => True) l.
Proof. induction l; constructor; auto. Qed.

Lemma normalize_weather_value_canonical (value : option string) :
  canonical_weather (Some (normalize_weather_value value)).
Proof.
  unfold normalize_weather_value, canonical_weather.
  destruct value as [s|]; [|simpl; tauto].
  generalize (Py.strip (Py.lower s)). intros l.
  unfold weather_mapping. cbn [first_match].
  repeat (destruct (_ || _); [simpl; tauto|]). simpl; tauto.
Qed.

Lemma gps_present_in_range (r : row) :
  gps_present r = true -> gps_invalid r = false ->
  in_range (-90) 90 (latitude r) /\ in_range (-180) 180 (longitude r).
Proof.
  unfold gps_present, gps_invalid, out_of_rangeb, in_range.
  destruct (latitude r) as [la|], (longitude r) as [lo|]; try discriminate.
  intros _ H. apply orb_false_iff in H as [H1 H2].
  apply orb_false_iff in H1 as [Ha Hb]. apply orb_false_iff in H2 as [Hc Hd].
  apply Qltb_ge in Ha, Hb, Hc, Hd.
  split; eexists; (split; [reflexivity | split; assumption]).
Qed.

Section CleanedInvariant.

Variable pd_to_datetime : string -> result (option datetime).
Variable py_float : string -> result Q.
Variable pd_to_datetime_unit_s : Q -> result (option datetime).
Variable strptime : string -> string -> result datetime.

Let spec := normalize_timestamp pd_to_datetime py_float pd_to_datetime_unit_s strptime.
Let cell := normalized_cell pd_to_datetime py_float pd_to_datetime_unit_s strptime.
Let std_table := standardized pd_to_datetime py_float pd_to_datetime_unit_s strptime.
Let clean_table := cleaned pd_to_datetime py_float pd_to_datetime_unit_s strptime.

Lemma spec_strftime (value : tcell) (r : string) :
  spec value = Some r -> exists dt, r = strftime dt.
Proof.
  unfold spec, normalize_timestamp.
  assert (Hcan : forall x r, canonical_of x = Some r -> exists dt, r = strftime dt).
  { intros [[dt|]|e] r'; simpl; try discriminate.
    intros Hr; inversion Hr. now exists dt. }
  assert (Hfmt : forall s r, attempt_formats strptime s = Some r ->
                             exists dt, r = strftime dt).
  { intros s r'. unfold attempt_formats. generalize formats as fmts.
    induction fmts as [|fmt fmts IH]; [discriminate|].
    cbn [map first_some]. destruct (strptime s fmt) as [dt|e]; [|exact IH].
    intros Hr; inversion Hr. now exists dt. }
  assert (Hall : forall s r,
    first_some [attempt_generic pd_to_datetime s;
                attempt_epoch py_float pd_to_datetime_unit_s s;
                attempt_formats strptime s;
                attempt_regex pd_to_datetime s] = Some r ->
    exists dt, r = strftime dt).
  { intros s r'. cbn [first_some].
    destruct (attempt_generic pd_to_datetime s) eqn:E1;
      [intros Hr; inversion Hr; subst; now apply (Hcan _ _ E1)|].
    destruct (attempt_epoch py_float pd_to_datetime_unit_s s) eqn:E2.
    { intros Hr; inversion Hr; subst. unfold attempt_epoch in E2.
      destruct (Py.isdigit _); [|discriminate].
      destruct (py_float s); [now apply (Hcan _ _ E2) | discriminate]. }
    destruct (attempt_formats strptime s) eqn:E3;
      [intros Hr; inversion Hr; subst; now apply (Hfmt _ _ E3)|].
    destruct (attempt_regex pd_to_datetime s) eqn:E4; [|discriminate].
    intros Hr; inversion Hr; subst. unfold attempt_regex in E4.
    destruct (search_date s); [now apply (Hcan _ _ E4) | discriminate]. }
  destruct value as [|s|dt]; [discriminate | apply Hall | apply Hall].
Qed.

Lemma cell_formatted (value : tcell) : formatted_time (cell value).
Proof.
  unfold cell, normalized_cell. fold spec.
  destruct (spec value) as [r|] eqn:E; [|now left].
  right. destruct (spec_strftime _ _ E) as [dt ->]. now exists dt.
Qed.

(** Every row of a cleaned table satisfies the invariants of all
    columns but [passenger_count], and its passenger count is missing
    or within [0, 500]. *)
Lemma cleaned_invariant (d : table) :
  Forall (fun r => clean_but_passenger_count r /\
                   missing_or_in_range (passenger_count r)) (clean_table d).
Proof.
  unfold clean_table, cleaned, before_unify, unified.
  rewrite handle_gps_coordinates_filter, treat_outliers_map.
  rewrite handle_missing_values_imputed.
  unfold DataCleaner.normalize_weather_df, DataCleaner.apply_normalize_weather.
  rewrite !assign_map_col.
  set (I0 := fun r : row => gps_present r = true).
  set (I1 := fun r : row => I0 r /\ formatted_time (scheduled_time r)
                            /\ formatted_time (actual_time r)).
  set (I2 := fun r : row => I1 r /\ canonical_weather (weather r)).
  set (I3 := fun r : row => I2 r /\ unified_route (route_id r)).
  set (I4 := fun r : row => I3 r /\ missing_or_in_range (passenger_count r)).
  assert (H0 : Forall I0 (List.filter gps_present (imputed d))).
  { eapply List.Forall_impl; [|apply Forall_filter_intro, Forall_true].
    intros r [_ Hr]. exact Hr. }
  assert (H1 : Forall I1 (standardized pd_to_datetime py_float
                            pd_to_datetime_unit_s strptime
                            (List.filter gps_present (imputed d)))).
  { apply (Forall_map_intro I0 I1); [exact H0|]. intros r Hr.
    exact (conj Hr (conj (cell_formatted (scheduled_time r))
                         (cell_formatted (actual_time r)))). }
  match goal with
  | |- Forall _ (List.filter _ (map ?f4 (map ?f3 (map ?f2 ?x1)))) =>
      assert (H2 : Forall I2 (map f2 x1));
      [apply (Forall_map_intro I1 I2); [exact H1|]; intros r Hr;
       exact (conj Hr (normalize_weather_value_canonical (weather r)))|];
      assert (H3 : Forall I3 (map f3 (map f2 x1)));
      [apply (Forall_map_intro I2 I3); [exact H2|]; intros r Hr;
       refine (conj Hr (ex_intro _ (route_number (route_id r))
                                 (conj eq_refl _)));
       apply route_number_bounds|];
      assert (H4 : Forall I4 (map f4 (map f3 (map f2 x1))));
      [apply (Forall_map_intro I3 I4); [exact H3|]; intros r Hr;
       split; [destruct r; exact Hr|];
       destruct r as [rt st at_ w [v|] la lo f]; [|exact I];
       cbn; apply clip_value_between; lra|]
  end.
  eapply List.Forall_impl; [|apply Forall_filter_intro; exact H4].
  intros r [[[[[Hgps [Hs Ha]] Hw] Hr] Hpc] Hvalid].
  apply negb_true_iff in Hvalid.
  destruct (gps_present_in_range r Hgps Hvalid) as [Hla Hlo].
  split; [repeat split; assumption | exact Hpc].
Qed.

End CleanedInvariant.

Lemma sort_length (xs : list Q) : List.length (Pd.sort xs) = List.length xs.
Proof.
  assert (Hins : forall x l, List.length (Pd.insert_sorted x l) = Datatypes.S (List.length l)).
  { intros x l. induction l as [|y l IH]; simpl; [reflexivity|].
    destruct (Qle_bool x y); simpl; [reflexivity | now rewrite IH]. }
  induction xs as [|x xs IH]; simpl; [reflexivity | now rewrite Hins, IH].
Qed.

Lemma median_present (col : list (option Q)) (v : Q) :
  In (Some v) col -> exists m, Pd.median col = Some m.
Proof.
  intros Hin. unfold Pd.median.
  assert (Hlen : (0 < List.length (Pd.sort (Pd.dropna col)))%nat).
  { rewrite sort_length. induction col as [|[x|] col IH]; simpl in *;
      [contradiction | lia | destruct Hin as [Hin | Hin]; [discriminate | auto]]. }
  destruct (Pd.sort (Pd.dropna col)) as [|x xs]; [simpl in Hlen; lia|].
  destruct (Nat.even _); eexists; reflexivity.
Qed.

Section PassengerCounts.

Variable pd_to_datetime : string -> result (option datetime).
Variable py_float : string -> result Q.
Variable pd_to_datetime_unit_s : Q -> result (option datetime).
Variable strptime : string -> string -> result datetime.

Let clean_table := cleaned pd_to_datetime py_float pd_to_datetime_unit_s strptime.

(** When at least one passenger count of the input is present, no
    passenger count of the cleaned table is missing. *)
Lemma cleaned_passenger_count_present (d : table) (r0 : row) (v0 : Q) :
  In r0 d -> passenger_count r0 = Some v0 ->
  Forall (fun r => isnull (passenger_count r) = false) (clean_table d).
Proof.
  intros Hin Hv0. unfold clean_table, cleaned, before_unify, unified.
  rewrite handle_gps_coordinates_filter, treat_outliers_map.
  rewrite handle_missing_values_imputed.
  unfold DataCleaner.normalize_weather_df, DataCleaner.apply_normalize_weather,
    standardized.
  rewrite !assign_map_col.
  set (I0 := fun r : row => isnull (passenger_count r) = false).
  assert (H0 : Forall I0 (imputed d)).
  { unfold imputed.
    destruct (median_present (map passenger_count d) v0) as [m Hm].
    { rewrite <- Hv0. now apply in_map. }
    rewrite Hm. apply (Forall_map_intro (fun _ => True) I0); [apply Forall_true|].
    intros r _. unfold I0. cbn. now destruct (passenger_count r). }
  eapply List.Forall_impl; [|apply Forall_filter_intro].
  { intros r [Hr _]. exact Hr. }
  apply (Forall_map_intro I0 I0);
    [|intros r Hr; destruct r as [rt st at_ w [v|] la lo f]; [reflexivity | discriminate]].
  apply (Forall_map_intro I0 I0); [|intros r Hr; exact Hr].
  apply (Forall_map_intro I0 I0); [|intros r Hr; exact Hr].
  apply (Forall_map_intro I0 I0); [|intros r Hr; exact Hr].
  eapply List.Forall_impl; [|apply Forall_filter_intro; exact H0].
  intros r [Hr _]. exact Hr.
Qed.

End PassengerCounts.

(** C1. On a table whose passenger counts are all missing the cleaner
    returns normally and leaves every passenger count missing: the
    median of the column is NaN, so nothing is imputed, and clipping
    keeps NaN.  The surviving rows then do not have a passenger count
    within [0, 500]. *)
Theorem clean_all_missing_passenger_counts
  (pd_to_datetime : string -> result (option datetime))
  (py_float : string -> result Q)
  (pd_to_datetime_unit_s : Q -> result (option datetime))
  (strptime : string -> string -> result datetime) :
  exists t,
    DataCleaner.clean_all_df pd_to_datetime py_float pd_to_datetime_unit_s strptime
                             no_passenger_counts = Ok t /\
    map passenger_count t = [None; None] /\
    ~ Forall (fun r => in_range 0 500 (passenger_count r)) t.
Proof.
  eexists. split; [apply clean_all_df_ok; reflexivity|].
  assert (Hpc : map passenger_count
                    (cleaned pd_to_datetime py_float pd_to_datetime_unit_s strptime
                             no_passenger_counts) = [None; None]) by reflexivity.
  split; [exact Hpc|].
  intros Hall. apply (Forall_map_intro _ (in_range 0 500) passenger_count) in Hall;
    [|intros r Hr; exact Hr].
  rewrite Hpc in Hall. inversion Hall as [|? ? [v [Hv _]] _]. discriminate.
Qed.

(** ** Canonical text is read back *)

Lemma digit_char_facts (n : Z) :
  let c := digit_char (n mod 10) in
  Py.is_space c = false /\ Ascii.eqb c "." = false /\ Ascii.eqb c "-" = false /\
  Py.digit_val c = n mod 10.
Proof.
  pose proof (Z.mod_pos_bound n 10 ltac:(lia)) as Hb.
  assert (Hc : n mod 10 = 0 \/ n mod 10 = 1 \/ n mod 10 = 2 \/ n mod 10 = 3 \/
               n mod 10 = 4 \/ n mod 10 = 5 \/ n mod 10 = 6 \/ n mod 10 = 7 \/
               n mod 10 = 8 \/ n mod 10 = 9) by lia.
  cbv zeta.
  repeat (destruct Hc as [Hc | Hc]; [rewrite Hc; repeat split; reflexivity|]).
  rewrite Hc; repeat split; reflexivity.
Qed.

Lemma is_space_digit_char n : Py.is_space (digit_char (n mod 10)) = false.
Proof. apply digit_char_facts. Qed.
Lemma eqb_dot_digit_char n : Ascii.eqb (digit_char (n mod 10)) "." = false.
Proof. apply digit_char_facts. Qed.
Lemma eqb_dash_digit_char n : Ascii.eqb (digit_char (n mod 10)) "-" = false.
Proof. apply digit_char_facts. Qed.
Lemma digit_val_digit_char n : Py.digit_val (digit_char (n mod 10)) = n mod 10.
Proof. apply digit_char_facts. Qed.

Ltac expand_strftime :=
  unfold strftime, isoformat, year_text, pad4, pad2;
  repeat match goal with |- context [if ?b then _ else _] => destruct b end;
  repeat (rewrite append_cons || rewrite append_nil).

Lemma strip_strftime (dt : datetime) : Py.strip (strftime dt) = strftime dt.
Proof.
  expand_strftime; unfold Py.strip; cbn [Py.lstrip];
    rewrite is_space_digit_char; cbn [Py.rstrip];
    rewrite !is_space_digit_char; reflexivity.
Qed.

Lemma isdigit_remove_chars (c1 c2 : ascii) (s : string) :
  forallb Py.isdigit_char
          (list_ascii_of_string (Py.remove_char c1 (Py.remove_char c2 s))) = true ->
  Forall (fun x => Py.isdigit_char x = true \/ x = c1 \/ x = c2) (list_ascii_of_string s).
Proof.
  induction s as [|a s IH]; simpl; [constructor|].
  destruct (Ascii.eqb a c2) eqn:E2.
  - apply Ascii.eqb_eq in E2. intros H. constructor; [tauto | now apply IH].
  - simpl. destruct (Ascii.eqb a c1) eqn:E1.
    + apply Ascii.eqb_eq in E1. intros H. constructor; [tauto | now apply IH].
    + simpl. intros H. apply andb_true_iff in H as [Ha H].
      constructor; [tauto | now apply IH].
Qed.

(** A text with a space is not numeric. *)
Lemma not_numeric_space (s : string) :
  In " "%char (list_ascii_of_string s) ->
  Py.isdigit (Py.remove_char "-" (Py.remove_char "." s)) = false.
Proof.
  intros Hin. destruct (Py.isdigit _) eqn:E; [exfalso | reflexivity].
  assert (Hall : forallb Py.isdigit_char
                   (list_ascii_of_string (Py.remove_char "-" (Py.remove_char "." s))) = true).
  { unfold Py.isdigit in E. destruct (Py.remove_char _ _); [discriminate | exact E]. }
  apply isdigit_remove_chars in Hall. rewrite List.Forall_forall in Hall.
  destruct (Hall " "%char Hin) as [H | [H | H]]; discriminate.
Qed.

Lemma not_numeric_strftime (dt : datetime) :
  Py.isdigit (Py.remove_char "-" (Py.remove_char "." (strftime dt))) = false.
Proof.
  apply not_numeric_space. expand_strftime; cbn [list_ascii_of_string In]; tauto.
Qed.

Section ReadBack.

Variable pd_to_datetime : string -> result (option datetime).
Variable py_float : string -> result Q.
Variable pd_to_datetime_unit_s : Q -> result (option datetime).
Variable strptime : string -> string -> result datetime.
Hypothesis Hgeneric : generic_reads_back pd_to_datetime.
Hypothesis Hformat : format_reads_back strptime.

Let spec := normalize_timestamp pd_to_datetime py_float pd_to_datetime_unit_s strptime.
Let cell := normalized_cell pd_to_datetime py_float pd_to_datetime_unit_s strptime.

Lemma spec_strftime_fixed (dt : datetime) :
  1000 <= year dt -> spec (TStr (strftime dt)) = Some (strftime dt).
Proof.
  intros Hy. unfold spec, normalize_timestamp. cbn [str_tcell]. rewrite strip_strftime.
  cbv zeta. cbn [first_some]. unfold attempt_generic.
  destruct (pd_to_datetime (strftime dt)) as [[dt'|]|e] eqn:E; cbn [canonical_of].
  - now rewrite (Hgeneric dt dt' Hy E).
  - unfold attempt_epoch. rewrite not_numeric_strftime.
    unfold attempt_formats, formats. cbn [map first_some].
    destruct (Hformat dt Hy) as (dt' & -> & ->). reflexivity.
  - unfold attempt_epoch. rewrite not_numeric_strftime.
    unfold attempt_formats, formats. cbn [map first_some].
    destruct (Hformat dt Hy) as (dt' & -> & ->). reflexivity.
Qed.

Lemma cell_fixed (c : tcell) : four_digit_year c -> cell c = c.
Proof.
  intros [-> | (dt & -> & Hy)]; [reflexivity|].
  unfold cell, normalized_cell. fold spec. now rewrite spec_strftime_fixed.
Qed.

End ReadBack.

(** The reference functions read canonical text back. *)

Lemma num2_pad (a b : Z) :
  Ref.num2 (digit_char (a mod 10)) (digit_char (b mod 10)) = 10 * (a mod 10) + b mod 10.
Proof. unfold Ref.num2. now rewrite !digit_val_digit_char. Qed.

Lemma valid_fields_bounds (y m d H M S : Z) :
  valid_fields y m d H M S = true ->
  1 <= y <= 9999 /\ 1 <= m <= 12 /\ 1 <= d <= 31 /\
  0 <= H < 24 /\ 0 <= M < 60 /\ 0 <= S < 60.
Proof.
  unfold valid_fields. rewrite !andb_true_iff.
  rewrite !Z.leb_le, !Z.ltb_lt.
  assert (days_in_month y m <= 31).
  { unfold days_in_month. destruct (m =? 2); [destruct (is_leap y); lia|].
    destruct (_ || _); lia. }
  lia.
Qed.

Lemma pad2_value (n : Z) : 0 <= n < 100 -> 10 * (n / 10 mod 10) + n mod 10 = n.
Proof. intros Hn. Z.div_mod_to_equations. lia. Qed.

(** Canonical text denotes the date it was printed from. *)
Lemma parse_canonical_isoformat (dt : datetime) :
  Ref.parse_canonical (isoformat dt) = Ok dt.
Proof.
  unfold Ref.parse_canonical. rewrite is_canonical_isoformat.
  destruct dt as [y m d H M S Hvalid].
  pose proof (valid_fields_bounds _ _ _ _ _ _ Hvalid) as (Hy & Hm & Hd & HH & HM & HS).
  unfold isoformat, pad4, pad2. repeat (rewrite append_cons || rewrite append_nil).
  cbn [year month day hour minute second list_ascii_of_string].
  unfold Ref.num4. rewrite !num2_pad.
  replace (100 * (10 * (y / 1000 mod 10) + y / 100 mod 10)
           + (10 * (y / 10 mod 10) + y mod 10)) with y
    by (clear - Hy; Z.div_mod_to_equations; lia).
  rewrite !pad2_value by lia.
  unfold make_datetime.
  destruct (Bool.bool_dec (valid_fields y m d H M S) true) as [pf | Hne];
    [|contradiction].
  f_equal. f_equal. apply (Eqdep_dec.UIP_dec Bool.bool_dec).
Qed.

Lemma parse_canonical_strftime (dt : datetime) :
  1000 <= year dt -> Ref.parse_canonical (strftime dt) = Ok dt.
Proof. intros Hy. rewrite strftime_isoformat by exact Hy. apply parse_canonical_isoformat. Qed.

Lemma ref_generic_reads_back : generic_reads_back Ref.pd_to_datetime.
Proof.
  intros dt dt' Hy E. unfold Ref.pd_to_datetime in E.
  rewrite (parse_canonical_strftime dt Hy) in E. cbn [rbind] in E.
  destruct (Ref.in_bounds dt); [|discriminate]. now injection E as <-.
Qed.

Lemma ref_format_reads_back : format_reads_back Ref.strptime.
Proof.
  intros dt Hy. exists dt. unfold Ref.strptime. cbn [String.eqb].
  split; [|reflexivity].
  replace (String.eqb "%Y-%m-%d %H:%M:%S" "%Y-%m-%d %H:%M:%S") with true by reflexivity.
  now apply parse_canonical_strftime.
Qed.

(** ** Cleaning a clean table *)

Lemma ffill_from_present {A} (last : option A) (col : list (option A)) :
  Forall (fun c => isnull c = false) col -> Pd.ffill_from last col = col.
Proof.
  intros H. revert last. induction H as [|[v|] col Hc _ IH]; intros last; simpl;
    [reflexivity | now rewrite IH | discriminate].
Qed.

Lemma filter_all {A} (p : A -> bool) (l : list A) :
  Forall (fun x => p x = true) l -> List.filter p l = l.
Proof.
  induction 1 as [|x l Hx _ IH]; simpl; [reflexivity|]. now rewrite Hx, IH.
Qed.

Lemma map_fixed {A} (P : A -> Prop) (g : A -> A) (l : list A) :
  Forall P l -> (forall x, P x -> g x = x) -> map g l = l.
Proof.
  intros Hl Hg. induction Hl as [|x l Hx _ IH]; simpl; [reflexivity|].
  now rewrite (Hg x Hx), IH.
Qed.

Lemma map_blank_map (P : row -> Prop) (g : row -> row) (d : table) :
  Forall P d ->
  (forall r, P r -> without_passenger_count (g r) = without_passenger_count r) ->
  map without_passenger_count (map g d) = map without_passenger_count d.
Proof.
  intros Hd Hg. induction Hd as [|r d Hr _ IH]; simpl; [reflexivity|].
  now rewrite (Hg r Hr), IH.
Qed.

Lemma Forall_map_elim {A B} (Q : B -> Prop) (f : A -> B) (l : list A) :
  Forall Q (map f l) -> Forall (fun x => Q (f x)) l.
Proof.
  induction l as [|x l IH]; simpl; intros H; [constructor|].
  inversion H; subst. constructor; auto.
Qed.

Lemma clean_of_blank_eq (a b : table) :
  map without_passenger_count a = map without_passenger_count b ->
  Forall clean_but_passenger_count b -> Forall clean_but_passenger_count a.
Proof.
  intros Heq Hb.
  assert (Hb' : Forall clean_but_passenger_count (map without_passenger_count b))
    by (apply (Forall_map_intro clean_but_passenger_count); [exact Hb | intros r Hr; exact Hr]).
  rewrite <- Heq in Hb'. apply Forall_map_elim in Hb'.
  eapply List.Forall_impl; [|exact Hb']. intros r Hr. exact Hr.
Qed.

Lemma normalize_weather_value_fixed (w : option string) :
  canonical_weather w -> Some (normalize_weather_value w) = w.
Proof.
  unfold canonical_weather. simpl.
  intros [<- | [<- | [<- | [<- | []]]]]; reflexivity.
Qed.

Lemma route_number_fixed (c : option rval) :
  unified_route c -> route_convertible c = true /\ Some (RInt (route_number c)) = c.
Proof.
  intros (z & -> & Hz).
  assert (Hc : z = 1 \/ z = 2 \/ z = 3 \/ z = 4 \/ z = 5 \/ z = 6 \/ z = 7 \/ z = 8 \/
               z = 9 \/ z = 10) by lia.
  repeat (destruct Hc as [-> | Hc]; [split; reflexivity|]). subst. split; reflexivity.
Qed.

Lemma in_range_valid (r : row) :
  in_range (-90) 90 (latitude r) -> in_range (-180) 180 (longitude r) ->
  gps_present r = true /\ gps_invalid r = false.
Proof.
  intros (la & Hla & Hla1 & Hla2) (lo & Hlo & Hlo1 & Hlo2).
  unfold gps_present, gps_invalid, out_of_rangeb. rewrite Hla, Hlo.
  split; [reflexivity|].
  apply orb_false_iff; split; apply orb_false_iff; split; apply Qltb_ge; assumption.
Qed.

Lemma handle_missing_values_clean (d : table) :
  Forall clean_but_passenger_count d ->
  map without_passenger_count (DataCleaner.handle_missing_values_df d)
  = map without_passenger_count d.
Proof.
  intros Hd. rewrite handle_missing_values_imputed. unfold imputed.
  assert (Hroute : Pd.ffill (map route_id d) = map route_id d).
  { apply ffill_from_present.
    apply (Forall_map_intro clean_but_passenger_count); [exact Hd|].
    intros r (_ & (z & -> & _) & _). reflexivity. }
  rewrite Hroute, assign_map, map_map.
  rewrite filter_all.
  - apply (map_blank_map clean_but_passenger_count); [exact Hd|].
    intros r (Hw & _). destruct r as [rt st at_ w pc la lo f]. cbn in *.
    unfold without_passenger_count, set_passenger_count. cbn.
    assert (Hsome : exists c, w = Some c)
      by (simpl in Hw; destruct Hw as [<- | [<- | [<- | [<- | []]]]]; eexists; reflexivity).
    destruct Hsome as [c ->]. reflexivity.
  - apply (Forall_map_intro clean_but_passenger_count); [exact Hd|].
    intros r (_ & _ & Hla & Hlo & _).
    destruct (in_range_valid r Hla Hlo) as [Hp _].
    destruct r as [rt st at_ w pc la lo f]. exact Hp.
Qed.

Lemma treat_outliers_blank (d : table) :
  map without_passenger_count (DataCleaner.treat_outliers_df d)
  = map without_passenger_count d.
Proof.
  rewrite treat_outliers_map, map_map. apply map_ext.
  intros r. destruct r; reflexivity.
Qed.

Lemma normalize_weather_clean (d : table) :
  Forall clean_but_passenger_count d -> DataCleaner.normalize_weather_df d = d.
Proof.
  intros Hd. unfold DataCleaner.normalize_weather_df, DataCleaner.apply_normalize_weather.
  rewrite assign_map_col. apply (map_fixed clean_but_passenger_count); [exact Hd|].
  intros r (Hw & _). rewrite (normalize_weather_value_fixed _ Hw). now destruct r.
Qed.

Lemma unified_clean (d : table) :
  Forall (fun r => unified_route (route_id r)) d -> unified d = d.
Proof.
  intros Hd. apply (map_fixed (fun r => unified_route (route_id r))); [exact Hd|].
  intros r Hr. apply route_number_fixed in Hr as [_ Hr]. rewrite Hr. now destruct r.
Qed.

Lemma unified_convertible (d : table) :
  Forall (fun r => unified_route (route_id r)) d ->
  forallb (fun r => route_convertible (route_id r)) d = true.
Proof.
  intros Hd. apply forallb_forall. rewrite List.Forall_forall in Hd.
  intros r Hr. now apply route_number_fixed, Hd.
Qed.

Lemma unify_route_identifiers_clean (d : table) :
  Forall (fun r => unified_route (route_id r)) d ->
  DataCleaner.unify_route_identifiers_df d = Ok d.
Proof.
  intros Hd. rewrite unify_route_identifiers_df_outcome, (unified_convertible d Hd).
  now rewrite (unified_clean d Hd).
Qed.

Lemma clean_routes (d : table) :
  Forall clean_but_passenger_count d -> Forall (fun r => unified_route (route_id r)) d.
Proof. intros Hd. eapply List.Forall_impl; [|exact Hd]. now intros r (_ & Hr & _). Qed.

Lemma handle_gps_coordinates_clean (d : table) :
  Forall clean_but_passenger_count d -> DataCleaner.handle_gps_coordinates_df d = d.
Proof.
  intros Hd. rewrite handle_gps_coordinates_filter. apply filter_all.
  eapply List.Forall_impl; [|exact Hd].
  intros r (_ & _ & Hla & Hlo & _).
  destruct (in_range_valid r Hla Hlo) as [_ ->]. reflexivity.
Qed.

Section CleanTwice.

Variable pd_to_datetime : string -> result (option datetime).
Variable py_float : string -> result Q.
Variable pd_to_datetime_unit_s : Q -> result (option datetime).
Variable strptime : string -> string -> result datetime.
Hypothesis Hgeneric : generic_reads_back pd_to_datetime.
Hypothesis Hformat : format_reads_back strptime.

Let cell := normalized_cell pd_to_datetime py_float pd_to_datetime_unit_s strptime.
Let std_table := standardized pd_to_datetime py_float pd_to_datetime_unit_s strptime.
Let clean_table := cleaned pd_to_datetime py_float pd_to_datetime_unit_s strptime.

(** The row with its two times normalised. *)
Let restandardized (r : row) : row :=
  set_actual_time (cell (actual_time r)) (set_scheduled_time (cell (scheduled_time r)) r).

Lemma restandardized_clean (r : row) :
  clean_but_passenger_count r -> clean_but_passenger_count (restandardized r).
Proof.
  intros (Hw & Hr & Hla & Hlo & _). destruct r as [rt st at_ w pc la lo f].
  repeat split; try assumption; apply cell_formatted.
Qed.

(** A second cleaning normalises the times again and changes nothing
    else but passenger counts. *)
Lemma cleaned_clean (d : table) :
  Forall clean_but_passenger_count d ->
  routes_convertible d = true /\
  map without_passenger_count (clean_table d)
  = map (fun r => without_passenger_count (restandardized r)) d.
Proof.
  intros Hd.
  pose proof (handle_missing_values_clean d Hd) as H1.
  pose proof (clean_of_blank_eq _ _ H1 Hd) as Hd1.
  split; [exact (unified_convertible _ (clean_routes _ Hd1))|].
  unfold clean_table, cleaned, before_unify. fold std_table.
  assert (Hd2 : Forall clean_but_passenger_count
                       (std_table (DataCleaner.handle_missing_values_df d))).
  { apply (Forall_map_intro clean_but_passenger_count); [exact Hd1|].
    exact restandardized_clean. }
  rewrite (normalize_weather_clean _ Hd2), (unified_clean _ (clean_routes _ Hd2)).
  pose proof (treat_outliers_blank (std_table (DataCleaner.handle_missing_values_df d)))
    as H2.
  pose proof (clean_of_blank_eq _ _ H2 Hd2) as Hd3.
  rewrite (handle_gps_coordinates_clean _ Hd3), H2.
  unfold std_table, standardized. rewrite map_map.
  change (map (fun r => without_passenger_count (restandardized r))
              (DataCleaner.handle_missing_values_df d)
          = map (fun r => without_passenger_count (restandardized r)) d).
  assert (Hblank : forall l : table,
            map (fun r => without_passenger_count (restandardized r)) l
            = map (fun r => without_passenger_count (restandardized r))
                  (map without_passenger_count l)).
  { intros l. rewrite map_map. apply map_ext. intros r. now destruct r. }
  rewrite (Hblank (DataCleaner.handle_missing_values_df d)), (Hblank d). now rewrite H1.
Qed.

Lemma recleaned_rows (d t : table) :
  map without_passenger_count t
  = map (fun r => without_passenger_count (restandardized r)) d ->
  Forall (fun r => missing_or_in_range (passenger_count r)) t ->
  Forall2 recleaned d t.
Proof.
  revert t. induction d as [|r d IH]; intros [|r' t] Heq Hpc; try discriminate;
    [constructor|].
  cbn [map] in Heq.
  pose proof (f_equal (List.hd r) Heq) as Hr. apply (f_equal (@List.tl row)) in Heq.
  cbn [List.hd List.tl] in Hr, Heq. inversion Hpc as [|? ? Hr' Hpc']; subst.
  constructor; [|now apply IH].
  destruct r as [rt st at_ w pc la lo f], r' as [rt' st' at' w' pc' la' lo' f'].
  cbv [without_passenger_count restandardized set_passenger_count set_actual_time
       set_scheduled_time route_id scheduled_time actual_time weather passenger_count
       latitude longitude derived] in Hr.
  injection Hr as -> -> -> -> -> -> ->.
  repeat split; try exact Hr'; cbn; intros Hy; apply (cell_fixed _ _ _ _ Hgeneric Hformat _ Hy).
Qed.

End CleanTwice.

(** C4 (as amended). Whatever the parsers did in the first run: when,
    in the second run, the generic parse and the first explicit format
    read the canonical text of a date from the year 1000 on back as
    that date, cleaning the output of the cleaner again returns
    normally, drops no row and changes no route, weather, coordinate
    or derived column, and no time that is missing or has a year from
    1000 on; every passenger count stays missing or within
    [0, 500]. *)
Theorem clean_all_twice
  (pd_to_datetime_first : string -> result (option datetime))
  (py_float_first : string -> result Q)
  (pd_to_datetime_unit_s_first : Q -> result (option datetime))
  (strptime_first : string -> string -> result datetime)
  (pd_to_datetime : string -> result (option datetime))
  (py_float : string -> result Q)
  (pd_to_datetime_unit_s : Q -> result (option datetime))
  (strptime : string -> string -> result datetime)
  (Hgeneric : generic_reads_back pd_to_datetime)
  (Hformat : format_reads_back strptime)
  (d once : table) :
  DataCleaner.clean_all_df pd_to_datetime_first py_float_first pd_to_datetime_unit_s_first
                           strptime_first d
  = Ok once ->
  exists twice,
    DataCleaner.clean_all_df pd_to_datetime py_float pd_to_datetime_unit_s strptime once
    = Ok twice /\
    List.length twice = List.length once /\
    Forall2 recleaned once twice.
Proof.
  intros Honce.
  apply clean_all_df_returns in Honce as [_ ->].
  set (once := cleaned pd_to_datetime_first py_float_first pd_to_datetime_unit_s_first
                       strptime_first d).
  assert (Hclean : Forall clean_but_passenger_count once).
  { eapply List.Forall_impl; [|apply cleaned_invariant]. intros r [Hr _]. exact Hr. }
  destruct (cleaned_clean pd_to_datetime py_float pd_to_datetime_unit_s strptime _ Hclean)
    as [Hconv Heq].
  eexists. split; [now apply clean_all_df_ok|].
  assert (Hrows : Forall2 recleaned once
            (cleaned pd_to_datetime py_float pd_to_datetime_unit_s strptime once)).
  { apply (recleaned_rows pd_to_datetime py_float pd_to_datetime_unit_s strptime
                          Hgeneric Hformat _ _ Heq).
    eapply List.Forall_impl; [|apply cleaned_invariant]. intros r [_ Hr]. exact Hr. }
  split; [|exact Hrows]. clear -Hrows. induction Hrows; cbn; congruence.
Qed.

Lemma clean_all_twice_witness :
  exists twice,
    Ref.clean_all_df (ref_cleaned recapped_example) = Ok twice /\
    List.length twice = List.length (ref_cleaned recapped_example) /\
    Forall2 recleaned (ref_cleaned recapped_example) twice.
Proof.
  apply (clean_all_twice Ref.pd_to_datetime Ref.py_float Ref.pd_to_datetime_unit_s
                         Ref.strptime Ref.pd_to_datetime Ref.py_float
                         Ref.pd_to_datetime_unit_s Ref.strptime
                         ref_generic_reads_back ref_format_reads_back
                         recapped_example (ref_cleaned recapped_example)).
  apply clean_all_df_ok. reflexivity.
Defined.

(** C4 (as stated) fails: on the four passenger counts
    0, 100, 100, 100 the first cleaning caps 0 to 37.5 and the second
    cleaning, which recomputes the quartiles on the capped column,
    caps 37.5 to 60.9375. *)
Lemma clean_all_not_idempotent :
  exists once twice,
    Ref.clean_all_df recapped_example = Ok once /\ Ref.clean_all_df once = Ok twice /\
    map (fun r => option_map Qred (passenger_count r)) once
    = [Some (75 # 2); Some 100; Some 100; Some 100]%Q /\
    map (fun r => option_map Qred (passenger_count r)) twice
    = [Some (975 # 16); Some 100; Some 100; Some 100]%Q /\
    twice <> once.
Proof.
  eexists. eexists.
  split; [vm_compute; reflexivity|]. split; [vm_compute; reflexivity|].
  split; [vm_compute; reflexivity|]. split; [vm_compute; reflexivity|].
  intros Heq.
  apply (f_equal (map (fun r => option_map Qred (passenger_count r)))) in Heq.
  vm_compute in Heq. discriminate.
Qed.

(** ** Delay computation *)

Local Open Scope list_scope.

Lemma lookup_middle_map {A} (f : row -> A) (l1 l2 : table) (r : row) :
  map f (l1 ++ r :: l2) !! List.length l1 = Some (f r).
Proof. induction l1 as [|x l1 IH]; simpl; [reflexivity | exact IH]. Qed.

Lemma lookup_middle_row (l1 l2 : table) (r : row) :
  (l1 ++ r :: l2 : list row) !! List.length l1 = Some r.
Proof. induction l1 as [|x l1 IH]; simpl; [reflexivity | exact IH]. Qed.

Lemma insert_middle_row (l1 l2 : table) (r r' : row) :
  <[List.length l1 := r']> (l1 ++ r :: l2 : list row) = l1 ++ r' :: l2.
Proof. induction l1 as [|x l1 IH]; simpl; [reflexivity | now rewrite IH]. Qed.

Lemma both_present_delay_turn (r : row) : both_present (delay_turn r) = both_present r.
Proof.
  unfold delay_turn. destruct r as [rt [|s|sd] [|a|ad] w pc la lo f]; try reflexivity.
  destruct (delay_computable _); reflexivity.
Qed.

Lemma delay_step_middle (l1 l2 : table) (r : row) :
  FeatureEngineer.delay_step (map both_present (l1 ++ r :: l2)) (List.length l1)
                             (l1 ++ r :: l2)
  = l1 ++ delay_turn r :: l2.
Proof.
  unfold FeatureEngineer.delay_step.
  rewrite lookup_middle_map, lookup_middle_row.
  unfold delay_turn, delay_computable, both_present, minutes_between.
  destruct (scheduled_time r) as [|s|sd] eqn:Es, (actual_time r) as [|a|ad] eqn:Ea;
    cbn [FeatureEngineer.notna_time andb];
    try (destruct (bool_decide _); reflexivity).
  rewrite bool_decide_eq_true_2 by reflexivity.
  destruct (Qle_bool _ _ && Qle_bool _ _); [apply insert_middle_row | reflexivity].
Qed.

Lemma delay_loop_map (l2 l1 : table) :
  FeatureEngineer.delay_loop (map both_present (l1 ++ l2))
                             (seq (List.length l1) (List.length l2)) (l1 ++ l2)
  = l1 ++ map delay_turn l2.
Proof.
  revert l1. induction l2 as [|r l2 IH]; intros l1; [reflexivity|].
  unfold FeatureEngineer.delay_loop in *. cbn [List.length seq fold_left map].
  rewrite delay_step_middle.
  specialize (IH (l1 ++ [delay_turn r])).
  rewrite <- !app_assoc in IH. cbn [app] in IH.
  rewrite length_app in IH. cbn [List.length] in IH.
  replace (List.length l1 + 1)%nat with (Datatypes.S (List.length l1)) in IH by lia.
  rewrite <- IH. f_equal.
  rewrite !map_app. cbn [map]. now rewrite both_present_delay_turn.
Qed.

Section DelayFacts.

Variable to_datetime_coerce : list tcell -> string -> option datetime.

Let converted (d : table) : table :=
  FeatureEngineer.convert_actual_time to_datetime_coerce
    (FeatureEngineer.convert_scheduled_time to_datetime_coerce d).

(** After the conversion a time cell is a timestamp or NaT. *)
Lemma converted_times (d : table) :
  Forall (fun r => (forall s, scheduled_time r <> TStr s) /\
                   (forall s, actual_time r <> TStr s)) (converted d).
Proof.
  unfold converted, FeatureEngineer.convert_actual_time,
    FeatureEngineer.convert_scheduled_time, FeatureEngineer.to_datetime_col.
  rewrite !assign_map_col.
  apply (Forall_map_intro (fun r => forall s, scheduled_time r <> TStr s)).
  - apply (Forall_map_intro (fun _ => True)); [apply Forall_true|].
    intros r _ s. cbn. destruct (scheduled_time r) as [|t|dt]; try discriminate.
    destruct (to_datetime_coerce _ t); discriminate.
  - intros r Hs. split; [destruct r; exact Hs|].
    intros s. destruct r as [rt st at_ w pc la lo f]. cbn.
    destruct at_ as [|t|dt]; try discriminate.
    destruct (to_datetime_coerce _ t); discriminate.
Qed.

Lemma compute_delay_duration_rows (d : table) :
  FeatureEngineer.compute_delay_duration_df to_datetime_coerce d
  = map with_delay (List.filter delay_computable (converted d)).
Proof.
  unfold FeatureEngineer.compute_delay_duration_df. fold (converted d).
  pose proof (converted_times d) as Htimes.
  generalize dependent (converted d). intros c Htimes. cbv zeta.
  unfold FeatureEngineer.valid_mask. fold both_present.
  assert (Hmask : map both_present c = map both_present (FeatureEngineer.init_delay c)).
  { unfold FeatureEngineer.init_delay. rewrite map_map. apply map_ext.
    intros r. now destruct r. }
  rewrite Hmask.
  pose proof (delay_loop_map (FeatureEngineer.init_delay c) []) as Hloop.
  cbn [app List.length] in Hloop. rewrite Hloop. clear Hmask Hloop.
  unfold FeatureEngineer.clip_delay, FeatureEngineer.dropna_delay, Pd.clip_lower.
  rewrite assign_map_col, select_filter.
  unfold FeatureEngineer.init_delay. rewrite !map_map.
  induction Htimes as [|r c [Hs Ha] _ IH]; [reflexivity|].
  cbn [map List.filter]. rewrite IH. clear IH.
  destruct r as [rt st at_ w pc la lo f]. cbn in Hs, Ha.
  unfold delay_turn, delay_computable, with_delay, row_delay.
  destruct st as [|s|sd]; [reflexivity | now destruct (Hs s) |].
  destruct at_ as [|a|ad]; [reflexivity | now destruct (Ha a) |].
  cbn. destruct (Qle_bool _ _ && Qle_bool _ _); reflexivity.
Qed.

End DelayFacts.

Lemma minutes_negative (z : Z) : (inject_Z z / 60 < 0)%Q <-> (z < 0)%Z.
Proof. unfold Qlt, Qdiv, Qmult, Qinv, inject_Z. simpl. lia. Qed.

Lemma with_delay_delayed (r : row) : delay_computable r = true -> delayed_row (with_delay r).
Proof.
  unfold delay_computable, with_delay, delayed_row.
  destruct r as [rt [|s|sched] [|a|actual] w pc la lo f]; cbn; try discriminate.
  intros H. apply andb_true_iff in H as [Hlo Hhi]. apply Qle_bool_iff in Hlo, Hhi.
  exists sched, actual. eexists. repeat split; try reflexivity; try assumption.
  - destruct (Pd.Qltb _ 0) eqn:E; [apply Qle_refl | apply Qltb_ge in E; exact E].
  - intros Hlt. destruct (Pd.Qltb _ 0) eqn:E; [reflexivity|].
    apply Qltb_ge in E. unfold minutes_between in E.
    assert (Hneg : (inject_Z (timestamp actual - timestamp sched) / 60 < 0)%Q)
      by (apply minutes_negative; lia).
    exfalso. exact (Qlt_not_le _ _ Hneg E).
  - intros Hle. destruct (Pd.Qltb _ 0) eqn:E; [|reflexivity].
    apply Qltb_lt in E. unfold minutes_between in E.
    apply (proj1 (minutes_negative _)) in E. lia.
Qed.

(** C2. The delay computation keeps, in order, exactly the rows whose
    two times parse and whose delay is within 525600 minutes of zero,
    and gives each of them the minutes between the two times, negative
    values replaced by 0: the delay of a surviving row is never
    negative and is 0 when the actual time is the earlier one.  A
    15-minute lateness gives 15, a 10-minute earliness gives 0, and the
    rows with an unparseable time or a delay over a year are dropped. *)
Theorem compute_delay_duration_spec
  (to_datetime_coerce : list tcell -> string -> option datetime) (d : table) :
  let converted :=
    FeatureEngineer.convert_actual_time to_datetime_coerce
      (FeatureEngineer.convert_scheduled_time to_datetime_coerce d) in
  let out := FeatureEngineer.compute_delay_duration_df to_datetime_coerce d in
  out = map with_delay (List.filter delay_computable converted) /\
  Forall (fun r => (forall s, scheduled_time r <> TStr s) /\
                   (forall s, actual_time r <> TStr s)) converted /\
  Forall delayed_row out /\
  map (fun r => (route_id r, option_map Qred (row_delay r)))
      (Ref.compute_delay_duration_df scenario_c)
  = [ (Some (RInt 1), Some 15%Q); (Some (RInt 2), Some 0%Q) ].
Proof.
  intros converted out. unfold out, converted.
  split; [apply compute_delay_duration_rows|].
  split; [apply converted_times|].
  split; [|vm_compute; reflexivity].
  rewrite compute_delay_duration_rows.
  apply (Forall_map_intro (fun r => delay_computable r = true));
    [|exact with_delay_delayed].
  eapply List.Forall_impl; [|apply Forall_filter_intro, Forall_true].
  intros r [_ Hr]. exact Hr.
Qed.

Lemma compute_delay_duration_spec_witness :
  Forall delayed_row (Ref.compute_delay_duration_df scenario_c).
Proof.
  exact (proj1 (proj2 (proj2
           (compute_delay_duration_spec Ref.to_datetime_coerce scenario_c)))).
Defined.

Local Open Scope string_scope.

(** ** The feature engineer's methods *)

Section EngineerFacts.

Variable to_datetime_coerce : list tcell -> string -> option datetime.
Variable P : gset nat.
Variable σ0 : gmap nat table.
Hypothesis HP : P ⊆ dom σ0.

Lemma compute_delay_duration_method :
  method_spec P σ0 (FeatureEngineer.compute_delay_duration to_datetime_coerce)
              (FeatureEngineer.compute_delay_duration_df to_datetime_coerce).
Proof.
  intros d s σ Hinv. unfold FeatureEngineer.compute_delay_duration.
  repeat wp_step HP. split; [reflexivity | assumption].
Qed.

Lemma generate_time_features_method :
  method_spec P σ0 (FeatureEngineer.generate_time_features to_datetime_coerce)
              (FeatureEngineer.generate_time_features_df to_datetime_coerce).
Proof.
  intros d s σ Hinv. unfold FeatureEngineer.generate_time_features.
  repeat wp_step HP. split; [reflexivity | assumption].
Qed.

Lemma identify_weekend_method :
  method_spec P σ0 (FeatureEngineer.identify_weekend to_datetime_coerce)
              (FeatureEngineer.identify_weekend_df to_datetime_coerce).
Proof.
  intros d s σ Hinv. unfold FeatureEngineer.identify_weekend.
  repeat wp_step HP. split; [reflexivity | assumption].
Qed.

Lemma compute_weather_severity_method :
  method_spec P σ0 FeatureEngineer.compute_weather_severity
              FeatureEngineer.compute_weather_severity_df.
Proof.
  intros d s σ Hinv. unfold FeatureEngineer.compute_weather_severity.
  repeat wp_step HP. split; [reflexivity | assumption].
Qed.

Lemma calculate_route_frequency_method :
  method_spec P σ0 FeatureEngineer.calculate_route_frequency
              FeatureEngineer.calculate_route_frequency_df.
Proof.
  intros d s σ Hinv. unfold FeatureEngineer.calculate_route_frequency.
  repeat wp_step HP. split; [reflexivity | assumption].
Qed.

Lemma engineer_all_features_method :
  method_spec P σ0 (FeatureEngineer.engineer_all_features to_datetime_coerce)
              (FeatureEngineer.engineer_all_features_df to_datetime_coerce).
Proof.
  intros d s σ Hinv. unfold FeatureEngineer.engineer_all_features.
  apply post_bind.
  eapply post_method; [apply compute_delay_duration_method | exact Hinv|].
  intros s1 σ1 H1. apply post_bind.
  eapply post_set_df; [exact H1 | reflexivity|]. intros H1'. apply post_bind.
  eapply post_method; [apply generate_time_features_method | exact H1'|].
  intros s2 σ2 H2. apply post_bind.
  eapply post_set_df; [exact H2 | reflexivity|]. intros H2'. apply post_bind.
  eapply post_method; [apply identify_weekend_method | exact H2'|].
  intros s3 σ3 H3. apply post_bind.
  eapply post_set_df; [exact H3 | reflexivity|]. intros H3'. apply post_bind.
  eapply post_method; [apply compute_weather_severity_method | exact H3'|].
  intros s4 σ4 H4. apply post_bind.
  eapply post_set_df; [exact H4 | reflexivity|]. intros H4'. apply post_bind.
  eapply post_method; [apply calculate_route_frequency_method | exact H4'|].
  intros s5 σ5 H5. apply post_bind.
  eapply post_set_df; [exact H5 | reflexivity|]. intros H5'.
  apply post_return_df. split; [reflexivity | exact H5'].
Qed.

End EngineerFacts.

(** ** Construction: the copy is a fresh object *)

Lemma inv_fresh_copy {S} `{Self S} (P : gset nat) (σ0 σ : gmap nat table) (s : S) (t : table) :
  P ⊆ dom σ -> (forall k, k ∈ P -> σ !! k = σ0 !! k) ->
  self_df s = fresh (dom σ) ->
  inv P σ0 t s (<[fresh (dom σ) := t]> σ).
Proof.
  intros Hdom Hfr Hs. pose proof (is_fresh (dom σ)) as Hfresh.
  split; [rewrite Hs; set_solver|].
  split; [rewrite Hs; apply lookup_insert_eq|].
  intros k Hk. rewrite lookup_insert_ne; [now apply Hfr | set_solver].
Qed.

Lemma inv_subseteq {S} `{Self S} (σ σ' : gmap nat table) (t : table) (s : S) :
  inv (dom σ) σ t s σ' -> σ ⊆ σ'.
Proof.
  intros (_ & _ & Hfr). apply map_subseteq_spec. intros k x Hk.
  rewrite Hfr; [exact Hk|]. apply elem_of_dom. now exists x.
Qed.

Lemma inv_frame {S} `{Self S} (σ σ' : gmap nat table) (t : table) (s : S) :
  inv (dom σ) σ t s σ' -> σ' !! self_df s = Some t.
Proof. now intros (_ & Hd & _). Qed.

Section Frame.

Variable pd_to_datetime : string -> result (option datetime).
Variable py_float : string -> result Q.
Variable pd_to_datetime_unit_s : Q -> result (option datetime).
Variable strptime : string -> string -> result datetime.
Variable to_datetime_coerce : list tcell -> string -> option datetime.

Let clean_table := cleaned pd_to_datetime py_float pd_to_datetime_unit_s strptime.
Let feature_table := FeatureEngineer.engineer_all_features_df to_datetime_coerce.

(** [DataCleaner(df).clean_all()] *)
Lemma cleaner_frame (σ : gmap nat table) (df : nat) :
  match (let '(cleaner, σ1) := DataCleaner.init df σ in
         DataCleaner.clean_all pd_to_datetime py_float pd_to_datetime_unit_s strptime
                               cleaner σ1) with
  | Ok (l, s', σ') =>
      routes_convertible (σ !!! df) = true /\
      σ ⊆ σ' /\ σ' !! l = Some (clean_table (σ !!! df))
  | Raise (e, s', σ') =>
      routes_convertible (σ !!! df) = false /\ e = ValueError /\ σ ⊆ σ'
  end.
Proof.
  unfold DataCleaner.init.
  assert (Hinv : inv (dom σ) σ (σ !!! df) (DataCleaner.mk (fresh (dom σ)) [])
                     (<[fresh (dom σ) := σ !!! df]> σ))
    by (apply inv_fresh_copy; [set_solver | reflexivity | reflexivity]).
  pose proof (clean_all_ends pd_to_datetime py_float pd_to_datetime_unit_s strptime
                (dom σ) σ ltac:(set_solver) _ _ _ Hinv) as Hrun.
  unfold ends in Hrun.
  destruct (DataCleaner.clean_all _ _ _ _ _ _) as [[[l s'] σ']|[[e s'] σ']].
  - destruct Hrun as (Hconv & -> & Hinv' & _).
    split; [exact Hconv|]. split; [exact (inv_subseteq _ _ _ _ Hinv')|].
    exact (inv_frame _ _ _ _ Hinv').
  - destruct Hrun as (Hconv & -> & Hinv' & _).
    split; [exact Hconv|]. split; [reflexivity | exact (inv_subseteq _ _ _ _ Hinv')].
Qed.

(** [FeatureEngineer(df).engineer_all_features()] *)
Lemma engineer_frame (σ : gmap nat table) (df : nat) :
  exists l s' σ',
    (let '(engineer, σ1) := FeatureEngineer.init df σ in
     FeatureEngineer.engineer_all_features to_datetime_coerce engineer σ1)
    = Ok (l, s', σ') /\
    σ ⊆ σ' /\ σ' !! l = Some (feature_table (σ !!! df)).
Proof.
  unfold FeatureEngineer.init.
  assert (Hinv : inv (dom σ) σ (σ !!! df) (FeatureEngineer.mk (fresh (dom σ)))
                     (<[fresh (dom σ) := σ !!! df]> σ))
    by (apply inv_fresh_copy; [set_solver | reflexivity | reflexivity]).
  pose proof (engineer_all_features_method to_datetime_coerce
                (dom σ) σ ltac:(set_solver) _ _ _ Hinv) as Hrun.
  unfold post in Hrun.
  destruct (FeatureEngineer.engineer_all_features _ _ _) as [[[l s'] σ']|e];
    [|contradiction].
  destruct Hrun as [-> Hinv']. exists (self_df s'), s', σ'.
  split; [reflexivity|]. split; [exact (inv_subseteq _ _ _ _ Hinv')|].
  exact (inv_frame _ _ _ _ Hinv').
Qed.

Lemma pipeline_frame (σ : gmap nat table) (df_raw : nat) :
  match pipeline pd_to_datetime py_float pd_to_datetime_unit_s strptime to_datetime_coerce
                 df_raw σ with
  | Ok (df_cleaned, df_features, σ') =>
      routes_convertible (σ !!! df_raw) = true /\
      σ ⊆ σ' /\
      σ' !! df_cleaned = Some (clean_table (σ !!! df_raw)) /\
      σ' !! df_features = Some (feature_table (clean_table (σ !!! df_raw)))
  | Raise (e, σ') =>
      routes_convertible (σ !!! df_raw) = false /\ e = ValueError /\ σ ⊆ σ'
  end.
Proof.
  unfold pipeline. pose proof (cleaner_frame σ df_raw) as Hclean.
  destruct (DataCleaner.init df_raw σ) as [cleaner σ1].
  destruct (DataCleaner.clean_all _ _ _ _ cleaner σ1) as [[[l s1] σ2]|[[e s1] σ2]];
    [|exact Hclean].
  destruct Hclean as (Hconv & Hsub1 & Hl).
  destruct (engineer_frame σ2 l) as (l' & s2 & σ4 & Hrun2 & Hsub2 & Hl').
  destruct (FeatureEngineer.init l σ2) as [engineer σ3]. rewrite Hrun2.
  split; [exact Hconv|]. split; [etransitivity; eassumption|].
  rewrite (lookup_total_correct _ _ _ Hl) in Hl'.
  split; [|exact Hl'].
  apply (lookup_weaken _ _ _ _ Hl Hsub2).
Qed.

End Frame.

(** C9. Constructing a [DataCleaner] or a [FeatureEngineer] on a
    DataFrame and running all of its stages, or running the cleaning
    and feature steps of the pipeline, leaves every DataFrame object
    that existed before the construction as it was, the caller's among
    them, whether the run returns or raises: the stages write only to
    the copy made at construction and to objects created later.  The
    feature engineer always returns; the cleaner returns exactly when
    the routes are convertible and raises [ValueError] otherwise.  The
    object returned holds the cleaned (respectively feature) table of
    the caller's table. *)
Theorem pipeline_leaves_caller_dataframe
  (pd_to_datetime : string -> result (option datetime))
  (py_float : string -> result Q)
  (pd_to_datetime_unit_s : Q -> result (option datetime))
  (strptime : string -> string -> result datetime)
  (to_datetime_coerce : list tcell -> string -> option datetime)
  (σ : gmap nat table) (df : nat) :
  let clean_table := cleaned pd_to_datetime py_float pd_to_datetime_unit_s strptime in
  let feature_table := FeatureEngineer.engineer_all_features_df to_datetime_coerce in
  match (let '(cleaner, σ1) := DataCleaner.init df σ in
         DataCleaner.clean_all pd_to_datetime py_float pd_to_datetime_unit_s strptime
                               cleaner σ1) with
  | Ok (l, s', σ') =>
      routes_convertible (σ !!! df) = true /\
      σ ⊆ σ' /\ σ' !! l = Some (clean_table (σ !!! df))
  | Raise (e, s', σ') =>
      routes_convertible (σ !!! df) = false /\ e = ValueError /\ σ ⊆ σ'
  end /\
  (exists l s' σ',
      (let '(engineer, σ1) := FeatureEngineer.init df σ in
       FeatureEngineer.engineer_all_features to_datetime_coerce engineer σ1)
      = Ok (l, s', σ') /\
      σ ⊆ σ' /\ σ' !! l = Some (feature_table (σ !!! df))) /\
  match pipeline pd_to_datetime py_float pd_to_datetime_unit_s strptime to_datetime_coerce
                 df σ with
  | Ok (df_cleaned, df_features, σ') =>
      routes_convertible (σ !!! df) = true /\
      σ ⊆ σ' /\
      σ' !! df_cleaned = Some (clean_table (σ !!! df)) /\
      σ' !! df_features = Some (feature_table (clean_table (σ !!! df)))
  | Raise (e, σ') =>
      routes_convertible (σ !!! df) = false /\ e = ValueError /\ σ ⊆ σ'
  end.
Proof.
  intros clean_table feature_table.
  split; [apply cleaner_frame|]. split; [apply engineer_frame | apply pipeline_frame].
Qed.

Lemma pipeline_leaves_caller_dataframe_witness :
  match pipeline Ref.pd_to_datetime Ref.py_float Ref.pd_to_datetime_unit_s Ref.strptime
                 Ref.to_datetime_coerce 0%nat caller_heap with
  | Ok (df_cleaned, df_features, σ') =>
      routes_convertible (caller_heap !!! 0%nat) = true /\
      caller_heap ⊆ σ' /\
      σ' !! df_cleaned = Some (ref_cleaned (caller_heap !!! 0%nat)) /\
      σ' !! df_features
      = Some (FeatureEngineer.engineer_all_features_df Ref.to_datetime_coerce
                (ref_cleaned (caller_heap !!! 0%nat)))
  | Raise (e, σ') =>
      routes_convertible (caller_heap !!! 0%nat) = false /\ e = ValueError /\
      caller_heap ⊆ σ'
  end.
Proof.
  pose proof (pipeline_leaves_caller_dataframe
                Ref.pd_to_datetime Ref.py_float Ref.pd_to_datetime_unit_s
                Ref.strptime Ref.to_datetime_coerce caller_heap 0%nat) as H.
  cbv zeta in H. destruct H as (_ & _ & H). unfold ref_cleaned. exact H.
Defined.

(** ** The feature stages *)

Lemma set_scheduled_time_same (r : row) : set_scheduled_time (scheduled_time r) r = r.
Proof. destruct r; reflexivity. Qed.

Lemma to_datetime_col_coerced (coerce : list tcell -> string -> option datetime)
      (col : list tcell) :
  FeatureEngineer.to_datetime_col coerce col = map (coerced_cell coerce col) col.
Proof.
  unfold FeatureEngineer.to_datetime_col. apply map_ext. intros [|s|dt]; reflexivity.
Qed.

Lemma no_text_coerced (coerce : list tcell -> string -> option datetime)
      (col : list tcell) (d : table) :
  FeatureEngineer.is_datetime_col (map scheduled_time d) = true ->
  map (fun r => set_scheduled_time (coerced_cell coerce col (scheduled_time r)) r) d = d.
Proof.
  unfold FeatureEngineer.is_datetime_col.
  induction d as [|r d IH]; cbn [map forallb]; [reflexivity|].
  intros H. apply andb_true_iff in H as [Hr Hd]. rewrite (IH Hd). f_equal.
  destruct (scheduled_time r) eqn:E; try discriminate; cbn [coerced_cell];
    rewrite <- E; apply set_scheduled_time_same.
Qed.

(** [ensure_datetime] replaces the text of the scheduled time by what
    it parses to, whether or not the column already holds timestamps. *)
Lemma ensure_datetime_map (coerce : list tcell -> string -> option datetime) (d : table) :
  FeatureEngineer.ensure_datetime coerce d
  = map (fun r => set_scheduled_time
                    (coerced_cell coerce (map scheduled_time d) (scheduled_time r)) r) d.
Proof.
  unfold FeatureEngineer.ensure_datetime.
  destruct (FeatureEngineer.is_datetime_col (map scheduled_time d)) eqn:E; cbn [negb].
  - symmetry. now apply no_text_coerced.
  - unfold FeatureEngineer.convert_scheduled_time.
    rewrite to_datetime_col_coerced. apply assign_map_col.
Qed.

Lemma coerced_cell_not_text (coerce : list tcell -> string -> option datetime)
      (col : list tcell) (c : tcell) (s : string) :
  coerced_cell coerce col c <> TStr s.
Proof.
  destruct c as [|s'|dt]; cbn; try discriminate.
  destruct (coerce col s'); discriminate.
Qed.

Lemma hour_bounds (dt : datetime) : 0 <= hour dt < 24.
Proof.
  pose proof (dt_valid dt) as H. apply valid_fields_bounds in H. lia.
Qed.

Lemma categorize_time_bucket (h : Z) :
  0 <= h < 24 -> time_bucket h (FeatureEngineer.categorize_time (Some h)).
Proof.
  intros Hh. unfold time_bucket, FeatureEngineer.categorize_time.
  destruct ((6 <=? h) && (h <? 12))%Z eqn:E1; [lia|].
  destruct ((12 <=? h) && (h <? 18))%Z eqn:E2; [lia|].
  destruct ((18 <=? h) && (h <? 24))%Z eqn:E3; lia.
Qed.

Lemma time_features_row (c : tcell) (r : row) :
  (forall s, c <> TStr s) ->
  let r1 := set_scheduled_time c r in
  let r2 := set_hour (match scheduled_time r1 with
                      | TStamp dt => Some (hour dt)
                      | _ => None
                      end) r1 in
  time_features
    (set_time_of_day (Some (FeatureEngineer.categorize_time (hour_of_day (derived r2)))) r2).
Proof.
  intros Hc. unfold time_features. destruct c as [|s|dt]; cbn.
  - split; reflexivity.
  - exact (Hc s eq_refl).
  - split; [reflexivity|]. eexists. split; [reflexivity|].
    apply categorize_time_bucket, hour_bounds.
Qed.

(** X1. [FeatureEngineer.generate_time_features] keeps every row and
    every column but [scheduled_time], [hour] and [time_of_day]; text
    in [scheduled_time] is replaced by the timestamp it parses to (NaT
    when it does not parse); a row with a timestamp gets its hour and
    the period of that hour (6-11 morning 0, 12-17 afternoon 1, 18-23
    evening 2, 0-5 night 3); a row without one gets no hour and the
    default period 1. *)
Theorem generate_time_features_spec
  (to_datetime_coerce : list tcell -> string -> option datetime) (d : table) :
  let out := FeatureEngineer.generate_time_features_df to_datetime_coerce d in
  List.length out = List.length d /\
  Forall time_features out /\
  Forall2 (fun r r' =>
             r' = set_time_of_day (time_of_day (derived r'))
                    (set_hour (hour_of_day (derived r'))
                       (set_scheduled_time (scheduled_time r') r)) /\
             scheduled_time r'
             = coerced_cell to_datetime_coerce (map scheduled_time d) (scheduled_time r))
          d out.
Proof.
  cbv zeta. unfold FeatureEngineer.generate_time_features_df,
    FeatureEngineer.assign_time_of_day, FeatureEngineer.assign_hour.
  rewrite ensure_datetime_map, !map_map.
  generalize (map scheduled_time d). intros col.
  split; [apply length_map|]. split.
  - apply (Forall_map_intro (fun _ => True)); [apply Forall_true|]. intros r _.
    apply time_features_row. apply coerced_cell_not_text.
  - induction d as [|r d IH]; cbn [map]; constructor; [|exact IH].
    destruct r as [rt st at_ w pc la lo [dm hd td dw iw ws rf]]. split; reflexivity.
Qed.

Lemma dayofweek_bounds (dt : datetime) : 0 <= dayofweek dt <= 6.
Proof. unfold dayofweek. pose proof (Z.mod_pos_bound (days_from_civil (year dt) (month dt) (day dt) + 3) 7). lia. Qed.

Lemma weekend_features_row (c : tcell) (r : row) :
  (forall s, c <> TStr s) ->
  let r1 := set_scheduled_time c r in
  let r2 := set_day_of_week (match scheduled_time r1 with
                             | TStamp dt => Some (dayofweek dt)
                             | _ => None
                             end) r1 in
  weekend_features
    (set_is_weekend (match day_of_week (derived r2) with
                     | Some w => Some (if (5 <=? w)%Z then 1 else 0)
                     | None => Some 0
                     end) r2).
Proof.
  intros Hc. unfold weekend_features. destruct c as [|s|dt]; cbn.
  - split; reflexivity.
  - exact (Hc s eq_refl).
  - pose proof (dayofweek_bounds dt) as Hb.
    split; [reflexivity|]. split; [exact Hb|]. eexists. split; [reflexivity|].
    destruct (5 <=? dayofweek dt)%Z eqn:E; lia.
Qed.

(** X2. [FeatureEngineer.identify_weekend] keeps every row and every
    column but [scheduled_time], [day_of_week] and [is_weekend]; a row
    with a timestamp gets its day of the week, between 0 (Monday) and
    6 (Sunday), and [is_weekend] 1 exactly on days 5 and 6, else 0; a
    row without a timestamp gets no day and [is_weekend] 0. *)
Theorem identify_weekend_spec
  (to_datetime_coerce : list tcell -> string -> option datetime) (d : table) :
  let out := FeatureEngineer.identify_weekend_df to_datetime_coerce d in
  List.length out = List.length d /\
  Forall weekend_features out /\
  Forall2 (fun r r' =>
             r' = set_is_weekend (is_weekend (derived r'))
                    (set_day_of_week (day_of_week (derived r'))
                       (set_scheduled_time (scheduled_time r') r)) /\
             scheduled_time r'
             = coerced_cell to_datetime_coerce (map scheduled_time d) (scheduled_time r))
          d out.
Proof.
  cbv zeta. unfold FeatureEngineer.identify_weekend_df,
    FeatureEngineer.assign_is_weekend, FeatureEngineer.assign_day_of_week.
  rewrite ensure_datetime_map, !map_map.
  generalize (map scheduled_time d). intros col.
  split; [apply length_map|]. split.
  - apply (Forall_map_intro (fun _ => True)); [apply Forall_true|]. intros r _.
    apply weekend_features_row. apply coerced_cell_not_text.
  - induction d as [|r d IH]; cbn [map]; constructor; [|exact IH].
    destruct r as [rt st at_ w pc la lo [dm hd td dw iw ws rf]]. split; reflexivity.
Qed.

Lemma severity_cases (w : option string) :
  exists k,
    match FeatureEngineer.map_severity w with
    | Some v => Some v
    | None => Some 0
    end = Some k /\ 0 <= k <= 3 /\
    (k = 1 <-> w = Some "cloudy") /\ (k = 2 <-> w = Some "rainy") /\
    (k = 3 <-> w = Some "snowy").
Proof.
  destruct w as [s|]; cbn [FeatureEngineer.map_severity].
  2: { exists 0. repeat split; try lia; discriminate. }
  unfold FeatureEngineer.severity_map. cbn [List.find fst snd].
  destruct (String.eqb "clear" s) eqn:E0;
    [apply String.eqb_eq in E0; subst s; exists 0; cbn;
     repeat split; try lia; discriminate|].
  destruct (String.eqb "cloudy" s) eqn:E1;
    [apply String.eqb_eq in E1; subst s; exists 1; cbn;
     repeat split; try lia; try discriminate; reflexivity|].
  destruct (String.eqb "rainy" s) eqn:E2;
    [apply String.eqb_eq in E2; subst s; exists 2; cbn;
     repeat split; try lia; try discriminate; reflexivity|].
  destruct (String.eqb "snowy" s) eqn:E3;
    [apply String.eqb_eq in E3; subst s; exists 3; cbn;
     repeat split; try lia; try discriminate; reflexivity|].
  apply String.eqb_neq in E1, E2, E3. exists 0. cbn.
  repeat split; try lia; intros [= ->]; congruence.
Qed.

(** X3. [FeatureEngineer.compute_weather_severity] keeps every row and
    every column but [weather_severity], which is always present and
    between 0 and 3: 1 exactly for cloudy, 2 for rainy, 3 for snowy,
    and 0 for clear, for a missing weather and for any other text (the
    lookup is exact, so a category that was not normalised counts as
    0).  On a weather the cleaner normalised the lookup always finds
    the category, so the default is not used. *)
Theorem compute_weather_severity_spec :
  (forall d,
      let out := FeatureEngineer.compute_weather_severity_df d in
      List.length out = List.length d /\
      Forall severity_feature out /\
      Forall2 (fun r r' => r' = set_weather_severity (weather_severity (derived r')) r)
              d out) /\
  (forall value,
      exists k, FeatureEngineer.map_severity (Some (normalize_weather_value value)) = Some k) /\
  FeatureEngineer.map_severity (Some "Rainy") = None.
Proof.
  split; [|split; [|reflexivity]].
  - intros d. cbv zeta. unfold FeatureEngineer.compute_weather_severity_df,
      FeatureEngineer.assign_weather_severity.
    split; [apply length_map|]. split.
    + apply (Forall_map_intro (fun _ => True)); [apply Forall_true|]. intros r _.
      destruct (severity_cases (weather r)) as (k & Hk & Hrest).
      exists k. split; [|exact Hrest].
      destruct r as [rt st at_ w pc la lo [dm hd td dw iw ws rf]]. exact Hk.
    + induction d as [|r d IH]; cbn [map]; constructor; [|exact IH].
      destruct r as [rt st at_ w pc la lo [dm hd td dw iw ws rf]]. reflexivity.
  - intros value. pose proof (normalize_weather_value_canonical value) as H.
    unfold canonical_weather in H. cbn [In] in H.
    destruct H as [H|[H|[H|[H|[]]]]]; rewrite <- H; eexists; reflexivity.
Qed.

Lemma rval_eqb_refl (v : rval) : FeatureEngineer.rval_eqb v v = true.
Proof. destruct v; cbn; [apply Z.eqb_refl | apply String.eqb_refl]. Qed.

Lemma value_count_trips (v : rval) (d : table) :
  FeatureEngineer.value_count v (map route_id d) = trips_on v d.
Proof.
  unfold FeatureEngineer.value_count, trips_on.
  induction d as [|r d IH]; [reflexivity|]. unfold on_route at 1. cbn.
  destruct (route_id r) as [u|]; cbn; [|exact IH].
  destruct (FeatureEngineer.rval_eqb v u); cbn; now rewrite IH.
Qed.

Lemma trips_on_le (v : rval) (d : table) : (trips_on v d <= List.length d)%nat.
Proof.
  unfold trips_on. induction d as [|r d IH]; cbn; [lia|].
  destruct (on_route v r); cbn; lia.
Qed.

Lemma trips_on_pos (v : rval) (r : row) (d : table) :
  In r d -> route_id r = Some v -> (1 <= trips_on v d)%nat.
Proof.
  unfold trips_on. intros Hin Hv. induction d as [|x d IH]; [contradiction|].
  cbn. destruct Hin as [-> | Hin].
  - unfold on_route at 1. rewrite Hv, rval_eqb_refl. cbn. lia.
  - destruct (on_route v x); cbn; [lia | exact (IH Hin)].
Qed.

Lemma trips_on_ext (v : rval) (d d' : table) :
  map route_id d = map route_id d' -> trips_on v d = trips_on v d'.
Proof.
  unfold trips_on. revert d'. induction d as [|r d IH]; intros [|r' d'] H;
    try discriminate; [reflexivity|].
  cbn in H. injection H as Hr Hd.
  assert (Hon : on_route v r = on_route v r') by (unfold on_route; now rewrite Hr).
  cbn [List.filter]. rewrite Hon.
  destruct (on_route v r'); cbn [List.length]; now rewrite (IH d' Hd).
Qed.

Lemma share_facts (cnt n : nat) :
  (1 <= cnt)%nat -> (cnt <= n)%nat ->
  let f := (Z.of_nat cnt # Pos.of_nat n)%Q in
  (f * inject_Z (Z.of_nat n) == inject_Z (Z.of_nat cnt) /\ 0 < f /\ f <= 1)%Q.
Proof.
  intros H1 H2. cbv zeta.
  assert (Hn : Z.pos (Pos.of_nat n) = Z.of_nat n).
  { rewrite <- positive_nat_Z, Nat2Pos.id; lia. }
  unfold Qeq, Qlt, Qle, Qmult, inject_Z. cbn [Qnum Qden].
  rewrite ?Pos.mul_1_r, Hn. lia.
Qed.

Lemma route_frequency_route_ids (d : table) :
  map route_id (FeatureEngineer.assign_route_frequency d) = map route_id d.
Proof.
  unfold FeatureEngineer.assign_route_frequency. cbv zeta. rewrite map_map.
  apply map_ext. intros r. destruct r; reflexivity.
Qed.

Lemma frequency_feature_row (d : table) (r : row) :
  In r d ->
  frequency_feature d
    (set_route_frequency
       (match route_id r with
        | Some v => Some (Z.of_nat (FeatureEngineer.value_count v (map route_id d))
                          # Pos.of_nat (List.length d))%Q
        | None => None
        end) r).
Proof.
  intros Hin. unfold frequency_feature.
  replace (route_id (set_route_frequency _ r)) with (route_id r) by (destruct r; reflexivity).
  destruct (route_id r) as [v|] eqn:Hv; [|destruct r; reflexivity].
  eexists. split; [destruct r; reflexivity|].
  rewrite value_count_trips.
  apply share_facts; [exact (trips_on_pos v r d Hin Hv) | apply trips_on_le].
Qed.

Lemma frequency_feature_ext (d d' : table) (r : row) :
  map route_id d = map route_id d' -> frequency_feature d r -> frequency_feature d' r.
Proof.
  intros H. unfold frequency_feature. destruct (route_id r) as [v|]; [|exact (fun x => x)].
  rewrite (trips_on_ext v d d' H).
  replace (List.length d') with (List.length d); [exact (fun x => x)|].
  rewrite <- (length_map route_id d), H. apply length_map.
Qed.

Lemma assign_route_frequency_rows (P : row -> Prop) (d : table) :
  (forall r f, P r -> P (set_route_frequency f r)) ->
  Forall P d ->
  Forall (fun r => P r /\ frequency_feature (FeatureEngineer.assign_route_frequency d) r)
         (FeatureEngineer.assign_route_frequency d).
Proof.
  intros HP Hd. apply List.Forall_forall. intros r' Hin.
  pose proof (route_frequency_route_ids d) as Hids.
  unfold FeatureEngineer.assign_route_frequency in Hin. cbv zeta in Hin.
  apply List.in_map_iff in Hin as (r & <- & Hin). split.
  - apply HP. exact (proj1 (List.Forall_forall P d) Hd r Hin).
  - apply (frequency_feature_ext d); [now symmetry|]. now apply frequency_feature_row.
Qed.

(** X4. [FeatureEngineer.calculate_route_frequency] keeps every row
    and every column but [route_frequency].  For a row with a route,
    the frequency times the number of rows is the number of rows on
    that route, so it is above 0 and at most 1, and rows on the same
    route get the same frequency; a row whose route is missing gets no
    frequency.  The empty table is returned as it is. *)
Theorem calculate_route_frequency_spec (d : table) :
  let out := FeatureEngineer.calculate_route_frequency_df d in
  List.length out = List.length d /\
  Forall (frequency_feature d) out /\
  Forall2 (fun r r' => r' = set_route_frequency (route_frequency (derived r')) r) d out /\
  (forall r1 r2, In r1 out -> In r2 out -> route_id r1 = route_id r2 ->
                 route_frequency (derived r1) = route_frequency (derived r2)).
Proof.
  cbv zeta. unfold FeatureEngineer.calculate_route_frequency_df.
  split; [apply length_map|]. split; [|split].
  - pose proof (assign_route_frequency_rows (fun _ => True) d (fun _ _ H => H)
                                            (Forall_true d)) as H.
    eapply List.Forall_impl; [|exact H]. cbv beta. intros r [_ Hr].
    apply (frequency_feature_ext _ _ _ (route_frequency_route_ids d) Hr).
  - unfold FeatureEngineer.assign_route_frequency. cbv zeta.
    generalize (map route_id d), (List.length d). intros col n.
    induction d as [|r d IH]; cbn [map]; constructor; [|exact IH].
    destruct r as [rt st at_ w pc la lo [dm hd td dw iw ws rf]]. reflexivity.
  - unfold FeatureEngineer.assign_route_frequency. cbv zeta.
    intros r1 r2 H1 H2. apply List.in_map_iff in H1 as (x1 & <- & _).
    apply List.in_map_iff in H2 as (x2 & <- & _).
    destruct x1 as [rt1 ? ? ? ? ? ? [? ? ? ? ? ? ?]], x2 as [rt2 ? ? ? ? ? ? [? ? ? ? ? ? ?]].
    cbn. intros ->. reflexivity.
Qed.

Lemma calculate_route_frequency_spec_witness :
  let out := FeatureEngineer.calculate_route_frequency_df route_example in
  route_frequency (derived (nth 0 out (raw_row None TNa TNa None None None None)))
  = route_frequency (derived (nth 2 out (raw_row None TNa TNa None None None None))).
Proof.
  cbv zeta.
  apply (proj2 (proj2 (proj2 (calculate_route_frequency_spec route_example)))).
  - vm_compute. left. reflexivity.
  - vm_compute. right. right. left. reflexivity.
  - reflexivity.
Defined.

Lemma delayed_row_scheduled (r : row) :
  delayed_row r -> exists dt, scheduled_time r = TStamp dt.
Proof. intros (sched & _ & _ & H & _). now exists sched. Qed.

(** The rows the stages after the delay computation produce from a row
    with a delay. *)
Lemma engineered_row (coerce : list tcell -> string -> option datetime)
      (col1 col2 : list tcell) (r : row) :
  delayed_row r ->
  let r1 := set_scheduled_time (coerced_cell coerce col1 (scheduled_time r)) r in
  let r2 := set_hour (match scheduled_time r1 with
                      | TStamp dt => Some (hour dt)
                      | _ => None
                      end) r1 in
  let r3 := set_time_of_day (Some (FeatureEngineer.categorize_time (hour_of_day (derived r2)))) r2 in
  let r4 := set_scheduled_time (coerced_cell coerce col2 (scheduled_time r3)) r3 in
  let r5 := set_day_of_week (match scheduled_time r4 with
                             | TStamp dt => Some (dayofweek dt)
                             | _ => None
                             end) r4 in
  let r6 := set_is_weekend (match day_of_week (derived r5) with
                            | Some w => Some (if (5 <=? w)%Z then 1 else 0)
                            | None => Some 0
                            end) r5 in
  let r7 := set_weather_severity (match FeatureEngineer.map_severity (weather r6) with
                                  | Some v => Some v
                                  | None => Some 0
                                  end) r6 in
  delayed_row r7 /\ time_features r7 /\ weekend_features r7 /\ severity_feature r7.
Proof.
  intros H. pose proof H as (sched & actual & v & Hs & Ha & Hv & Hrest).
  destruct r as [rt st at_ w pc la lo [dm hd td dw iw ws rf]]. cbn in Hs, Ha, Hv.
  subst st at_ dm. cbn. split; [|split; [|split]].
  - exists sched, actual, v. repeat split; try reflexivity; apply Hrest.
  - unfold time_features. cbn. split; [reflexivity|]. eexists. split; [reflexivity|].
    apply categorize_time_bucket, hour_bounds.
  - unfold weekend_features. cbn. pose proof (dayofweek_bounds sched) as Hb.
    split; [reflexivity|]. split; [exact Hb|]. eexists. split; [reflexivity|].
    destruct (5 <=? dayofweek sched)%Z eqn:E; lia.
  - destruct (severity_cases w) as (k & Hk & Hk'). exists k. split; [exact Hk | exact Hk'].
Qed.

Lemma filter_length_bound {A} (p : A -> bool) (l : list A) :
  (List.length (List.filter p l) <= List.length l)%nat.
Proof. induction l as [|x l IH]; cbn; [lia|]. destruct (p x); cbn; lia. Qed.

Lemma converted_length (coerce : list tcell -> string -> option datetime) (d : table) :
  List.length (FeatureEngineer.convert_actual_time coerce
                 (FeatureEngineer.convert_scheduled_time coerce d))
  = List.length d.
Proof.
  unfold FeatureEngineer.convert_actual_time, FeatureEngineer.convert_scheduled_time,
    FeatureEngineer.to_datetime_col.
  rewrite !assign_map_col, !length_map. reflexivity.
Qed.

Lemma compute_delay_duration_delayed (coerce : list tcell -> string -> option datetime)
      (d : table) :
  Forall delayed_row (FeatureEngineer.compute_delay_duration_df coerce d) /\
  (List.length (FeatureEngineer.compute_delay_duration_df coerce d) <= List.length d)%nat.
Proof.
  rewrite compute_delay_duration_rows. split.
  - apply (Forall_map_intro (fun r => True /\ delay_computable r = true)).
    + apply Forall_filter_intro, Forall_true.
    + intros r [_ Hr]. now apply with_delay_delayed.
  - rewrite length_map, <- (converted_length coerce d). apply filter_length_bound.
Qed.

Lemma engineered_row_keeps (coerce : list tcell -> string -> option datetime)
      (col1 col2 : list tcell) (r : row) :
  delayed_row r ->
  let r1 := set_scheduled_time (coerced_cell coerce col1 (scheduled_time r)) r in
  let r2 := set_hour (match scheduled_time r1 with
                      | TStamp dt => Some (hour dt)
                      | _ => None
                      end) r1 in
  let r3 := set_time_of_day (Some (FeatureEngineer.categorize_time (hour_of_day (derived r2)))) r2 in
  let r4 := set_scheduled_time (coerced_cell coerce col2 (scheduled_time r3)) r3 in
  let r5 := set_day_of_week (match scheduled_time r4 with
                             | TStamp dt => Some (dayofweek dt)
                             | _ => None
                             end) r4 in
  let r6 := set_is_weekend (match day_of_week (derived r5) with
                            | Some w => Some (if (5 <=? w)%Z then 1 else 0)
                            | None => Some 0
                            end) r5 in
  let r7 := set_weather_severity (match FeatureEngineer.map_severity (weather r6) with
                                  | Some v => Some v
                                  | None => Some 0
                                  end) r6 in
  r7 = set_derived (derived r7) r /\ row_delay r7 = row_delay r.
Proof.
  intros (sched & actual & v & Hs & Ha & Hv & _).
  destruct r as [rt st at_ w pc la lo [dm hd td dw iw ws rf]]. cbn in Hs, Ha, Hv.
  subst st at_ dm. cbn. split; reflexivity.
Qed.

(** The stages after the delay computation, on a table whose rows all
    have a delay: every feature is as its stage computes it, and a
    property [Q] of the loaded columns is kept. *)
Lemma later_stages_rows (coerce : list tcell -> string -> option datetime)
      (Q : row -> Prop) (t : table) :
  (forall r f, Q r -> Q (set_derived f r)) ->
  Forall (fun r => delayed_row r /\ Q r) t ->
  let out :=
    FeatureEngineer.calculate_route_frequency_df
      (FeatureEngineer.compute_weather_severity_df
         (FeatureEngineer.identify_weekend_df coerce
            (FeatureEngineer.generate_time_features_df coerce t))) in
  Forall (fun r => (delayed_row r /\ time_features r /\ weekend_features r /\
                    severity_feature r /\ Q r) /\ frequency_feature out r) out.
Proof.
  intros HQ Hrows. cbv zeta.
  unfold FeatureEngineer.calculate_route_frequency_df,
    FeatureEngineer.compute_weather_severity_df, FeatureEngineer.identify_weekend_df,
    FeatureEngineer.generate_time_features_df, FeatureEngineer.assign_weather_severity,
    FeatureEngineer.assign_is_weekend, FeatureEngineer.assign_day_of_week,
    FeatureEngineer.assign_time_of_day, FeatureEngineer.assign_hour.
  rewrite !ensure_datetime_map.
  match goal with
  | |- context [coerced_cell _ (map scheduled_time (map ?g ?x))] =>
      generalize (map scheduled_time (map g x))
  end.
  intros col2. generalize (map scheduled_time t). intros col1. rewrite !map_map.
  apply (assign_route_frequency_rows
           (fun r => delayed_row r /\ time_features r /\ weekend_features r /\
                     severity_feature r /\ Q r)).
  - intros r f (H1 & H2 & H3 & H4 & H5).
    assert (H : delayed_row r /\ time_features r /\ weekend_features r /\ severity_feature r)
      by (repeat split; assumption).
    assert (H' : delayed_row (set_route_frequency f r) /\
                 time_features (set_route_frequency f r) /\
                 weekend_features (set_route_frequency f r) /\
                 severity_feature (set_route_frequency f r))
      by (destruct r as [rt st at_ w pc la lo [dm hd td dw iw ws rf]]; exact H).
    destruct H' as (G1 & G2 & G3 & G4). repeat split; try assumption.
    unfold set_route_frequency. cbv zeta. now apply HQ.
  - apply (Forall_map_intro (fun r => delayed_row r /\ Q r)); [exact Hrows|].
    intros r [Hr HQr].
    destruct (engineered_row coerce col1 col2 r Hr) as (G1 & G2 & G3 & G4).
    repeat split; try assumption.
    destruct (engineered_row_keeps coerce col1 col2 r Hr) as [Heq _].
    cbv zeta in Heq. rewrite Heq. now apply HQ.
Qed.

(** X5. [FeatureEngineer.engineer_all_features]: the stages after the
    delay computation drop no row and keep the loaded columns and the
    delay, so the result has at most as many rows as the input.  In
    every row of the result the delay is present and not negative, the
    hour and its period, the day of the week and the weekend flag
    agree with the scheduled time, the severity index agrees with the
    weather, and the route frequency is the share of the rows of the
    result on the same route. *)
Theorem engineer_all_features_rows
  (to_datetime_coerce : list tcell -> string -> option datetime) (d : table) :
  let delayed := FeatureEngineer.compute_delay_duration_df to_datetime_coerce d in
  let out := FeatureEngineer.engineer_all_features_df to_datetime_coerce d in
  (List.length out = List.length delayed /\ List.length delayed <= List.length d)%nat /\
  Forall2 (fun r r' => r' = set_derived (derived r') r /\ row_delay r' = row_delay r)
          delayed out /\
  Forall (fun r => delayed_row r /\ time_features r /\ weekend_features r /\
                   severity_feature r /\ frequency_feature out r) out.
Proof.
  cbv zeta.
  destruct (compute_delay_duration_delayed to_datetime_coerce d) as [Hrows Hlen].
  split; [split; [|exact Hlen]|split].
  - unfold FeatureEngineer.engineer_all_features_df,
      FeatureEngineer.calculate_route_frequency_df,
      FeatureEngineer.compute_weather_severity_df, FeatureEngineer.identify_weekend_df,
      FeatureEngineer.generate_time_features_df, FeatureEngineer.assign_weather_severity,
      FeatureEngineer.assign_is_weekend, FeatureEngineer.assign_day_of_week,
      FeatureEngineer.assign_time_of_day, FeatureEngineer.assign_hour,
      FeatureEngineer.assign_route_frequency.
    cbv zeta. now rewrite !ensure_datetime_map, !length_map.
  - unfold FeatureEngineer.engineer_all_features_df.
    revert Hrows. clear Hlen.
    generalize (FeatureEngineer.compute_delay_duration_df to_datetime_coerce d).
    intros t Hrows.
    unfold FeatureEngineer.calculate_route_frequency_df,
      FeatureEngineer.compute_weather_severity_df, FeatureEngineer.identify_weekend_df,
      FeatureEngineer.generate_time_features_df, FeatureEngineer.assign_weather_severity,
      FeatureEngineer.assign_is_weekend, FeatureEngineer.assign_day_of_week,
      FeatureEngineer.assign_time_of_day, FeatureEngineer.assign_hour,
      FeatureEngineer.assign_route_frequency.
    cbv zeta. rewrite !ensure_datetime_map.
    match goal with
    | |- context [coerced_cell _ (map scheduled_time (map ?g ?x))] =>
        generalize (map scheduled_time (map g x))
    end.
    intros col2. generalize (map scheduled_time t). intros col1. rewrite !map_map.
    match goal with |- context [Pos.of_nat ?n] => generalize n end.
    match goal with |- context [FeatureEngineer.value_count _ ?c] => generalize c end.
    intros rcol n.
    induction Hrows as [|r t Hr Hrows IH]; cbn [map]; [constructor|].
    constructor; [|exact IH].
    destruct (engineered_row_keeps to_datetime_coerce col1 col2 r Hr) as [Heq Hdelay].
    cbv zeta in Heq, Hdelay. split.
    + rewrite Heq at 2. destruct r as [rt st at_ w pc la lo [dm hd td dw iw ws rf]].
      reflexivity.
    + rewrite <- Hdelay. destruct r as [rt st at_ w pc la lo [dm hd td dw iw ws rf]].
      reflexivity.
  - eapply List.Forall_impl;
      [|apply (later_stages_rows to_datetime_coerce (fun _ => True)
                                 _ (fun _ _ H => H))].
    + cbv beta. intros r [(H1 & H2 & H3 & H4 & _) H5]. repeat split; assumption.
    + eapply List.Forall_impl; [|exact Hrows]. intros r Hr. exact (conj Hr I).
Qed.

(** ** Model selection *)

Section BestModel.

Variable metrics : Type.
Variable get_mae : metrics -> option Q.

Let key (x : string * metrics) : option Q := get_mae (snd x).
Let lt := ModelEvaluator.key_lt.

Lemma key_lt_trans (a b c : option Q) : lt a b = true -> lt b c = true -> lt a c = true.
Proof.
  unfold lt, ModelEvaluator.key_lt.
  destruct a as [x|], b as [y|], c as [z|]; try discriminate; try reflexivity.
  rewrite !Qltb_lt. lra.
Qed.

Lemma key_lt_le_trans (a b c : option Q) :
  lt a b = true -> lt c b = false -> lt a c = true.
Proof.
  unfold lt, ModelEvaluator.key_lt.
  destruct a as [x|], b as [y|], c as [z|]; try discriminate; try reflexivity.
  rewrite !Qltb_lt, Qltb_ge. lra.
Qed.

Lemma min_by_first (items before mid : list (string * metrics)) (best : string * metrics) :
  Forall (fun x => lt (key best) (key x) = true) before ->
  Forall (fun x => lt (key x) (key best) = false) mid ->
  let m := ModelEvaluator.min_by metrics get_mae best items in
  exists before' after',
    (before ++ best :: mid ++ items = before' ++ m :: after')%list /\
    Forall (fun x => lt (key m) (key x) = true) before' /\
    Forall (fun x => lt (key x) (key m) = false) after'.
Proof.
  cbv zeta. revert before mid best.
  induction items as [|x items IH]; intros before mid best Hbefore Hmid;
    cbn [ModelEvaluator.min_by].
  - exists before, mid. rewrite app_nil_r. repeat split; assumption.
  - fold (key x) (key best) lt. destruct (lt (key x) (key best)) eqn:E.
    + destruct (IH (before ++ best :: mid)%list [] x) as (b' & a' & Heq & Hb' & Ha').
      * apply List.Forall_app. split; [|constructor].
        -- eapply List.Forall_impl; [|exact Hbefore]. cbv beta. intros y Hy.
           exact (key_lt_trans _ _ _ E Hy).
        -- exact E.
        -- eapply List.Forall_impl; [|exact Hmid]. cbv beta. intros y Hy.
           exact (key_lt_le_trans _ _ _ E Hy).
      * constructor.
      * exists b', a'. split; [|split; assumption].
        rewrite <- Heq. rewrite <- !app_assoc. reflexivity.
    + destruct (IH before (mid ++ [x])%list best Hbefore) as (b' & a' & Heq & Hb' & Ha').
      * apply List.Forall_app. split; [exact Hmid | constructor; [exact E | constructor]].
      * exists b', a'. split; [|split; assumption].
        rewrite <- Heq. rewrite <- !app_assoc. reflexivity.
Qed.

End BestModel.

(** X15. [ModelEvaluator.get_best_model] raises [ValueError] exactly
    when there are no results.  Otherwise it returns one of the
    evaluated models, in the order they were evaluated the first one
    with the smallest MAE: every model evaluated before it has a
    strictly larger MAE and no model evaluated after it has a smaller
    one (a model without an MAE counts as infinitely bad). *)
Theorem get_best_model_spec (metrics : Type) (get_mae : metrics -> option Q)
        (results : list (string * metrics)) :
  match ModelEvaluator.get_best_model metrics get_mae results with
  | Raise e => e = ValueError /\ results = []
  | Ok best =>
      exists before after,
        results = (before ++ best :: after)%list /\
        Forall (fun x => ModelEvaluator.key_lt (get_mae (snd best)) (get_mae (snd x)) = true)
               before /\
        Forall (fun x => ModelEvaluator.key_lt (get_mae (snd x)) (get_mae (snd best)) = false)
               after
  end.
Proof.
  destruct results as [|x rest]; cbn [ModelEvaluator.get_best_model]; [split; reflexivity|].
  exact (min_by_first metrics get_mae rest [] [] x (List.Forall_nil _) (List.Forall_nil _)).
Qed.

(** ** The cleaner, row by row *)

Lemma rows_map {A B} (R : A -> B -> Prop) (f : A -> B) (l : list A) :
  (forall x, R x (f x)) -> Forall2 R l (map f l).
Proof. intros H. induction l as [|x l IH]; cbn [map]; constructor; auto. Qed.

Lemma rows_comp {A B C} (R : A -> B -> Prop) (S : B -> C -> Prop) (T : A -> C -> Prop)
      (l1 : list A) (l2 : list B) (l3 : list C) :
  Forall2 R l1 l2 -> Forall2 S l2 l3 -> (forall x y z, R x y -> S y z -> T x z) ->
  Forall2 T l1 l3.
Proof.
  intros H12 H23 HT. revert l3 H23.
  induction H12 as [|x y l1 l2 Hxy H12 IH]; intros l3 H23; inversion H23; subst;
    constructor; eauto.
Qed.

Lemma rows_filter {A B} (R : A -> B -> Prop) (p : A -> bool) (q : B -> bool)
      (l : list A) (l' : list B) :
  Forall2 R l l' -> (forall x y, R x y -> p x = q y) ->
  Forall2 R (List.filter p l) (List.filter q l').
Proof.
  intros H Hpq. induction H as [|x y l l' Hxy H IH]; cbn [List.filter]; [constructor|].
  rewrite (Hpq x y Hxy). destruct (q y); [constructor|]; assumption.
Qed.

Lemma rows_assign {A} (R : row -> row -> Prop) (set : A -> row -> row)
      (values : list A) (d : table) :
  List.length values = List.length d -> (forall v r, R r (set v r)) ->
  Forall2 R d (assign set values d).
Proof.
  intros Hlen HR. unfold assign. revert values Hlen.
  induction d as [|r d IH]; intros [|v values] Hlen; try discriminate; cbn;
    constructor; auto.
Qed.

Lemma rows_length {A B} (R : A -> B -> Prop) (l : list A) (l' : list B) :
  Forall2 R l l' -> List.length l' = List.length l.
Proof. intros H. induction H; cbn; congruence. Qed.

Lemma filter_filter {A} (p q : A -> bool) (l : list A) :
  List.filter q (List.filter p l) = List.filter (fun x => p x && q x) l.
Proof.
  induction l as [|x l IH]; [reflexivity|]. cbn [List.filter].
  destruct (p x); cbn [List.filter andb]; [destruct (q x)|]; now rewrite IH.
Qed.

Lemma imputed_rows (d : table) : Forall2 same_position_and_times d (imputed d).
Proof.
  unfold imputed. cbv zeta.
  eapply rows_comp;
    [apply (rows_assign same_position_and_times set_route_id (Pd.ffill (map route_id d)) d)
    |apply (rows_map same_position_and_times)|].
  - unfold Pd.ffill. now rewrite ffill_from_length, length_map.
  - intros v r. destruct r. repeat split.
  - intros r. destruct r. repeat split.
  - intros x y z (H1 & H2 & H3 & H4) (H5 & H6 & H7 & H8). repeat split; congruence.
Qed.

Lemma same_position_gps (r r' : row) :
  latitude r' = latitude r -> longitude r' = longitude r ->
  gps_present r = gps_present r' /\ gps_invalid r = gps_invalid r'.
Proof.
  intros H1 H2. unfold gps_present, gps_invalid. now rewrite H1, H2.
Qed.

Section CleanedRows.

Variable pd_to_datetime : string -> result (option datetime).
Variable py_float : string -> result Q.
Variable pd_to_datetime_unit_s : Q -> result (option datetime).
Variable strptime : string -> string -> result datetime.

Let cell := normalized_cell pd_to_datetime py_float pd_to_datetime_unit_s strptime.
Let clean_table := cleaned pd_to_datetime py_float pd_to_datetime_unit_s strptime.

(** A cleaned row has the position of the row it comes from, and its
    times normalised. *)
Let kept (r r' : row) : Prop :=
  latitude r' = latitude r /\ longitude r' = longitude r /\
  scheduled_time r' = cell (scheduled_time r) /\ actual_time r' = cell (actual_time r).

Lemma cleaned_rows (d : table) : Forall2 kept (List.filter gps_valid d) (clean_table d).
Proof.
  unfold clean_table, cleaned, before_unify, unified.
  rewrite handle_gps_coordinates_filter, treat_outliers_map.
  rewrite handle_missing_values_imputed.
  unfold DataCleaner.normalize_weather_df, DataCleaner.apply_normalize_weather,
    standardized.
  rewrite !assign_map_col, !map_map.
  unfold gps_valid. rewrite <- (filter_filter gps_present (fun r => negb (gps_invalid r))).
  apply rows_filter.
  - eapply rows_comp;
      [apply (rows_filter same_position_and_times gps_present gps_present _ _
                          (imputed_rows d))
      |apply (rows_map kept)|].
    + intros x y (H1 & H2 & _). apply (same_position_gps x y H1 H2).
    + intros r. destruct r. repeat split.
    + intros x y z (H1 & H2 & H3 & H4) (H5 & H6 & H7 & H8). unfold kept.
      rewrite <- H1, <- H2, <- H3, <- H4. repeat split; assumption.
  - intros x y (H1 & H2 & _). f_equal. apply (same_position_gps x y H1 H2).
Qed.

End CleanedRows.

(** X6. [DataCleaner.clean_all] returns exactly when the routes are
    convertible (no route that survives the missing-value stage has a
    first digit run, or an integer, of more than 4300 digits) and
    raises [ValueError] otherwise, whatever the parsers do.  When it
    returns it keeps, in their order, exactly the rows of the input
    whose two coordinates are present and within range: each kept row
    has its coordinates unchanged and its two times normalised, and no
    other row is dropped or added. *)
Theorem clean_all_rows
  (pd_to_datetime : string -> result (option datetime))
  (py_float : string -> result Q)
  (pd_to_datetime_unit_s : Q -> result (option datetime))
  (strptime : string -> string -> result datetime)
  (d : table) :
  let cell := normalized_cell pd_to_datetime py_float pd_to_datetime_unit_s strptime in
  match DataCleaner.clean_all_df pd_to_datetime py_float pd_to_datetime_unit_s strptime d with
  | Ok out =>
      routes_convertible d = true /\
      Forall2 (fun r r' =>
                 latitude r' = latitude r /\ longitude r' = longitude r /\
                 scheduled_time r' = cell (scheduled_time r) /\
                 actual_time r' = cell (actual_time r))
              (List.filter gps_valid d) out /\
      List.length out = count_true (map gps_valid d) /\
      (List.length out <= List.length d)%nat
  | Raise e => e = ValueError /\ routes_convertible d = false
  end.
Proof.
  cbv zeta. rewrite clean_all_df_outcome.
  destruct (routes_convertible d); [|now split]. split; [reflexivity|].
  pose proof (cleaned_rows pd_to_datetime py_float pd_to_datetime_unit_s strptime d) as H.
  split; [exact H|]. apply rows_length in H. rewrite H. split.
  - unfold count_true. clear H. induction d as [|r d IH]; [reflexivity|].
    cbn [map List.filter]. destruct (gps_valid r); cbn [List.length]; now rewrite IH.
  - apply filter_length_bound.
Qed.

(** ** The audit log of the cleaner *)

Lemma clean_log_length
  (pd_to_datetime : string -> result (option datetime))
  (py_float : string -> result Q)
  (pd_to_datetime_unit_s : Q -> result (option datetime))
  (strptime : string -> string -> result datetime) (d : table) :
  (9 <= List.length (clean_log pd_to_datetime py_float pd_to_datetime_unit_s strptime d)
   <= 11)%nat.
Proof.
  unfold clean_log, missing_log, timestamps_log, outliers_log, gps_log. cbv zeta.
  rewrite !length_app.
  repeat match goal with
         | |- context [if ?b then _ else _] => destruct b
         end; cbn [List.length]; lia.
Qed.

Lemma log_before_unify_length (d : table) :
  (7 <= List.length (log_before_unify d) <= 8)%nat.
Proof.
  unfold log_before_unify, missing_log, timestamps_log. cbv zeta.
  rewrite !length_app.
  repeat match goal with
         | |- context [if ?b then _ else _] => destruct b
         end; cbn [List.length]; lia.
Qed.

(** X7. [DataCleaner.clean_all] followed by [get_cleaning_log].  When
    the routes are convertible the run returns, and the audit log is
    the log before the run followed by the entries of the six stages
    in their order (initial missing counts, route forward fill,
    weather mode, passenger median, rows dropped for missing
    coordinates if any; the two timestamp columns; weather; routes;
    outliers with their count and bounds; rows removed for invalid
    coordinates if any), each computed on the table its stage
    receives: between 9 and 11 entries.  Otherwise the run raises
    [ValueError] in the identifier unifier, and the audit log is the
    log before the run followed by the 7 or 8 entries of the first
    three stages.  Earlier entries are never changed. *)
Theorem clean_all_cleaning_log
  (pd_to_datetime : string -> result (option datetime))
  (py_float : string -> result Q)
  (pd_to_datetime_unit_s : Q -> result (option datetime))
  (strptime : string -> string -> result datetime)
  (d : table) (s : DataCleaner.t) (σ : gmap nat table) :
  σ !! DataCleaner.df s = Some d ->
  let entries := clean_log pd_to_datetime py_float pd_to_datetime_unit_s strptime d in
  match DataCleaner.clean_all pd_to_datetime py_float pd_to_datetime_unit_s strptime s σ with
  | Ok (l, s', σ') =>
      routes_convertible d = true /\ l = DataCleaner.df s' /\
      DataCleaner.get_cleaning_log s' σ'
      = Ok ((DataCleaner.cleaning_log s ++ entries)%list, s', σ') /\
      (9 <= List.length entries <= 11)%nat
  | Raise (e, s', σ') =>
      routes_convertible d = false /\ e = ValueError /\
      DataCleaner.get_cleaning_log s' σ'
      = Ok ((DataCleaner.cleaning_log s ++ log_before_unify d)%list, s', σ') /\
      (7 <= List.length (log_before_unify d) <= 8)%nat
  end.
Proof.
  intros Hd. cbv zeta.
  assert (Hinv : inv ∅ ∅ d s σ) by (split; [set_solver | split; [exact Hd | set_solver]]).
  pose proof (clean_all_ends pd_to_datetime py_float pd_to_datetime_unit_s strptime
                             ∅ ∅ ltac:(set_solver) d s σ Hinv) as Hrun.
  unfold ends in Hrun.
  destruct (DataCleaner.clean_all _ _ _ _ s σ) as [[[l s'] σ']|[[e s'] σ']].
  - destruct Hrun as (Hconv & -> & _ & Hlog).
    split; [exact Hconv|]. split; [reflexivity|]. split; [|apply clean_log_length].
    unfold DataCleaner.get_cleaning_log. now rewrite Hlog.
  - destruct Hrun as (Hconv & -> & _ & Hlog).
    split; [exact Hconv|]. split; [reflexivity|]. split; [|apply log_before_unify_length].
    unfold DataCleaner.get_cleaning_log. now rewrite Hlog.
Qed.

Lemma clean_all_cleaning_log_witness :
  match DataCleaner.clean_all Ref.pd_to_datetime Ref.py_float Ref.pd_to_datetime_unit_s
                              Ref.strptime (DataCleaner.mk 0 []) caller_heap with
  | Ok (l, s', σ') =>
      routes_convertible scenario_c = true /\ l = DataCleaner.df s' /\
      DataCleaner.get_cleaning_log s' σ'
      = Ok (([] ++ clean_log Ref.pd_to_datetime Ref.py_float Ref.pd_to_datetime_unit_s
                             Ref.strptime scenario_c)%list, s', σ') /\
      (9 <= List.length (clean_log Ref.pd_to_datetime Ref.py_float
                                   Ref.pd_to_datetime_unit_s Ref.strptime scenario_c)
       <= 11)%nat
  | Raise (e, s', σ') =>
      routes_convertible scenario_c = false /\ e = ValueError /\
      DataCleaner.get_cleaning_log s' σ'
      = Ok (([] ++ log_before_unify scenario_c)%list, s', σ') /\
      (7 <= List.length (log_before_unify scenario_c) <= 8)%nat
  end.
Proof.
  pose proof (clean_all_cleaning_log Ref.pd_to_datetime Ref.py_float
                Ref.pd_to_datetime_unit_s Ref.strptime scenario_c (DataCleaner.mk 0 [])
                caller_heap) as H.
  cbv zeta in H. apply H. reflexivity.
Defined.

(** ** Missing values, once more *)

Lemma gaps_on_top_weaken {A} (col : list (option A)) :
  gaps_on_top true col = true -> gaps_on_top false col = true.
Proof.
  induction col as [|[v|] col IH]; cbn; [reflexivity | exact (fun H => H) | discriminate].
Qed.

Lemma ffill_from_gaps {A} (last : option A) (col : list (option A)) :
  gaps_on_top (negb (isnull last)) (Pd.ffill_from last col) = true.
Proof.
  revert last. induction col as [|[v|] col IH]; intros last; cbn; [reflexivity | |].
  - exact (IH (Some v)).
  - destruct last as [l|]; cbn; [exact (IH (Some l)) | exact (IH None)].
Qed.

Lemma gaps_ffill_fixed {A} (last : option A) (col : list (option A)) :
  gaps_on_top (negb (isnull last)) col = true -> Pd.ffill_from last col = col.
Proof.
  revert last. induction col as [|[v|] col IH]; intros last; cbn; [reflexivity | |].
  - intros H. now rewrite (IH (Some v)).
  - destruct last as [l|]; cbn; [discriminate|]. intros H. now rewrite (IH None).
Qed.

Lemma gaps_on_top_filter (p : row -> bool) (seen : bool) (d : table) :
  gaps_on_top seen (map route_id d) = true ->
  gaps_on_top seen (map route_id (List.filter p d)) = true.
Proof.
  revert seen. induction d as [|r d IH]; intros seen; [exact (fun H => H)|].
  cbn [map List.filter gaps_on_top].
  destruct (route_id r) as [v|] eqn:Hv; intros H.
  - destruct (p r); cbn [map gaps_on_top]; [rewrite Hv; now apply IH|].
    destruct seen; [now apply IH | apply IH, gaps_on_top_weaken, H].
  - apply andb_true_iff in H as [Hs H]. apply negb_true_iff in Hs. subst seen.
    destruct (p r); cbn [map gaps_on_top]; [rewrite Hv|]; now apply IH.
Qed.

Lemma gaps_on_top_split (d : table) :
  gaps_on_top false (map route_id d) = true ->
  exists top rest,
    d = (top ++ rest)%list /\ Forall (fun r => route_id r = None) top /\
    Forall (fun r => isnull (route_id r) = false) rest.
Proof.
  assert (Hall : forall t, gaps_on_top true (map route_id t) = true ->
                           Forall (fun r => isnull (route_id r) = false) t).
  { induction t as [|r t IH]; cbn; [constructor|].
    destruct (route_id r) eqn:E; [|discriminate]. intros H. constructor; [now rewrite E | auto]. }
  induction d as [|r d IH]; cbn.
  - intros _. exists [], []. repeat split; constructor.
  - destruct (route_id r) as [v|] eqn:Hv; cbn; intros H.
    + exists [], (r :: d). split; [reflexivity|]. split; [constructor|].
      constructor; [now rewrite Hv | now apply Hall].
    + destruct (IH H) as (top & rest & -> & Ht & Hr).
      exists (r :: top), rest. split; [reflexivity|]. split; [constructor|]; assumption.
Qed.

Lemma Forall_filter_keep {A} (P : A -> Prop) (p : A -> bool) (l : list A) :
  Forall P l -> Forall P (List.filter p l).
Proof.
  intros H. eapply List.Forall_impl; [|apply Forall_filter_intro, H]. now intros x [Hx _].
Qed.

Lemma assign_same_col {A} (set : A -> row -> row) (get : row -> A)
      (values : list A) (d : table) :
  (forall v r, get (set v r) = v) ->
  List.length values = List.length d ->
  map get (assign set values d) = values.
Proof.
  intros Hget. unfold assign. revert d.
  induction values as [|v values IH]; intros [|r d] Hlen; cbn in *;
    try reflexivity; try discriminate.
  rewrite Hget, IH by lia. reflexivity.
Qed.

Lemma imputed_route_ids (d : table) : map route_id (imputed d) = Pd.ffill (map route_id d).
Proof.
  unfold imputed. cbv zeta. rewrite map_map.
  rewrite (map_ext _ route_id) by (intros r; destruct r; reflexivity).
  apply assign_same_col; [intros v r; destruct r; reflexivity|].
  unfold Pd.ffill. now rewrite ffill_from_length, length_map.
Qed.

Lemma imputed_weather (d : table) : Forall (fun r => isnull (weather r) = false) (imputed d).
Proof.
  unfold imputed. cbv zeta.
  apply (Forall_map_intro (fun _ => True)); [apply Forall_true|].
  intros r _. destruct r as [rt st at_ [w|] pc la lo f]; reflexivity.
Qed.

Lemma assign_route_id_counts (values : list (option rval)) (d : table) :
  List.length values = List.length d ->
  map passenger_count (assign set_route_id values d) = map passenger_count d.
Proof. apply assign_other_col. intros v r. destruct r; reflexivity. Qed.

Lemma median_none (col : list (option Q)) :
  Pd.median col = None -> Forall (fun c => c = None) col.
Proof.
  intros H. apply List.Forall_forall. intros [v|] Hin; [|reflexivity].
  destruct (median_present col v Hin) as [m Hm]. congruence.
Qed.

Lemma median_all_none (col : list (option Q)) :
  Forall (fun c => c = None) col -> Pd.median col = None.
Proof.
  intros H. unfold Pd.median.
  replace (Pd.dropna col) with (@nil Q); [reflexivity|].
  induction H as [|c col -> _ IH]; [reflexivity | exact IH].
Qed.

Lemma imputed_counts (d : table) :
  counts_all_or_none (imputed d) /\
  (Forall (fun r => passenger_count r = None) (imputed d) ->
   Forall (fun r => passenger_count r = None) d).
Proof.
  unfold counts_all_or_none, imputed. cbv zeta.
  pose proof (assign_route_id_counts (Pd.ffill (map route_id d)) d) as Hpc.
  assert (Hlen : List.length (Pd.ffill (map route_id d)) = List.length d)
    by (unfold Pd.ffill; now rewrite ffill_from_length, length_map).
  specialize (Hpc Hlen).
  destruct (Pd.median (map passenger_count d)) as [m|] eqn:Hm.
  - split.
    + left. apply (Forall_map_intro (fun _ => True)); [apply Forall_true|].
      intros r _. destruct r as [rt st at_ w [pc|] la lo f]; reflexivity.
    + intros H. exfalso.
      destruct d as [|r d]; [discriminate|].
      destruct (Pd.ffill (map route_id (r :: d))) as [|v vs]; [discriminate|].
      cbn in H. inversion H as [|x l Hx _]. subst.
      destruct r as [rt st at_ w [pc|] la lo f]; discriminate.
  - pose proof (median_none _ Hm) as Hnone.
    assert (Hd : Forall (fun r => passenger_count r = None) d).
    { clear -Hnone. induction d as [|r d IH]; [constructor|].
      inversion Hnone; subst. constructor; auto. }
    split; [|intros _; exact Hd]. right.
    rewrite <- (List.Forall_map passenger_count (fun c => c = None)).
    rewrite map_map. rewrite (map_ext _ passenger_count).
    + rewrite Hpc. rewrite (List.Forall_map passenger_count (fun c => c = None)). exact Hd.
    + intros r. destruct r as [rt st at_ w [pc|] la lo f]; cbn; try reflexivity.
Qed.

Lemma imputed_fixed (t : table) :
  gaps_on_top false (map route_id t) = true ->
  Forall (fun r => isnull (weather r) = false) t ->
  counts_all_or_none t ->
  imputed t = t.
Proof.
  intros Hroute Hweather Hcounts. unfold imputed. cbv zeta.
  unfold Pd.ffill. rewrite (gaps_ffill_fixed None _ Hroute), assign_map.
  rewrite map_map.
  assert (Hfill : Forall (fun r => passenger_count r <> None \/
                                   Pd.median (map passenger_count t) = None) t).
  { destruct Hcounts as [H|H].
    - eapply List.Forall_impl; [|exact H]. intros r Hr. cbv beta in Hr. left.
      destruct (passenger_count r); cbn in Hr; [discriminate | discriminate Hr].
    - pose proof (median_all_none (map passenger_count t)) as Hm.
      rewrite List.Forall_map in Hm. specialize (Hm H).
      eapply List.Forall_impl; [|exact H]. intros r _. now right. }
  generalize dependent (Pd.median (map passenger_count t)). intros m Hfill.
  generalize (match Pd.mode (map weather t) with Some m0 => m0 | None => "clear" end).
  intros w0. clear Hroute Hcounts.
  induction Hweather as [|r t Hw _ IH]; [reflexivity|].
  inversion Hfill as [|x l Hr Hfill']. subst. cbn [map]. rewrite (IH Hfill'). f_equal.
  destruct r as [rt st at_ [w|] [pc|] la lo f]; try discriminate; cbn;
    [reflexivity|]. destruct Hr as [Hr | ->]; [now destruct Hr | reflexivity].
Qed.

(** X8. After [DataCleaner.handle_missing_values] no weather and no
    coordinate is missing.  A route can still be missing, but only in
    rows above the first row with a route (forward fill has nothing to
    copy there).  The passenger counts are all present, or all
    missing, and they can be all missing only when the input has no
    passenger count at all. *)
Theorem handle_missing_values_postconditions (d : table) :
  let out := DataCleaner.handle_missing_values_df d in
  Forall (fun r => isnull (weather r) = false /\ isnull (latitude r) = false /\
                   isnull (longitude r) = false) out /\
  (exists top rest,
      out = (top ++ rest)%list /\ Forall (fun r => route_id r = None) top /\
      Forall (fun r => isnull (route_id r) = false) rest) /\
  (Forall (fun r => isnull (passenger_count r) = false) out \/
   (Forall (fun r => passenger_count r = None) out /\
    Forall (fun r => passenger_count r = None) d)).
Proof.
  cbv zeta. rewrite handle_missing_values_imputed. split; [|split].
  - eapply List.Forall_impl; [|apply Forall_filter_intro, imputed_weather].
    intros r [Hw Hgps]. split; [exact Hw|].
    unfold gps_present in Hgps. apply negb_true_iff, orb_false_iff in Hgps. exact Hgps.
  - apply gaps_on_top_split, gaps_on_top_filter. rewrite imputed_route_ids.
    apply (ffill_from_gaps None).
  - destruct (imputed_counts d) as [[H|H] Hd].
    + left. now apply Forall_filter_keep.
    + right. split; [now apply Forall_filter_keep | now apply Hd].
Qed.

Lemma handle_missing_values_fixed (d : table) :
  DataCleaner.handle_missing_values_df (DataCleaner.handle_missing_values_df d)
  = DataCleaner.handle_missing_values_df d.
Proof.
  rewrite !handle_missing_values_imputed.
  rewrite (imputed_fixed (List.filter gps_present (imputed d))).
  - apply filter_all. eapply List.Forall_impl; [|apply Forall_filter_intro, Forall_true].
    now intros r [_ Hr].
  - apply gaps_on_top_filter. rewrite imputed_route_ids. apply (ffill_from_gaps None).
  - apply Forall_filter_keep, imputed_weather.
  - destruct (imputed_counts d) as [[H|H] _]; [left | right]; now apply Forall_filter_keep.
Qed.

Lemma normalize_weather_fixed (d : table) :
  DataCleaner.normalize_weather_df (DataCleaner.normalize_weather_df d)
  = DataCleaner.normalize_weather_df d.
Proof.
  unfold DataCleaner.normalize_weather_df, DataCleaner.apply_normalize_weather.
  rewrite !assign_map_col, map_map. apply map_ext. intros r.
  pose proof (normalize_weather_value_fixed _ (normalize_weather_value_canonical (weather r)))
    as H.
  destruct r as [rt st at_ w pc la lo f]. cbn in *. now rewrite H.
Qed.

Lemma unified_routes (d : table) : Forall (fun r => unified_route (route_id r)) (unified d).
Proof.
  unfold unified. apply (Forall_map_intro (fun _ => True)); [apply Forall_true|].
  intros r _. exists (route_number (route_id r)).
  split; [now destruct r | apply route_number_bounds].
Qed.

Lemma unify_route_identifiers_fixed (d : table) :
  (let* once := DataCleaner.unify_route_identifiers_df d in
   DataCleaner.unify_route_identifiers_df once)
  = DataCleaner.unify_route_identifiers_df d.
Proof.
  rewrite (unify_route_identifiers_df_outcome d).
  destruct (forallb _ d); [|reflexivity]. cbn [rbind].
  apply unify_route_identifiers_clean, unified_routes.
Qed.

Lemma handle_gps_coordinates_fixed (d : table) :
  DataCleaner.handle_gps_coordinates_df (DataCleaner.handle_gps_coordinates_df d)
  = DataCleaner.handle_gps_coordinates_df d.
Proof.
  rewrite !handle_gps_coordinates_filter. apply filter_all.
  eapply List.Forall_impl; [|apply Forall_filter_intro, Forall_true]. now intros r [_ Hr].
Qed.

(** X9. Every stage of the cleaner other than [treat_outliers] and
    [standardize_timestamps] is idempotent on every table: running
    [handle_missing_values], [normalize_weather],
    [unify_route_identifiers] or [handle_gps_coordinates] a second
    time changes nothing.  For [unify_route_identifiers], which can
    raise, running it twice ends as running it once does: with the
    same table when the first run returns, and with the exception of
    the first run when it raises. *)
Theorem cleaner_stages_idempotent :
  (forall d, DataCleaner.handle_missing_values_df (DataCleaner.handle_missing_values_df d)
             = DataCleaner.handle_missing_values_df d) /\
  (forall d, DataCleaner.normalize_weather_df (DataCleaner.normalize_weather_df d)
             = DataCleaner.normalize_weather_df d) /\
  (forall d, (let* once := DataCleaner.unify_route_identifiers_df d in
              DataCleaner.unify_route_identifiers_df once)
             = DataCleaner.unify_route_identifiers_df d) /\
  (forall d, DataCleaner.handle_gps_coordinates_df (DataCleaner.handle_gps_coordinates_df d)
             = DataCleaner.handle_gps_coordinates_df d).
Proof.
  repeat split.
  - exact handle_missing_values_fixed.
  - exact normalize_weather_fixed.
  - exact unify_route_identifiers_fixed.
  - exact handle_gps_coordinates_fixed.
Qed.

(** ** Outlier capping, once more *)

Lemma clip_value_cases_eq (lo hi v : Q) :
  ((v < lo /\ Pd.clip_value lo hi v == lo) \/
   (lo <= v /\ hi < v /\ Pd.clip_value lo hi v == hi) \/
   (lo <= v /\ v <= hi /\ Pd.clip_value lo hi v == v))%Q.
Proof.
  destruct (clip_value_cases lo hi v) as [[? ->]|[[? [? ->]]|[? [? ->]]]];
    [left | right; left | right; right]; repeat split; try assumption; reflexivity.
Qed.

Ltac clip_cases :=
  repeat match goal with
         | H : _ \/ _ |- _ => destruct H
         | H : _ /\ _ |- _ => destruct H
         end.

(** Clipping into [lo, hi] and then into [0, 500] keeps the order of
    two values. *)
Lemma clip_twice_mono (lo hi a b : Q) :
  (lo <= hi -> a <= b ->
   Pd.clip_value 0 500 (Pd.clip_value lo hi a)
   <= Pd.clip_value 0 500 (Pd.clip_value lo hi b))%Q.
Proof.
  intros Hlh Hab.
  pose proof (clip_value_cases_eq lo hi a);
  pose proof (clip_value_cases_eq lo hi b);
  pose proof (clip_value_cases_eq 0 500 (Pd.clip_value lo hi a));
  pose proof (clip_value_cases_eq 0 500 (Pd.clip_value lo hi b));
  clip_cases; lra.
Qed.

(** Clipping twice with the same bounds changes nothing more. *)
Lemma clip_twice_fixed (lo hi v : Q) :
  (lo <= hi ->
   Pd.clip_value 0 500 (Pd.clip_value lo hi (Pd.clip_value 0 500 (Pd.clip_value lo hi v)))
   == Pd.clip_value 0 500 (Pd.clip_value lo hi v))%Q.
Proof.
  intros Hlh.
  pose proof (clip_value_cases_eq lo hi v);
  pose proof (clip_value_cases_eq 0 500 (Pd.clip_value lo hi v));
  pose proof (clip_value_cases_eq lo hi (Pd.clip_value 0 500 (Pd.clip_value lo hi v)));
  pose proof (clip_value_cases_eq 0 500
                (Pd.clip_value lo hi (Pd.clip_value 0 500 (Pd.clip_value lo hi v))));
  clip_cases; lra.
Qed.

Lemma clip_twice_within (lo hi v : Q) :
  (0 <= lo -> hi <= 500 -> lo <= v -> v <= hi ->
   Pd.clip_value 0 500 (Pd.clip_value lo hi v) == v)%Q.
Proof.
  intros Hl Hu H1 H2.
  pose proof (clip_value_cases_eq lo hi v);
  pose proof (clip_value_cases_eq 0 500 (Pd.clip_value lo hi v));
  clip_cases; lra.
Qed.

Lemma set_passenger_count_none (r : row) :
  passenger_count r = None -> set_passenger_count None r = r.
Proof. destruct r; cbn. now intros ->. Qed.

(** X10. [DataCleaner.treat_outliers] applies one and the same cap to
    every present passenger count and leaves the rest of the table
    alone.  The cap keeps the order of any two counts, leaves a count
    between the two bounds of the table unchanged, always lands in
    [0, 500], and applying it again with the same bounds changes
    nothing: a second run of the stage can differ only because the
    bounds are recomputed.  A table without any passenger count is
    returned as it is. *)
Theorem treat_outliers_cap (d : table) :
  exists cap : Q -> Q,
    DataCleaner.treat_outliers_df d
    = map (fun r => set_passenger_count (option_map cap (passenger_count r)) r) d /\
    (forall a b, a <= b -> cap a <= cap b)%Q /\
    (forall v, DataCleaner.lower_bound d <= v -> v <= DataCleaner.upper_bound d ->
               cap v == v)%Q /\
    (forall v, cap (cap v) == cap v)%Q /\
    (forall v, 0 <= cap v /\ cap v <= 500)%Q /\
    (Forall (fun r => passenger_count r = None) d -> DataCleaner.treat_outliers_df d = d).
Proof.
  destruct (bounds_facts d) as (Hl & Hu & _). cbv zeta in Hl, Hu.
  rewrite treat_outliers_map.
  set (upper := DataCleaner.upper_bound d) in *.
  set (lower := DataCleaner.lower_bound d) in *.
  assert (Hord : ((if Pd.Qltb upper lower then upper else lower)
                  <= (if Pd.Qltb upper lower then lower else upper))%Q).
  { destruct (Pd.Qltb upper lower) eqn:E;
      [apply Qltb_lt in E; lra | apply Qltb_ge in E; exact E]. }
  eexists. split; [reflexivity|]. cbv beta. repeat split.
  - intros a b Hab. now apply clip_twice_mono.
  - intros v H1 H2.
    assert (E : Pd.Qltb upper lower = false) by (apply Qltb_ge; lra).
    rewrite E. now apply clip_twice_within.
  - intros v. now apply clip_twice_fixed.
  - apply clip_value_between. lra.
  - apply clip_value_between. lra.
  - intros Hnone. clear Hl Hu Hord. clearbody upper lower.
    induction Hnone as [|r t Hr _ IH]; [reflexivity|].
    cbn [map]. rewrite IH, Hr. cbn [option_map]. now rewrite set_passenger_count_none.
Qed.

Lemma treat_outliers_cap_witness :
  exists cap : Q -> Q,
    DataCleaner.treat_outliers_df scenario_d
    = map (fun r => set_passenger_count (option_map cap (passenger_count r)) r) scenario_d /\
    (cap (-50) <= cap 600)%Q /\ (cap 70 == 70)%Q.
Proof.
  destruct (treat_outliers_cap scenario_d) as (cap & Heq & Hmono & Hwithin & _).
  exists cap. split; [exact Heq|]. split.
  - apply Hmono. lra.
  - apply Hwithin; vm_compute; discriminate.
Defined.

(** ** The weather mode *)

Lemma occurrences_pos (x : string) (xs : list string) :
  (1 <= Pd.occurrences x xs)%nat -> In x xs.
Proof.
  unfold Pd.occurrences. induction xs as [|y xs IH]; cbn; [lia|].
  destruct (String.eqb x y) eqn:E; [apply String.eqb_eq in E; now left|].
  intros H. right. exact (IH H).
Qed.

(** The choice [mode] makes among the values seen so far: one of them,
    with the most occurrences in the whole column. *)
Lemma mode_fold (all seen rest : list string) (best : option string) :
  let step := fun (best : option string) (x : string) =>
    match best with
    | None => Some x
    | Some b =>
        if (Pd.occurrences b all <? Pd.occurrences x all)%nat
           || ((Pd.occurrences x all =? Pd.occurrences b all)%nat && String.ltb x b)
        then Some x else Some b
    end in
  match best with
  | None => seen = []
  | Some b => In b seen /\
              forall y, In y seen -> (Pd.occurrences y all <= Pd.occurrences b all)%nat
  end ->
  match fold_left step rest best with
  | None => (seen ++ rest)%list = []
  | Some b => In b (seen ++ rest)%list /\
              forall y, In y (seen ++ rest)%list ->
                        (Pd.occurrences y all <= Pd.occurrences b all)%nat
  end.
Proof.
  cbv zeta. revert seen best.
  induction rest as [|x rest IH]; intros seen best Hbest; cbn [fold_left].
  - rewrite app_nil_r. exact Hbest.
  - replace (seen ++ x :: rest)%list with ((seen ++ [x]) ++ rest)%list
      by (rewrite <- app_assoc; reflexivity).
    apply IH. destruct best as [b|].
    + destruct Hbest as [Hin Hmax].
      destruct ((Pd.occurrences b all <? Pd.occurrences x all)%nat
                || ((Pd.occurrences x all =? Pd.occurrences b all)%nat && String.ltb x b))
        eqn:E.
      * assert (Hle : (Pd.occurrences b all <= Pd.occurrences x all)%nat).
        { apply orb_true_iff in E as [E|E];
            [apply Nat.ltb_lt in E; lia
            |apply andb_true_iff in E as [E _]; apply Nat.eqb_eq in E; lia]. }
        split; [apply in_or_app; right; now left|].
        intros y Hy. apply in_app_or in Hy as [Hy|[<-|[]]]; [|lia].
        specialize (Hmax y Hy). lia.
      * apply orb_false_iff in E as [E _]. apply Nat.ltb_ge in E.
        split; [apply in_or_app; now left|].
        intros y Hy. apply in_app_or in Hy as [Hy|[<-|[]]]; [now apply Hmax | exact E].
    + subst seen. split; [now left|]. intros y [<-|[]]. lia.
Qed.

(** X11. The value [DataCleaner.handle_missing_values] fills the gaps
    of [weather] with: when some weather is present it is one of the
    present values and no value occurs more often in the column; when
    no weather is present at all it is 'clear'. *)
Theorem mode_weather_spec (d : table) :
  let present := Pd.dropna (map weather d) in
  match present with
  | [] => DataCleaner.mode_weather d = "clear"
  | _ :: _ =>
      In (DataCleaner.mode_weather d) present /\
      forall w, (Pd.occurrences w present
                 <= Pd.occurrences (DataCleaner.mode_weather d) present)%nat
  end.
Proof.
  cbv zeta. unfold DataCleaner.mode_weather, Pd.mode.
  pose proof (mode_fold (Pd.dropna (map weather d)) [] (Pd.dropna (map weather d)) None
                        eq_refl) as H.
  cbv zeta in H. cbn [app] in H.
  destruct (Pd.dropna (map weather d)) as [|x xs] eqn:E; [reflexivity|].
  destruct (fold_left _ (x :: xs) None) as [m|]; [|discriminate].
  destruct H as [Hin Hmax]. split; [exact Hin|].
  intros w. destruct (Pd.occurrences w (x :: xs)) as [|n] eqn:Hn; [lia|].
  rewrite <- Hn. apply Hmax, occurrences_pos. lia.
Qed.

(** ** The timestamp stage *)

Lemma four_digit_year_canonical (c : tcell) : four_digit_year c -> canonical_time c.
Proof.
  intros [-> | (dt & -> & Hy)]; [now left | right].
  exists (strftime dt). split; [reflexivity | now apply is_canonical_strftime].
Qed.

Lemma standardized_rows
  (pd_to_datetime : string -> result (option datetime))
  (py_float : string -> result Q)
  (pd_to_datetime_unit_s : Q -> result (option datetime))
  (strptime : string -> string -> result datetime) (d : table) :
  Forall2 (fun r r' =>
             r' = set_actual_time (actual_time r') (set_scheduled_time (scheduled_time r') r) /\
             formatted_time (scheduled_time r') /\ formatted_time (actual_time r') /\
             (scheduled_time r' = TNa <->
              normalize_timestamp pd_to_datetime py_float pd_to_datetime_unit_s strptime
                                  (scheduled_time r) = None) /\
             (actual_time r' = TNa <->
              normalize_timestamp pd_to_datetime py_float pd_to_datetime_unit_s strptime
                                  (actual_time r) = None))
          d (standardized pd_to_datetime py_float pd_to_datetime_unit_s strptime d).
Proof.
  unfold standardized. apply rows_map. intros r.
  pose proof (cell_formatted pd_to_datetime py_float pd_to_datetime_unit_s strptime
                             (scheduled_time r)) as Hs.
  pose proof (cell_formatted pd_to_datetime py_float pd_to_datetime_unit_s strptime
                             (actual_time r)) as Ha.
  destruct r as [rt st at_ w pc la lo f]. cbn in *.
  split; [reflexivity|]. split; [exact Hs|]. split; [exact Ha|].
  unfold normalized_cell.
  split; (destruct (normalize_timestamp _ _ _ _ _); cbn; split; congruence).
Qed.

(** X12. [DataCleaner.standardize_timestamps] returns normally,
    whatever the parsers do (each may raise).  It keeps every row and
    every column but the two times; afterwards each time is missing or
    the text [strftime] prints for a date, which has the form
    YYYY-MM-DD HH:MM:SS when the year of the date is 1000 or later (a
    smaller year is printed without leading zeros), and a time that
    was missing stays missing.  Running the stage again on its result,
    with parsers of which the generic one reads the text of a date
    whose year is 1000 or later back as the same date and the first
    explicit format accepts such text, returns normally, again keeps
    every row and every column but the two times, and changes no time
    that is missing or whose year is 1000 or later. *)
Theorem standardize_timestamps_spec
  (pd_to_datetime : string -> result (option datetime))
  (py_float : string -> result Q)
  (pd_to_datetime_unit_s : Q -> result (option datetime))
  (strptime : string -> string -> result datetime)
  (d : table) :
  let stage :=
    DataCleaner.standardize_timestamps_df pd_to_datetime py_float pd_to_datetime_unit_s
                                          strptime in
  exists out,
    stage d = Ok out /\
    Forall2 (fun r r' =>
               r' = set_actual_time (actual_time r')
                      (set_scheduled_time (scheduled_time r') r) /\
               formatted_time (scheduled_time r') /\ formatted_time (actual_time r') /\
               (four_digit_year (scheduled_time r') -> canonical_time (scheduled_time r')) /\
               (four_digit_year (actual_time r') -> canonical_time (actual_time r')) /\
               (scheduled_time r = TNa -> scheduled_time r' = TNa) /\
               (actual_time r = TNa -> actual_time r' = TNa))
            d out /\
    (forall pd_to_datetime' py_float' pd_to_datetime_unit_s' strptime',
        generic_reads_back pd_to_datetime' -> format_reads_back strptime' ->
        exists again,
          DataCleaner.standardize_timestamps_df pd_to_datetime' py_float'
                                                pd_to_datetime_unit_s' strptime' out
          = Ok again /\
          Forall2 (fun r r' =>
                     r' = set_actual_time (actual_time r')
                            (set_scheduled_time (scheduled_time r') r) /\
                     (four_digit_year (scheduled_time r) ->
                      scheduled_time r' = scheduled_time r) /\
                     (four_digit_year (actual_time r) -> actual_time r' = actual_time r))
                  out again).
Proof.
  cbv zeta. eexists. split; [apply standardize_timestamps_df_ok|].
  pose proof (standardized_rows pd_to_datetime py_float pd_to_datetime_unit_s strptime d)
    as Hrows.
  split.
  - eapply List.Forall2_impl; [|exact Hrows]. cbv beta.
    intros r r' (Heq & Hs & Ha & Hs' & Ha').
    split; [exact Heq|]. split; [exact Hs|]. split; [exact Ha|].
    split; [apply four_digit_year_canonical|]. split; [apply four_digit_year_canonical|].
    split.
    + intros E. apply Hs'. now rewrite E.
    + intros E. apply Ha'. now rewrite E.
  - intros pd_to_datetime' py_float' pd_to_datetime_unit_s' strptime' Hgeneric Hformat.
    eexists. split; [apply standardize_timestamps_df_ok|].
    unfold standardized at 1. apply rows_map. intros r.
    split; [now destruct r|]. split; intros Hy.
    + destruct r as [rt st at_ w pc la lo f]. cbn in *.
      exact (cell_fixed pd_to_datetime' py_float' pd_to_datetime_unit_s' strptime'
                        Hgeneric Hformat _ Hy).
    + destruct r as [rt st at_ w pc la lo f]. cbn in *.
      exact (cell_fixed pd_to_datetime' py_float' pd_to_datetime_unit_s' strptime'
                        Hgeneric Hformat _ Hy).
Qed.

Lemma standardize_timestamps_spec_witness :
  exists out again,
    DataCleaner.standardize_timestamps_df Ref.pd_to_datetime Ref.py_float
                                          Ref.pd_to_datetime_unit_s Ref.strptime scenario_c
    = Ok out /\
    DataCleaner.standardize_timestamps_df Ref.pd_to_datetime Ref.py_float
                                          Ref.pd_to_datetime_unit_s Ref.strptime out
    = Ok again /\
    Forall2 (fun r r' =>
               r' = set_actual_time (actual_time r')
                      (set_scheduled_time (scheduled_time r') r) /\
               (four_digit_year (scheduled_time r) -> scheduled_time r' = scheduled_time r) /\
               (four_digit_year (actual_time r) -> actual_time r' = actual_time r))
            out again.
Proof.
  destruct (standardize_timestamps_spec Ref.pd_to_datetime Ref.py_float
              Ref.pd_to_datetime_unit_s Ref.strptime scenario_c)
    as (out & Hout & _ & Hagain).
  destruct (Hagain Ref.pd_to_datetime Ref.py_float Ref.pd_to_datetime_unit_s Ref.strptime
                   ref_generic_reads_back ref_format_reads_back) as (again & Ha & Hrows).
  exists out, again. split; [exact Hout|]. split; [exact Ha | exact Hrows].
Defined.

(** ** The counts of the audit log *)

Lemma filter_split_length {A} (p : A -> bool) (l : list A) :
  (List.length (List.filter p l) + List.length (List.filter (fun x => negb (p x)) l)
   = List.length l)%nat.
Proof.
  induction l as [|x l IH]; [reflexivity|]. cbn [List.filter].
  destruct (p x); cbn [negb List.length]; lia.
Qed.

Lemma count_true_filter {A} (p : A -> bool) (l : list A) :
  count_true (map p l) = List.length (List.filter p l).
Proof.
  unfold count_true. induction l as [|x l IH]; [reflexivity|].
  cbn [map List.filter]. destruct (p x); cbn [List.length]; now rewrite IH.
Qed.

Lemma removal_entry_count (entry : nat -> log_entry) (n : nat) :
  (if (0 <? n)%nat then [entry n] else []) = removal_entry entry n.
Proof. destruct n; reflexivity. Qed.

Lemma filter_count_le {A} (p q : A -> bool) (l : list A) :
  (forall x, p x = true -> q x = true) ->
  (List.length (List.filter p l) <= List.length (List.filter q l))%nat.
Proof.
  intros H. induction l as [|x l IH]; [reflexivity|]. cbn [List.filter].
  destruct (p x) eqn:E; [rewrite (H x E); cbn [List.length]; lia|].
  destruct (q x); cbn [List.length]; lia.
Qed.

Lemma gps_log_removed (d : table) :
  gps_log d
  = removal_entry LogGpsInvalidRemoved
      (List.length d - List.length (DataCleaner.handle_gps_coordinates_df d)).
Proof.
  unfold gps_log. cbv zeta. rewrite removal_entry_count. f_equal.
  rewrite handle_gps_coordinates_filter, count_true_filter.
  pose proof (filter_split_length gps_invalid d). lia.
Qed.

Lemma missing_log_removed (d : table) :
  missing_log d
  = ([ LogInitialMissing (DataCleaner.missing_counts d); LogRouteForwardFilled;
       LogWeatherMode (DataCleaner.mode_weather d);
       LogPassengerMedian (Pd.median (map passenger_count d)) ]
     ++ removal_entry LogGpsMissingDropped
          (List.length d - List.length (DataCleaner.handle_missing_values_df d)))%list.
Proof.
  unfold missing_log. cbv zeta. rewrite removal_entry_count. f_equal. f_equal.
  rewrite handle_missing_values_imputed. unfold DataCleaner.gps_isnull.
  rewrite count_true_filter, <- (imputed_length d).
  pose proof (filter_split_length gps_present (imputed d)) as H.
  rewrite <- H at 1.
  rewrite (filter_ext_bool (fun r => isnull (latitude r) || isnull (longitude r))
                           (fun r => negb (gps_present r))).
  - lia.
  - intros r. unfold gps_present. now rewrite negb_involutive.
Qed.

Lemma combine_map_right {A B} (g : A -> B) (l : list A) :
  combine l (map g l) = map (fun x => (x, g x)) l.
Proof. induction l as [|x l IH]; [reflexivity|]. cbn. now rewrite IH. Qed.

(** A count inside the two bounds is not changed, and with ordered
    bounds a count outside them is. *)
Lemma capped_changed (lower upper v : Q) :
  (0 <= lower)%Q -> (upper <= 500)%Q ->
  let cap := fun v =>
    Pd.clip_value 0 500
      (Pd.clip_value (if Pd.Qltb upper lower then upper else lower)
                     (if Pd.Qltb upper lower then lower else upper) v) in
  (Qeq_bool v (cap v) = false -> Pd.Qltb v lower || Pd.Qltb upper v = true) /\
  ((lower <= upper)%Q -> Pd.Qltb v lower || Pd.Qltb upper v = true ->
   Qeq_bool v (cap v) = false).
Proof.
  intros Hl Hu. cbv zeta. split.
  - intros Hne.
    destruct (Pd.Qltb v lower) eqn:E1; [reflexivity|].
    destruct (Pd.Qltb upper v) eqn:E2; [reflexivity|]. exfalso.
    apply Qltb_ge in E1, E2.
    assert (E : Pd.Qltb upper lower = false) by (apply Qltb_ge; lra).
    rewrite E in Hne.
    pose proof (clip_twice_within lower upper v Hl Hu E1 E2) as Hsame.
    assert (Ht : Qeq_bool v (Pd.clip_value 0 500 (Pd.clip_value lower upper v)) = true)
      by (apply Qeq_bool_iff; now symmetry).
    congruence.
  - intros Hord Hout.
    assert (E : Pd.Qltb upper lower = false) by (apply Qltb_ge; exact Hord).
    rewrite E.
    destruct (Qeq_bool v (Pd.clip_value 0 500 (Pd.clip_value lower upper v))) eqn:Hq;
      [|reflexivity].
    exfalso. apply Qeq_bool_iff in Hq.
    pose proof (clip_value_cases_eq lower upper v).
    pose proof (clip_value_cases_eq 0 500 (Pd.clip_value lower upper v)).
    apply orb_true_iff in Hout as [Hout|Hout]; apply Qltb_lt in Hout; clip_cases; lra.
Qed.

Lemma outliers_changed (d : table) :
  let lower := DataCleaner.lower_bound d in
  let upper := DataCleaner.upper_bound d in
  (changed_counts d (DataCleaner.treat_outliers_df d)
   <= DataCleaner.outliers_before lower upper d)%nat /\
  ((lower <= upper)%Q ->
   DataCleaner.outliers_before lower upper d
   = changed_counts d (DataCleaner.treat_outliers_df d)).
Proof.
  cbv zeta. destruct (bounds_facts d) as (Hl & Hu & _). cbv zeta in Hl, Hu.
  rewrite treat_outliers_map. unfold changed_counts, DataCleaner.outliers_before.
  rewrite combine_map_right, map_map, !count_true_filter.
  set (upper := DataCleaner.upper_bound d) in *.
  set (lower := DataCleaner.lower_bound d) in *.
  clearbody upper lower.
  pose proof (fun v => capped_changed lower upper v Hl Hu) as Hcap. cbv beta zeta in Hcap.
  split.
  - apply filter_count_le. intros r. cbn [fst snd].
    destruct r as [rt st at_ w [v|] la lo f]; cbn; [|discriminate].
    intros H. apply negb_true_iff in H. now apply (proj1 (Hcap v)).
  - intros Hord. f_equal. apply filter_ext_bool. intros r. cbn [fst snd].
    destruct r as [rt st at_ w [v|] la lo f]; cbn; [|reflexivity].
    destruct (Pd.Qltb v lower || Pd.Qltb upper v) eqn:E.
    + now rewrite (proj2 (Hcap v) Hord E).
    + destruct (Qeq_bool v _) eqn:Hq; [reflexivity|].
      rewrite (proj1 (Hcap v) Hq) in E. discriminate.
Qed.

(** X21. The counts the cleaner writes to its audit log are exact.
    The entry of [handle_missing_values] for dropped rows and the
    entry of [handle_gps_coordinates] for removed rows are written
    exactly when the stage removes a row and carry the number of rows
    removed.  The outlier count of [treat_outliers] is never below the
    number of passenger counts the stage changes, and equals it when
    the lower bound does not exceed the upper bound. *)
Theorem audit_counts_exact :
  (forall d,
      missing_log d
      = ([ LogInitialMissing (DataCleaner.missing_counts d); LogRouteForwardFilled;
           LogWeatherMode (DataCleaner.mode_weather d);
           LogPassengerMedian (Pd.median (map passenger_count d)) ]
         ++ removal_entry LogGpsMissingDropped
              (List.length d - List.length (DataCleaner.handle_missing_values_df d)))%list) /\
  (forall d,
      gps_log d
      = removal_entry LogGpsInvalidRemoved
          (List.length d - List.length (DataCleaner.handle_gps_coordinates_df d))) /\
  (forall d,
      let lower := DataCleaner.lower_bound d in
      let upper := DataCleaner.upper_bound d in
      let changed := changed_counts d (DataCleaner.treat_outliers_df d) in
      outliers_log d = [LogOutliersTreated (DataCleaner.outliers_before lower upper d)
                                           lower upper] /\
      (changed <= DataCleaner.outliers_before lower upper d)%nat /\
      ((lower <= upper)%Q -> DataCleaner.outliers_before lower upper d = changed)).
Proof.
  split; [exact missing_log_removed|]. split; [exact gps_log_removed|].
  intros d. cbv zeta. split; [reflexivity|]. exact (outliers_changed d).
Qed.

Lemma audit_counts_exact_witness :
  DataCleaner.outliers_before (DataCleaner.lower_bound scenario_d)
                              (DataCleaner.upper_bound scenario_d) scenario_d
  = changed_counts scenario_d (DataCleaner.treat_outliers_df scenario_d).
Proof.
  destruct audit_counts_exact as (_ & _ & H).
  destruct (H scenario_d) as (_ & _ & Heq). apply Heq. vm_compute. discriminate.
Defined.

(** ** Request validation *)

Lemma validate_weather_allowed (v : string) :
  In (Py.lower v) PredictionRequest.allowed ->
  exists w,
    PredictionRequest.validate_weather v = Ok w /\
    In w ["clear"; "cloudy"; "rainy"; "snowy"] /\
    (Py.lower v = "sunny" /\ w = "clear" \/ Py.lower v <> "sunny" /\ w = Py.lower v) /\
    normalize_weather_value (Some v) = w /\
    PredictionRequest.validate_weather w = Ok w.
Proof.
  intros Hin. unfold PredictionRequest.validate_weather, normalize_weather_value.
  cbv zeta. rewrite (proj2 (mem_iff _ _) Hin). cbn [negb].
  unfold PredictionRequest.allowed in Hin. cbn [In] in Hin.
  destruct Hin as [H|[H|[H|[H|[H|[]]]]]]; rewrite <- H; cbn;
    eexists; (split; [reflexivity|]); (split; [cbn; tauto|]);
    (split; [first [left; split; [reflexivity|reflexivity]
                   |right; split; [discriminate|reflexivity]]|]);
    split; reflexivity.
Qed.

(** X13. The weather validator of [PredictionRequest] accepts a text
    exactly when its lower-case form is clear, cloudy, rainy, snowy or
    sunny, and raises [ValueError] otherwise.  An accepted text is
    returned in lower case, sunny as clear, so the result is one of
    the four categories of the pipeline; it is the category the
    cleaner's [normalize_weather] gives the same text, and validating
    it again returns it unchanged.  Unlike the cleaner, the validator
    neither trims nor matches substrings: 'Rain' and ' clear' are
    rejected. *)
Theorem validate_weather_spec :
  (forall v,
      match PredictionRequest.validate_weather v with
      | Ok w =>
          In (Py.lower v) PredictionRequest.allowed /\
          In w ["clear"; "cloudy"; "rainy"; "snowy"] /\
          (Py.lower v = "sunny" /\ w = "clear" \/ Py.lower v <> "sunny" /\ w = Py.lower v) /\
          normalize_weather_value (Some v) = w /\
          PredictionRequest.validate_weather w = Ok w
      | Raise e => e = ValueError /\ ~ In (Py.lower v) PredictionRequest.allowed
      end) /\
  PredictionRequest.validate_weather "Rain" = Raise ValueError /\
  normalize_weather_value (Some "Rain") = "rainy" /\
  PredictionRequest.validate_weather " clear" = Raise ValueError /\
  normalize_weather_value (Some " clear") = "clear".
Proof.
  split; [|repeat split; reflexivity].
  intros v. destruct (Py.mem (Py.lower v) PredictionRequest.allowed) eqn:E.
  - apply mem_iff in E. destruct (validate_weather_allowed v E) as (w & -> & H).
    split; [exact E | exact H].
  - unfold PredictionRequest.validate_weather. cbv zeta. rewrite E. cbn [negb].
    split; [reflexivity|]. intros Hin. apply mem_iff in Hin. congruence.
Qed.

(** ** Business rules *)

(** X14. The two business-rule validators of the prediction service
    never reject: their first component is True for all inputs.  Only
    the message varies: [validate_business_hours] warns exactly for
    period 3 on a weekday ([is_weekend] 0), and
    [validate_route_operating_hours] exactly for period 3 on a route
    above 8; otherwise the message is empty. *)
Theorem validators_never_reject :
  (forall time_of_day is_weekend,
      fst (validate_business_hours time_of_day is_weekend) = true /\
      (snd (validate_business_hours time_of_day is_weekend) <> ""
       <-> is_weekend = 0 /\ time_of_day = 3)) /\
  (forall route_id time_of_day,
      fst (validate_route_operating_hours route_id time_of_day) = true /\
      (snd (validate_route_operating_hours route_id time_of_day) <> ""
       <-> time_of_day = 3 /\ 8 < route_id)).
Proof.
  split.
  - intros t w. unfold validate_business_hours.
    destruct (w =? 0)%Z eqn:Ew; [destruct (t =? 3)%Z eqn:Et|]; cbn [fst snd];
      (split; [reflexivity|]); split; try lia; try congruence; try discriminate.
  - intros r t. unfold validate_route_operating_hours.
    destruct ((t =? 3)%Z && (8 <? r)%Z) eqn:E; cbn [fst snd];
      (split; [reflexivity|]); split; try lia; try congruence; try discriminate.
Qed.

(** ** The feature row of a request *)

Lemma validated_weather (route : Z) (w : string) (pc period weekend : Z)
      (request : PredictionRequest.t) :
  PredictionRequest.init route w pc period weekend = Ok request ->
  request = PredictionRequest.mk route (PredictionRequest.weather request) pc period weekend /\
  In (PredictionRequest.weather request) ["clear"; "cloudy"; "rainy"; "snowy"].
Proof.
  unfold PredictionRequest.init, PredictionRequest.field_ge_le.
  destruct ((1 <=? route) && (route <=? 10))%Z; cbn [rbind]; [|discriminate].
  destruct (PredictionRequest.validate_weather w) as [w'|e] eqn:Ew; cbn [rbind];
    [|discriminate].
  destruct ((0 <=? pc) && (pc <=? 500))%Z; cbn [rbind]; [|discriminate].
  destruct ((0 <=? period) && (period <=? 3))%Z; cbn [rbind]; [|discriminate].
  destruct ((0 <=? weekend) && (weekend <=? 1))%Z; cbn [rbind]; [|discriminate].
  intros [= <-]. cbn. split; [reflexivity|].
  destruct (Py.mem (Py.lower w) PredictionRequest.allowed) eqn:E.
  - apply mem_iff in E. destruct (validate_weather_allowed w E) as (w2 & Hw2 & Hin & _).
    assert (Hw : w2 = w') by congruence. rewrite <- Hw. exact Hin.
  - unfold PredictionRequest.validate_weather in Ew. cbv zeta in Ew. rewrite E in Ew.
    discriminate.
Qed.

(** X18. [MLModelWrapper._prepare_features] on the features of a
    request the API accepted, with the default column names: the row
    has the eight columns in the order of [_feature_names], the four
    integers of the request are passed through, and exactly one of the
    four weather flags is 1, the one of the request's weather.  For
    features that did not go through validation the flags are all 0
    as soon as the lower-case weather is not one of the four
    categories (so 'sunny' sets no flag). *)
Theorem prepare_features_one_hot :
  (forall route w pc period weekend request,
      PredictionRequest.init route w pc period weekend = Ok request ->
      exists flags,
        In (PredictionRequest.weather request, flags) one_hot /\
        MLModelWrapper._prepare_features MLModelWrapper.default_feature_names
                                         (prepare_request_features request)
        = combine MLModelWrapper.default_feature_names
                  ([route] ++ flags ++ [pc; period; weekend])%list) /\
  (forall features,
      let weather := Py.lower (get (MLModelWrapper.weather features) "clear") in
      ~ In weather ["clear"; "cloudy"; "rainy"; "snowy"] ->
      MLModelWrapper._prepare_features MLModelWrapper.default_feature_names features
      = combine MLModelWrapper.default_feature_names
                [ get (MLModelWrapper.route_id features) 1; 0; 0; 0; 0;
                  get (MLModelWrapper.passenger_count features) 100;
                  get (MLModelWrapper.time_of_day features) 1;
                  get (MLModelWrapper.is_weekend features) 0 ]) /\
  (forall name names features,
      map fst (MLModelWrapper._prepare_features (name :: names) features) = name :: names).
Proof.
  split; [|split].
  - intros route w pc period weekend request Hinit.
    destruct (validated_weather _ _ _ _ _ _ Hinit) as [-> Hin].
    cbn [In] in Hin. cbn [PredictionRequest.weather] in *.
    destruct Hin as [<-|[<-|[<-|[<-|[]]]]];
      [exists [1; 0; 0; 0] | exists [0; 1; 0; 0] | exists [0; 0; 1; 0] | exists [0; 0; 0; 1]];
      (split; [unfold one_hot; cbn [In]; tauto | reflexivity]).
  - intros features weather Hnot. unfold MLModelWrapper._prepare_features. cbv zeta.
    fold weather.
    destruct (String.eqb weather "clear") eqn:E1;
      [apply String.eqb_eq in E1; exfalso; apply Hnot; rewrite E1; cbn; tauto|].
    destruct (String.eqb weather "cloudy") eqn:E2;
      [apply String.eqb_eq in E2; exfalso; apply Hnot; rewrite E2; cbn; tauto|].
    destruct (String.eqb weather "rainy") eqn:E3;
      [apply String.eqb_eq in E3; exfalso; apply Hnot; rewrite E3; cbn; tauto|].
    destruct (String.eqb weather "snowy") eqn:E4;
      [apply String.eqb_eq in E4; exfalso; apply Hnot; rewrite E4; cbn; tauto|].
    reflexivity.
  - intros name names features. unfold MLModelWrapper._prepare_features. cbv zeta.
    unfold MLModelWrapper.reindex. rewrite map_map. cbn [fst]. apply map_id.
Qed.

Lemma prepare_features_one_hot_witness :
  exists flags,
    In ("clear", flags) one_hot /\
    MLModelWrapper._prepare_features
      MLModelWrapper.default_feature_names
      (prepare_request_features (PredictionRequest.mk 3 "clear" 120 1 0))
    = combine MLModelWrapper.default_feature_names ([3] ++ flags ++ [120; 1; 0])%list.
Proof.
  destruct prepare_features_one_hot as (H & _ & _).
  apply (H 3 "Sunny" 120 1 0 (PredictionRequest.mk 3 "clear" 120 1 0)). reflexivity.
Defined.

(** ** The rows the pipeline produces *)

Lemma clean_loaded_derived (r : row) (f : features) :
  clean_loaded r -> clean_loaded (set_derived f r).
Proof. destruct r. exact (fun H => H). Qed.

Lemma clean_loaded_scheduled (r : row) (c : tcell) :
  clean_loaded r -> clean_loaded (set_scheduled_time c r).
Proof. destruct r. exact (fun H => H). Qed.

Lemma clean_loaded_actual (r : row) (c : tcell) :
  clean_loaded r -> clean_loaded (set_actual_time c r).
Proof. destruct r. exact (fun H => H). Qed.

Lemma clean_loaded_with_delay (r : row) : clean_loaded r -> clean_loaded (with_delay r).
Proof.
  unfold with_delay. destruct (scheduled_time r), (actual_time r); exact (fun H => H).
Qed.

Lemma compute_delay_duration_loaded (coerce : list tcell -> string -> option datetime)
      (c : table) :
  Forall clean_loaded c ->
  Forall clean_loaded (FeatureEngineer.compute_delay_duration_df coerce c).
Proof.
  intros Hc. rewrite compute_delay_duration_rows.
  apply (Forall_map_intro clean_loaded); [|exact clean_loaded_with_delay].
  apply Forall_filter_keep.
  unfold FeatureEngineer.convert_actual_time, FeatureEngineer.convert_scheduled_time,
    FeatureEngineer.to_datetime_col.
  rewrite !assign_map_col.
  apply (Forall_map_intro clean_loaded); [|intros r; apply clean_loaded_actual].
  apply (Forall_map_intro clean_loaded); [exact Hc|intros r; apply clean_loaded_scheduled].
Qed.

Lemma severity_category (r : row) :
  canonical_weather (weather r) -> severity_feature r -> severity_of_category r.
Proof.
  unfold canonical_weather, severity_feature, severity_of_category.
  intros Hw (k & Hk & Hb & H1 & H2 & H3). rewrite Hk. cbn [In] in *.
  destruct Hw as [Hw|[Hw|[Hw|[Hw|[]]]]]; rewrite <- Hw in *.
  - left. do 2 f_equal.
    assert (k <> 1) by (intros E; apply H1 in E; discriminate).
    assert (k <> 2) by (intros E; apply H2 in E; discriminate).
    assert (k <> 3) by (intros E; apply H3 in E; discriminate). lia.
  - right; left. do 2 f_equal. symmetry. now apply H1.
  - right; right; left. do 2 f_equal. symmetry. now apply H2.
  - right; right; right; left. do 2 f_equal. symmetry. now apply H3.
Qed.

Lemma frequency_of_route (d : table) (r : row) :
  unified_route (route_id r) -> frequency_feature d r -> frequency_present r.
Proof.
  unfold frequency_feature, frequency_present. intros (z & -> & _) (f & Hf & _ & Hb).
  now exists f.
Qed.

Section PipelineRows.

Variable pd_to_datetime : string -> result (option datetime).
Variable py_float : string -> result Q.
Variable pd_to_datetime_unit_s : Q -> result (option datetime).
Variable strptime : string -> string -> result datetime.
Variable to_datetime_coerce : list tcell -> string -> option datetime.

Let clean_table := cleaned pd_to_datetime py_float pd_to_datetime_unit_s strptime.
Let feature_table := FeatureEngineer.engineer_all_features_df to_datetime_coerce.

Lemma cleaned_loaded (d : table) : Forall clean_loaded (clean_table d).
Proof.
  eapply List.Forall_impl;
    [|apply (cleaned_invariant pd_to_datetime py_float pd_to_datetime_unit_s strptime d)].
  intros r [(Hw & Hr & Hla & Hlo & _) Hpc]. repeat split; assumption.
Qed.

Lemma pipeline_rows_facts (d : table) :
  Forall (fun r => clean_loaded r /\ delayed_row r /\ time_features r /\
                   weekend_features r /\ severity_of_category r /\ frequency_present r)
         (feature_table (clean_table d)).
Proof.
  unfold feature_table, FeatureEngineer.engineer_all_features_df.
  eapply List.Forall_impl;
    [|apply (later_stages_rows to_datetime_coerce clean_loaded _ clean_loaded_derived)].
  - cbv beta. intros r [(H1 & H2 & H3 & H4 & H5) H6].
    pose proof H5 as (Hroute & Hweather & _).
    split; [exact H5|]. split; [exact H1|]. split; [exact H2|]. split; [exact H3|].
    split; [now apply severity_category | eapply frequency_of_route; eassumption].
  - apply List.Forall_and.
    + apply compute_delay_duration_delayed.
    + apply compute_delay_duration_loaded, cleaned_loaded.
Qed.

End PipelineRows.

Lemma engineer_all_features_length (coerce : list tcell -> string -> option datetime)
      (d : table) :
  (List.length (FeatureEngineer.engineer_all_features_df coerce d) <= List.length d)%nat.
Proof.
  destruct (compute_delay_duration_delayed coerce d) as [_ Hlen].
  unfold FeatureEngineer.engineer_all_features_df,
    FeatureEngineer.calculate_route_frequency_df,
    FeatureEngineer.compute_weather_severity_df, FeatureEngineer.identify_weekend_df,
    FeatureEngineer.generate_time_features_df, FeatureEngineer.assign_weather_severity,
    FeatureEngineer.assign_is_weekend, FeatureEngineer.assign_day_of_week,
    FeatureEngineer.assign_time_of_day, FeatureEngineer.assign_hour,
    FeatureEngineer.assign_route_frequency.
  cbv zeta. now rewrite !ensure_datetime_map, !length_map.
Qed.

(** X16. The cleaning and feature steps of [main]: for every raw
    table and whatever the parsers do, the run returns exactly when
    the routes are convertible and raises [ValueError] otherwise.
    When it returns, every row of [df_features] has a route between 1
    and 10, one of the four weather categories with the severity index
    of that category, coordinates within range, a passenger count that
    is missing or within [0, 500], a delay that is present and not
    negative, the hour, period, day and weekend flag of its scheduled
    time, and a route frequency above 0 and at most 1; and it has at
    most as many rows as the raw table has rows with valid
    coordinates. *)
Theorem pipeline_rows
  (pd_to_datetime : string -> result (option datetime))
  (py_float : string -> result Q)
  (pd_to_datetime_unit_s : Q -> result (option datetime))
  (strptime : string -> string -> result datetime)
  (to_datetime_coerce : list tcell -> string -> option datetime)
  (σ : gmap nat table) (df_raw : nat) :
  match pipeline pd_to_datetime py_float pd_to_datetime_unit_s strptime to_datetime_coerce
                 df_raw σ with
  | Ok (df_cleaned, df_features, σ') =>
      routes_convertible (σ !!! df_raw) = true /\
      exists out,
        σ' !! df_features = Some out /\
        Forall (fun r => clean_loaded r /\ delayed_row r /\ time_features r /\
                         weekend_features r /\ severity_of_category r /\
                         frequency_present r)
               out /\
        (List.length out <= count_true (map gps_valid (σ !!! df_raw)))%nat
  | Raise (e, σ') => e = ValueError /\ routes_convertible (σ !!! df_raw) = false
  end.
Proof.
  pose proof (pipeline_frame pd_to_datetime py_float pd_to_datetime_unit_s strptime
                             to_datetime_coerce σ df_raw) as Hrun.
  destruct (pipeline _ _ _ _ _ df_raw σ) as [[[df_cleaned df_features] σ']|[e σ']];
    [|now destruct Hrun as (Hconv & -> & _)].
  destruct Hrun as (Hconv & _ & _ & Hout).
  split; [exact Hconv|]. eexists. split; [exact Hout|]. split.
  - apply pipeline_rows_facts.
  - etransitivity; [apply engineer_all_features_length|].
    pose proof (cleaned_rows pd_to_datetime py_float pd_to_datetime_unit_s strptime
                             (σ !!! df_raw)) as H.
    apply rows_length in H. rewrite H. unfold count_true. clear.
    set (d := σ !!! df_raw). clearbody d.
    induction d as [|r d IH]; [reflexivity|].
    cbn [map List.filter]. destruct (gps_valid r); cbn [List.length]; lia.
Qed.

(** ** Requests *)

Lemma validate_weather_raises (v : string) (e : exn) :
  PredictionRequest.validate_weather v = Raise e -> e = ValueError.
Proof.
  unfold PredictionRequest.validate_weather. cbv zeta.
  destruct (negb _); [congruence|]. destruct (String.eqb _ _); discriminate.
Qed.

Lemma init_accepts (route : Z) (w : string) (pc period weekend : Z) :
  1 <= route <= 10 -> canonical_weather (Some w) -> 0 <= pc <= 500 ->
  0 <= period <= 3 -> 0 <= weekend <= 1 ->
  PredictionRequest.init route w pc period weekend
  = Ok (PredictionRequest.mk route w pc period weekend).
Proof.
  intros Hr Hw Hpc Hp Hwk. unfold PredictionRequest.init, PredictionRequest.field_ge_le.
  replace ((1 <=? route) && (route <=? 10))%Z with true by lia.
  replace ((0 <=? pc) && (pc <=? 500))%Z with true by lia.
  replace ((0 <=? period) && (period <=? 3))%Z with true by lia.
  replace ((0 <=? weekend) && (weekend <=? 1))%Z with true by lia.
  unfold canonical_weather in Hw. cbn [In] in Hw.
  destruct Hw as [Hw|[Hw|[Hw|[Hw|[]]]]]; injection Hw as <-; reflexivity.
Qed.

Lemma pipeline_row_accepted (r : row) :
  clean_loaded r -> delayed_row r -> time_features r -> weekend_features r ->
  accepted_as_request r.
Proof.
  intros ((route & Hroute & Hr) & Hw & _) (sched & _ & _ & Hs & _) Ht Hwk.
  unfold time_features in Ht. unfold weekend_features in Hwk. rewrite Hs in Ht, Hwk.
  destruct Ht as (_ & period & Hperiod & Hbucket).
  destruct Hwk as (_ & _ & weekend & Hweekend & Hflag & _).
  destruct (weather r) as [w|] eqn:Ew;
    [|unfold canonical_weather in Hw; cbn [In] in Hw;
      destruct Hw as [Hw|[Hw|[Hw|[Hw|[]]]]]; discriminate].
  exists route, w, period, weekend. repeat split; try assumption.
  intros pc Hpc. apply init_accepts; try assumption; unfold time_bucket in Hbucket; lia.
Qed.

(** X17. [PredictionRequest] accepts a request exactly when the route
    is in 1..10, the passenger count in 0..500, the period in 0..3,
    the weekend flag 0 or 1 and the weather passes its validator; the
    fields are then the values given, the weather normalised;
    otherwise the error is a [ValueError].  Every row of the table the
    pipeline trains on, when the cleaner returns one, is within this
    domain: its route, weather, period and weekend flag, with any
    integer passenger count in [0, 500], are accepted and left as they
    are. *)
Theorem prediction_request_spec :
  (forall route w pc period weekend,
      match PredictionRequest.init route w pc period weekend with
      | Ok request =>
          1 <= route <= 10 /\ 0 <= pc <= 500 /\ 0 <= period <= 3 /\ 0 <= weekend <= 1 /\
          exists w', PredictionRequest.validate_weather w = Ok w' /\
                     request = PredictionRequest.mk route w' pc period weekend
      | Raise e =>
          e = ValueError /\
          (~ 1 <= route <= 10 \/ ~ 0 <= pc <= 500 \/ ~ 0 <= period <= 3 \/
           ~ 0 <= weekend <= 1 \/ PredictionRequest.validate_weather w = Raise ValueError)
      end) /\
  (forall pd_to_datetime py_float pd_to_datetime_unit_s strptime to_datetime_coerce d,
      match DataCleaner.clean_all_df pd_to_datetime py_float pd_to_datetime_unit_s
                                     strptime d with
      | Ok cleaned_table =>
          Forall accepted_as_request
                 (FeatureEngineer.engineer_all_features_df to_datetime_coerce cleaned_table)
      | Raise e => e = ValueError /\ routes_convertible d = false
      end).
Proof.
  split.
  - intros route w pc period weekend.
    unfold PredictionRequest.init, PredictionRequest.field_ge_le.
    destruct ((1 <=? route) && (route <=? 10))%Z eqn:E1; cbn [rbind];
      [|split; [reflexivity | left; lia]].
    destruct (PredictionRequest.validate_weather w) as [w'|e] eqn:Ew; cbn [rbind].
    2: { pose proof (validate_weather_raises w e Ew) as ->.
         split; [reflexivity | now repeat right]. }
    destruct ((0 <=? pc) && (pc <=? 500))%Z eqn:E2; cbn [rbind];
      [|split; [reflexivity | right; left; lia]].
    destruct ((0 <=? period) && (period <=? 3))%Z eqn:E3; cbn [rbind];
      [|split; [reflexivity | right; right; left; lia]].
    destruct ((0 <=? weekend) && (weekend <=? 1))%Z eqn:E4; cbn [rbind];
      [|split; [reflexivity | right; right; right; left; lia]].
    repeat split; try lia. now exists w'.
  - intros pd_to_datetime py_float pd_to_datetime_unit_s strptime to_datetime_coerce d.
    rewrite clean_all_df_outcome. destruct (routes_convertible d); [|now split].
    eapply List.Forall_impl;
      [|apply (pipeline_rows_facts pd_to_datetime py_float pd_to_datetime_unit_s strptime
                                   to_datetime_coerce d)].
    cbv beta. intros r (H1 & H2 & H3 & H4 & _). now apply pipeline_row_accepted.
Qed.

(** ** Predictions *)

Section Predictions.

Local Open Scope Q_scope.

Lemma round_half_even_floor (y : Q) :
  (Qfloor y <= MLModelWrapper.round_half_even y <= Qfloor y + 1)%Z.
Proof.
  unfold MLModelWrapper.round_half_even. cbv zeta.
  destruct (Pd.Qltb _ (1 # 2)); [lia|].
  destruct (Pd.Qltb (1 # 2) _); [lia|]. destruct (Z.even _); lia.
Qed.

Lemma round_half_even_mono (y y' : Q) :
  y <= y' -> (MLModelWrapper.round_half_even y <= MLModelWrapper.round_half_even y')%Z.
Proof.
  intros Hy. pose proof (Qfloor_resp_le y y' Hy) as Hf.
  destruct (Z.eq_dec (Qfloor y) (Qfloor y')) as [E|E].
  - unfold MLModelWrapper.round_half_even. cbv zeta. rewrite <- E.
    destruct (Pd.Qltb (y - inject_Z (Qfloor y)) (1 # 2)) eqn:A1;
    destruct (Pd.Qltb (1 # 2) (y - inject_Z (Qfloor y))) eqn:A2;
    destruct (Pd.Qltb (y' - inject_Z (Qfloor y)) (1 # 2)) eqn:B1;
    destruct (Pd.Qltb (1 # 2) (y' - inject_Z (Qfloor y))) eqn:B2;
    rewrite ?Qltb_lt, ?Qltb_ge in *;
    try (destruct (Z.even (Qfloor y))); try lia; exfalso; lra.
  - pose proof (round_half_even_floor y). pose proof (round_half_even_floor y'). lia.
Qed.

Lemma inject_Z_nonneg (z : Z) : (0 <= z)%Z -> 0 <= inject_Z z.
Proof. intros H. change 0 with (inject_Z 0). now rewrite <- Zle_Qle. Qed.

Lemma hundredth_le (a b : Q) : a <= b -> a / 100 <= b / 100.
Proof.
  intros H. unfold Qdiv. apply Qmult_le_compat_r; [exact H | discriminate].
Qed.

Lemma round2_mono (x x' : Q) : x <= x' -> MLModelWrapper.round2 x <= MLModelWrapper.round2 x'.
Proof.
  intros Hx. unfold MLModelWrapper.round2.
  assert (H : (MLModelWrapper.round_half_even (x * 100)
               <= MLModelWrapper.round_half_even (x' * 100))%Z)
    by (apply round_half_even_mono; lra).
  rewrite Zle_Qle in H. now apply hundredth_le.
Qed.

Lemma round2_nonneg (x : Q) : 0 <= x -> 0 <= MLModelWrapper.round2 x.
Proof.
  intros Hx. unfold MLModelWrapper.round2.
  assert (H0 : (0 <= Qfloor (x * 100))%Z).
  { change 0%Z with (Qfloor 0). apply Qfloor_resp_le. lra. }
  pose proof (round_half_even_floor (x * 100)) as Hr.
  assert (H : 0 <= inject_Z (MLModelWrapper.round_half_even (x * 100)))
    by (apply inject_Z_nonneg; lia).
  apply (Qle_trans _ (0 / 100)); [discriminate | apply (hundredth_le 0 _ H)].
Qed.

Lemma py_max_mono (a b : Q) : a <= b -> Pd.py_max 0 (Some a) <= Pd.py_max 0 (Some b).
Proof.
  intros H. unfold Pd.py_max.
  destruct (Pd.Qltb 0 a) eqn:A; destruct (Pd.Qltb 0 b) eqn:B;
    rewrite ?Qltb_lt, ?Qltb_ge in *; lra.
Qed.

Lemma py_max_nonneg (a : Q) : 0 <= Pd.py_max 0 (Some a).
Proof.
  unfold Pd.py_max. destruct (Pd.Qltb 0 a) eqn:A; rewrite ?Qltb_lt, ?Qltb_ge in *; lra.
Qed.

Lemma py_max_between (lo hi a : Q) :
  0 <= lo -> lo <= a -> a <= hi -> lo <= Pd.py_max 0 (Some a) /\ Pd.py_max 0 (Some a) <= hi.
Proof.
  intros H0 H1 H2. unfold Pd.py_max.
  destruct (Pd.Qltb 0 a) eqn:A; rewrite ?Qltb_lt, ?Qltb_ge in *; lra.
Qed.

Lemma time_multiplier_bounds (t : Z) :
  9 # 10 <= get_item Z.eqb MLModelWrapper.time_multiplier t 1 /\
  get_item Z.eqb MLModelWrapper.time_multiplier t 1 <= 13 # 10.
Proof.
  unfold get_item, MLModelWrapper.time_multiplier. cbn [List.find fst snd].
  destruct (0 =? t)%Z; [cbn [snd]; lra|]. destruct (1 =? t)%Z; [cbn [snd]; lra|].
  destruct (2 =? t)%Z; [cbn [snd]; lra|]. destruct (3 =? t)%Z; cbn [snd]; lra.
Qed.

Lemma weather_multiplier_bounds (w : string) :
  1 <= get_item String.eqb MLModelWrapper.weather_multiplier w 1 /\
  get_item String.eqb MLModelWrapper.weather_multiplier w 1 <= 2.
Proof.
  unfold get_item, MLModelWrapper.weather_multiplier. cbn [List.find fst snd].
  destruct (String.eqb "clear" w); [cbn [snd]; lra|].
  destruct (String.eqb "cloudy" w); [cbn [snd]; lra|].
  destruct (String.eqb "rainy" w); [cbn [snd]; lra|].
  destruct (String.eqb "snowy" w); cbn [snd]; lra.
Qed.

(** The delay before rounding, from the multipliers and the two
    integers. *)
Lemma mock_predict_eq (f : MLModelWrapper.features) :
  MLModelWrapper._mock_predict f
  = let wm := get_item String.eqb MLModelWrapper.weather_multiplier
                       (Py.lower (get (MLModelWrapper.weather f) "clear")) 1 in
    let tm := get_item Z.eqb MLModelWrapper.time_multiplier
                       (get (MLModelWrapper.time_of_day f) 1%Z) 1 in
    let base := (10 * wm
                 + inject_Z (get (MLModelWrapper.passenger_count f) 100%Z) * (1 # 100) * 2)
                * tm in
    let base := if (get (MLModelWrapper.is_weekend f) 0 =? 1)%Z
                then base * (8 # 10) else base in
    MLModelWrapper.round2
      (Pd.py_max 0 (Some (base + inject_Z (get (MLModelWrapper.route_id f) 1%Z mod 3)
                                 * (15 # 10)))).
Proof. reflexivity. Qed.

Lemma init_ranges (route : Z) (w : string) (pc period weekend : Z)
      (request : PredictionRequest.t) :
  PredictionRequest.init route w pc period weekend = Ok request ->
  (1 <= route <= 10 /\ 0 <= pc <= 500 /\ 0 <= period <= 3 /\ 0 <= weekend <= 1)%Z.
Proof.
  unfold PredictionRequest.init, PredictionRequest.field_ge_le.
  destruct ((1 <=? route) && (route <=? 10))%Z eqn:E1; cbn [rbind]; [|discriminate].
  destruct (PredictionRequest.validate_weather w); cbn [rbind]; [|discriminate].
  destruct ((0 <=? pc) && (pc <=? 500))%Z eqn:E2; cbn [rbind]; [|discriminate].
  destruct ((0 <=? period) && (period <=? 3))%Z eqn:E3; cbn [rbind]; [|discriminate].
  destruct ((0 <=? weekend) && (weekend <=? 1))%Z eqn:E4; cbn [rbind]; [|discriminate].
  intros _. lia.
Qed.

Lemma inject_Z_between (lo hi z : Z) :
  (lo <= z <= hi)%Z -> inject_Z lo <= inject_Z z /\ inject_Z z <= inject_Z hi.
Proof. intros [H1 H2]. now rewrite <- !Zle_Qle. Qed.

Lemma mock_predict_pc_mono (f : MLModelWrapper.features) (pc pc' : Z) :
  (pc <= pc')%Z ->
  MLModelWrapper._mock_predict (with_passenger_count pc f)
  <= MLModelWrapper._mock_predict (with_passenger_count pc' f).
Proof.
  intros Hpc. rewrite !mock_predict_eq. cbv zeta. unfold with_passenger_count.
  cbn [MLModelWrapper.weather MLModelWrapper.time_of_day MLModelWrapper.passenger_count
       MLModelWrapper.is_weekend MLModelWrapper.route_id].
  cbn [get]. apply round2_mono, py_max_mono.
  destruct (time_multiplier_bounds (get (MLModelWrapper.time_of_day f) 1%Z)) as [Ht _].
  rewrite Zle_Qle in Hpc.
  generalize dependent (get_item Z.eqb MLModelWrapper.time_multiplier
                                 (get (MLModelWrapper.time_of_day f) 1%Z) 1).
  intros tm Ht.
  generalize (get_item String.eqb MLModelWrapper.weather_multiplier
                       (Py.lower (get (MLModelWrapper.weather f) "clear")) 1).
  intros wm.
  generalize (inject_Z (get (MLModelWrapper.route_id f) 1%Z mod 3)). intros r.
  generalize dependent (inject_Z pc). intros x. generalize (inject_Z pc'). intros x' Hx.
  destruct (get (MLModelWrapper.is_weekend f) 0 =? 1)%Z; nra.
Qed.

Lemma mock_predict_weather_mono (f : MLModelWrapper.features) (w w' : string) :
  get_item String.eqb MLModelWrapper.weather_multiplier (Py.lower w) 1
  <= get_item String.eqb MLModelWrapper.weather_multiplier (Py.lower w') 1 ->
  MLModelWrapper._mock_predict (with_weather w f)
  <= MLModelWrapper._mock_predict (with_weather w' f).
Proof.
  intros Hw. rewrite !mock_predict_eq. cbv zeta. unfold with_weather.
  cbn [MLModelWrapper.weather MLModelWrapper.time_of_day MLModelWrapper.passenger_count
       MLModelWrapper.is_weekend MLModelWrapper.route_id].
  cbn [get]. apply round2_mono, py_max_mono.
  destruct (time_multiplier_bounds (get (MLModelWrapper.time_of_day f) 1%Z)) as [Ht _].
  generalize dependent (get_item Z.eqb MLModelWrapper.time_multiplier
                                 (get (MLModelWrapper.time_of_day f) 1%Z) 1).
  intros tm Ht.
  generalize dependent (get_item String.eqb MLModelWrapper.weather_multiplier
                                 (Py.lower w) 1).
  intros wm.
  generalize (get_item String.eqb MLModelWrapper.weather_multiplier (Py.lower w') 1).
  intros wm' Hw.
  generalize (inject_Z (get (MLModelWrapper.route_id f) 1%Z mod 3)). intros r.
  generalize (inject_Z (get (MLModelWrapper.passenger_count f) 100%Z)). intros x.
  destruct (get (MLModelWrapper.is_weekend f) 0 =? 1)%Z; nra.
Qed.

Lemma mock_predict_request (route : Z) (w : string) (pc period weekend : Z) :
  (0 <= pc <= 500)%Z ->
  36 # 5 <= MLModelWrapper._mock_predict
              (MLModelWrapper.mk_features (Some route) (Some w) (Some pc) (Some period)
                                          (Some weekend)) /\
  MLModelWrapper._mock_predict
    (MLModelWrapper.mk_features (Some route) (Some w) (Some pc) (Some period) (Some weekend))
  <= 42.
Proof.
  intros Hpc. rewrite mock_predict_eq. cbv zeta.
  cbn [MLModelWrapper.weather MLModelWrapper.time_of_day MLModelWrapper.passenger_count
       MLModelWrapper.is_weekend MLModelWrapper.route_id].
  cbn [get].
  assert (Hb : 36 # 5 <= MLModelWrapper.round2 (36 # 5) /\ MLModelWrapper.round2 42 <= 42)
    by (split; vm_compute; discriminate).
  destruct Hb as [Hlo Hhi].
  pose proof (time_multiplier_bounds period) as [Ht1 Ht2].
  pose proof (weather_multiplier_bounds (Py.lower w)) as [Hw1 Hw2].
  pose proof (inject_Z_between 0 500 pc Hpc) as [Hp1 Hp2].
  assert (Hm : (0 <= route mod 3 <= 2)%Z)
    by (pose proof (Z.mod_pos_bound route 3); lia).
  pose proof (inject_Z_between 0 2 _ Hm) as [Hm1 Hm2].
  change (inject_Z 0) with 0 in *. change (inject_Z 500) with 500 in *.
  change (inject_Z 2) with 2 in *.
  generalize dependent (get_item Z.eqb MLModelWrapper.time_multiplier period 1).
  intros tm Ht1 Ht2.
  generalize dependent (get_item String.eqb MLModelWrapper.weather_multiplier
                                 (Py.lower w) 1).
  intros wm Hw1 Hw2.
  generalize dependent (inject_Z (route mod 3)). intros r Hm1 Hm2.
  generalize dependent (inject_Z pc). intros x Hp1 Hp2.
  match goal with
  | |- _ <= MLModelWrapper.round2 (Pd.py_max 0 (Some ?b)) /\ _ =>
      assert (Hbase : 36 # 5 <= b /\ b <= 42)
  end.
  { destruct (weekend =? 1)%Z; split; nra. }
  destruct Hbase as [B1 B2].
  destruct (py_max_between (36 # 5) 42 _ ltac:(lra) B1 B2) as [M1 M2].
  split.
  - eapply Qle_trans; [exact Hlo | now apply round2_mono].
  - eapply Qle_trans; [apply round2_mono; exact M2 | exact Hhi].
Qed.

(** X19. [MLModelWrapper._mock_predict], the predictor used when no
    trained model is available: the prediction is never negative; it
    does not decrease when the passenger count grows, nor when the
    weather goes from clear to cloudy, to rainy, to snowy, everything
    else equal; and for every request the API accepts it lies between
    7.2 and 42 minutes. *)
Theorem mock_predict_spec :
  (forall f, 0 <= MLModelWrapper._mock_predict f) /\
  (forall f pc pc',
      (pc <= pc')%Z ->
      MLModelWrapper._mock_predict (with_passenger_count pc f)
      <= MLModelWrapper._mock_predict (with_passenger_count pc' f)) /\
  (forall f,
      MLModelWrapper._mock_predict (with_weather "clear" f)
      <= MLModelWrapper._mock_predict (with_weather "cloudy" f) /\
      MLModelWrapper._mock_predict (with_weather "cloudy" f)
      <= MLModelWrapper._mock_predict (with_weather "rainy" f) /\
      MLModelWrapper._mock_predict (with_weather "rainy" f)
      <= MLModelWrapper._mock_predict (with_weather "snowy" f)) /\
  (forall route w pc period weekend request,
      PredictionRequest.init route w pc period weekend = Ok request ->
      36 # 5 <= MLModelWrapper._mock_predict (prepare_request_features request) /\
      MLModelWrapper._mock_predict (prepare_request_features request) <= 42).
Proof.
  split; [|split; [|split]].
  - intros f. apply round2_nonneg, py_max_nonneg.
  - exact mock_predict_pc_mono.
  - intros f. repeat split; apply mock_predict_weather_mono; vm_compute; discriminate.
  - intros route w pc period weekend request Hinit.
    destruct (init_ranges _ _ _ _ _ _ Hinit) as (_ & Hpc & _).
    destruct (validated_weather _ _ _ _ _ _ Hinit) as [-> _].
    unfold prepare_request_features.
    cbn [PredictionRequest.route_id PredictionRequest.weather
         PredictionRequest.passenger_count PredictionRequest.time_of_day
         PredictionRequest.is_weekend].
    now apply mock_predict_request.
Qed.

Lemma mock_predict_spec_witness :
  MLModelWrapper._mock_predict
    (with_passenger_count 100 (prepare_request_features (PredictionRequest.mk 3 "rainy" 0 1 0)))
  <= MLModelWrapper._mock_predict
       (with_passenger_count 120
          (prepare_request_features (PredictionRequest.mk 3 "rainy" 0 1 0))).
Proof.
  destruct mock_predict_spec as (_ & Hmono & _).
  apply Hmono. lia.
Defined.

Lemma round_half_even_near (y : Q) :
  inject_Z (MLModelWrapper.round_half_even y) - (1 # 2) <= y /\
  y <= inject_Z (MLModelWrapper.round_half_even y) + (1 # 2).
Proof.
  pose proof (Qfloor_le y) as Hlo. pose proof (Qlt_floor y) as Hhi.
  rewrite inject_Z_plus in Hhi. change (inject_Z 1) with 1 in Hhi.
  unfold MLModelWrapper.round_half_even. cbv zeta.
  destruct (Pd.Qltb (y - inject_Z (Qfloor y)) (1 # 2)) eqn:A1;
    [apply Qltb_lt in A1; lra|].
  apply Qltb_ge in A1.
  destruct (Pd.Qltb (1 # 2) (y - inject_Z (Qfloor y))) eqn:A2.
  - apply Qltb_lt in A2. rewrite inject_Z_plus. change (inject_Z 1) with 1. lra.
  - apply Qltb_ge in A2. destruct (Z.even (Qfloor y)); [lra|].
    rewrite inject_Z_plus. change (inject_Z 1) with 1. lra.
Qed.

Lemma round2_near (x : Q) :
  x - (1 # 200) <= MLModelWrapper.round2 x /\ MLModelWrapper.round2 x <= x + (1 # 200).
Proof.
  destruct (round_half_even_near (x * 100)) as [H1 H2]. unfold MLModelWrapper.round2.
  unfold Qdiv. change (/ 100) with (1 # 100).
  generalize dependent (inject_Z (MLModelWrapper.round_half_even (x * 100))).
  intros r H1 H2. lra.
Qed.

Lemma round2_zero : MLModelWrapper.round2 0 == 0.
Proof. reflexivity. Qed.

(** X20. [MLModelWrapper.predict] never returns a negative delay,
    whatever the loaded model answers and for all features.  Without
    a loaded model, or when the model raises, the prediction is the
    mock prediction.  Otherwise a raw prediction that is not positive
    gives 0, and one that is not negative is returned rounded, at most
    half a hundredth away. *)
Theorem predict_spec
  (_model_loaded : bool) (_feature_names : list string)
  (model_predict : list (string * Z) -> result Q) (f : MLModelWrapper.features) :
  let delay := MLModelWrapper.predict _model_loaded _feature_names model_predict f in
  0 <= delay /\
  match _model_loaded,
        model_predict (MLModelWrapper._prepare_features _feature_names f) with
  | true, Ok raw =>
      (raw <= 0 -> delay == 0) /\
      (0 <= raw -> raw - (1 # 200) <= delay /\ delay <= raw + (1 # 200))
  | _, _ => delay = MLModelWrapper._mock_predict f
  end.
Proof.
  cbv zeta. unfold MLModelWrapper.predict.
  assert (Hmock : 0 <= MLModelWrapper._mock_predict f)
    by apply round2_nonneg, py_max_nonneg.
  destruct _model_loaded; cbn [negb]; [|split; [exact Hmock | reflexivity]].
  destruct (model_predict _) as [raw|e]; [|split; [exact Hmock | reflexivity]].
  split; [apply round2_nonneg, py_max_nonneg|]. split.
  - intros Hraw. unfold Pd.py_max.
    destruct (Pd.Qltb 0 raw) eqn:E; [apply Qltb_lt in E; lra | exact round2_zero].
  - intros Hraw. unfold Pd.py_max.
    destruct (Pd.Qltb 0 raw) eqn:E; [apply round2_near|].
    apply Qltb_ge in E. rewrite round2_zero. lra.
Qed.

Lemma predict_spec_witness :
  MLModelWrapper.predict true MLModelWrapper.default_feature_names (fun _ => Ok (-3))
                         (prepare_request_features (PredictionRequest.mk 3 "rainy" 120 1 0))
  == 0.
Proof.
  pose proof (predict_spec true MLModelWrapper.default_feature_names (fun _ => Ok (-3))
                (prepare_request_features (PredictionRequest.mk 3 "rainy" 120 1 0))) as H.
  cbv beta iota zeta in H. destruct H as [_ [H _]]. apply H. lra.
Defined.

End Predictions.
